(** * Progressive Note-Taker: a shallow embedding of the note flow

    The development follows the TypeScript sources of
    [cookbook/note-taker]: the text utilities ([utils/extractors.ts],
    [utils/files.ts]), the eight nodes ([nodes/*.ts]) and the wiring of
    the flow ([flows/note_flow.ts]).

    JavaScript strings are sequences of UTF-16 code units; they are
    modelled as [list N].  Effects (network, file system, clock, the
    generative-text service) are threaded through a state-and-exception
    monad over an abstract world. *)

From Stdlib Require Import NArith Ascii String Decimal DecimalNat.
From stdpp Require Import gmap strings list.

Set Default Proof Using "Type".
Local Open Scope N_scope.

(** ** JavaScript strings *)

Module Js.

Abbreviation jsstring := (list N).

(** A literal of ASCII characters, as its code units. *)
Definition str (s : string) : jsstring :=
  List.map N_of_ascii (list_ascii_of_string s).

(** The double quote character, code unit 34. *)
Definition dq : jsstring := [34].
(** The line feed character. *)
Definition nl : jsstring := [10].

(** ECMAScript [WhiteSpace] and [LineTerminator] code points: what
    [String.prototype.trim] strips and what [\s] matches. *)
Definition isWhiteSpace (c : N) : bool :=
  (c =? 9) || (c =? 10) || (c =? 11) || (c =? 12) || (c =? 13) ||
  (c =? 32) || (c =? 160) || (c =? 5760) ||
  ((8192 <=? c) && (c <=? 8202)) ||
  (c =? 8232) || (c =? 8233) || (c =? 8239) || (c =? 8287) ||
  (c =? 12288) || (c =? 65279).

Fixpoint dropWhile {A} (p : A -> bool) (l : list A) : list A :=
  match l with
  | [] => []
  | x :: l' => if p x then dropWhile p l' else l
  end.

Fixpoint takeWhile {A} (p : A -> bool) (l : list A) : list A :=
  match l with
  | [] => []
  | x :: l' => if p x then x :: takeWhile p l' else []
  end.

Definition trimStart (s : jsstring) : jsstring := dropWhile isWhiteSpace s.
Definition trimEnd (s : jsstring) : jsstring :=
  rev (dropWhile isWhiteSpace (rev s)).
(** [s.trim()] *)
Definition trim (s : jsstring) : jsstring := trimEnd (trimStart s).

(** [s.split(/\s+/)]: the fields between maximal runs of white space.
    [cur] is the field being read (reversed); [skipping] tells that the
    previous code unit belonged to a separator. *)
Fixpoint split_ws_from (cur : jsstring) (skipping : bool) (s : jsstring)
  : list jsstring :=
  match s with
  | [] => [rev cur]
  | c :: s' =>
      if isWhiteSpace c
      then if skipping then split_ws_from cur true s'
           else rev cur :: split_ws_from [] true s'
      else split_ws_from (c :: cur) false s'
  end.

Definition split_ws (s : jsstring) : list jsstring := split_ws_from [] false s.

(** JavaScript truthiness of a string: the empty string is falsy. *)
Definition truthy (s : jsstring) : bool :=
  match s with [] => false | _ => true end.

(** [a || b] on strings. *)
Definition or_else (a b : jsstring) : jsstring := if truthy a then a else b.

(** [o || b] where [o] may be [undefined]. *)
Definition opt_or_else (o : option jsstring) (b : jsstring) : jsstring :=
  match o with
  | Some a => or_else a b
  | None => b
  end.

Fixpoint startsWith (s pre : jsstring) : bool :=
  match pre, s with
  | [], _ => true
  | p :: pre', c :: s' => (c =? p) && startsWith s' pre'
  | _ :: _, [] => false
  end.

Definition endsWith (s suf : jsstring) : bool := startsWith (rev s) (rev suf).

(** [String(n)] for a non-negative integer below 10^21: its decimal
    digits. *)
Fixpoint digits (u : Decimal.uint) : jsstring :=
  match u with
  | Decimal.Nil => []
  | Decimal.D0 u => 48 :: digits u
  | Decimal.D1 u => 49 :: digits u
  | Decimal.D2 u => 50 :: digits u
  | Decimal.D3 u => 51 :: digits u
  | Decimal.D4 u => 52 :: digits u
  | Decimal.D5 u => 53 :: digits u
  | Decimal.D6 u => 54 :: digits u
  | Decimal.D7 u => 55 :: digits u
  | Decimal.D8 u => 56 :: digits u
  | Decimal.D9 u => 57 :: digits u
  end.

Definition Number_toString (n : nat) : jsstring := digits (Nat.to_uint n).

(** [lines.join('\n')] *)
Fixpoint join_lines (lines : list jsstring) : jsstring :=
  match lines with
  | [] => []
  | [l] => l
  | l :: rest => l ++ nl ++ join_lines rest
  end.

End Js.
Import Js.

(** ** utils/extractors.ts and utils/files.ts: pure text utilities *)

(** [countWords]: [text.trim().split(/\s+/).filter(Boolean).length].
    The two copies in [extractors.ts] and [files.ts] are identical. *)
Definition countWords (text : jsstring) : nat :=
  length (List.filter truthy (split_ws (trim text))).

(** [extractTitleFromText]: the first line of the trimmed text, with the
    heading marks removed, cut to 100 code units. *)
Definition extractTitleFromText (text : jsstring) : jsstring :=
  (* text.trim().split('\n')[0] *)
  let line0 := takeWhile (fun c => negb (c =? 10)) (trim text) in
  let firstLine := or_else (trim line0) (str "Untitled") in
  if startsWith firstLine (str "#")
  then (* firstLine.replace(/^#+\s*/, '') *)
    dropWhile isWhiteSpace (dropWhile (fun c => c =? 35) firstLine)
  else if (length firstLine <=? 100)%nat
  then firstLine
  else take 97 firstLine ++ str "...".

(** [ExtractionResult] *)
Record ExtractionMetadata := {
  em_title : option jsstring;
  em_author : option jsstring;
  em_date : option jsstring;
  em_wordCount : nat
}.

Record ExtractionResult := {
  er_content : jsstring;
  er_metadata : ExtractionMetadata
}.

(** [extractFromText]: pass-through. *)
Definition extractFromText (input : jsstring) : ExtractionResult :=
  let wordCount := countWords input in
  let title := extractTitleFromText input in
  {| er_content := input;
     er_metadata := {| em_title := Some title; em_author := None;
                       em_date := None; em_wordCount := wordCount |} |}.

Definition hello_note : jsstring :=
  str "Hello world. This is a short note about focus.".

(** ** Exceptions and effects

    A computation over a state [S] returns a value or throws, and in both
    cases leaves a state behind: what a JavaScript function did before it
    threw stays done. *)

Record JsError := {
  err_code : option string;     (* [error.code], e.g. ["EEXIST"] *)
  err_message : jsstring        (* [error.message] *)
}.

(** [new Error(message)] *)
Definition Error (message : jsstring) : JsError :=
  {| err_code := None; err_message := message |}.

Inductive Result (A : Type) : Type :=
| Ok (a : A)
| Throw (e : JsError).
Arguments Ok {A} a.
Arguments Throw {A} e.

Definition M (S A : Type) : Type := S -> Result A * S.

Definition ret {S A} (a : A) : M S A := fun s => (Ok a, s).

Definition bind {S A B} (c : M S A) (k : A -> M S B) : M S B :=
  fun s => match c s with
           | (Ok a, s') => k a s'
           | (Throw e, s') => (Throw e, s')
           end.

Definition throw {S A} (e : JsError) : M S A := fun s => (Throw e, s).

(** [try { c } catch (error) { h error }] *)
Definition try_catch {S A} (c : M S A) (h : JsError -> M S A) : M S A :=
  fun s => match c s with
           | (Ok a, s') => (Ok a, s')
           | (Throw e, s') => h e s'
           end.

Definition gets {S A} (f : S -> A) : M S A := fun s => (Ok (f s), s).
Definition modify {S} (f : S -> S) : M S unit := fun s => (Ok tt, f s).

#[global] Instance M_ret {S} : MRet (M S) := fun A a => ret a.
#[global] Instance M_bind {S} : MBind (M S) := fun A B k c => bind c k.

(** ** types.ts: the data model *)

Inductive InputType := Text | Pdf | Image | Url.

#[global] Instance InputType_eq_dec : EqDecision InputType.
Proof. solve_decision. Defined.

(** The string a value of [InputType] is at run time. *)
Definition InputType_label (t : InputType) : string :=
  match t with
  | Text => "text"
  | Pdf => "pdf"
  | Image => "image"
  | Url => "url"
  end.

Inductive LayerName :=
| InitialCapture | KeyPassages | DistilledInsights | ExecutiveSummary
| CreativeOutput.

Definition LayerName_string (n : LayerName) : string :=
  match n with
  | InitialCapture => "Initial Capture"
  | KeyPassages => "Key Passages"
  | DistilledInsights => "Distilled Insights"
  | ExecutiveSummary => "Executive Summary"
  | CreativeOutput => "Creative Output"
  end.

Record Input := {
  in_raw : jsstring;
  in_type : option InputType;
  in_focusArea : option jsstring;
  in_outputFormat : option jsstring
}.

Record Metadata := {
  md_title : jsstring;
  md_author : option jsstring;
  md_date : option jsstring;
  md_sourceType : jsstring;
  md_wordCount : nat
}.

Record Content := {
  ct_raw : jsstring;
  ct_sections : option (list jsstring)
}.

Record Layers := {
  layer1 : option jsstring;
  layer2 : option jsstring;
  layer3 : option jsstring;
  layer4 : option jsstring;
  layer5 : option jsstring
}.

Record Output := {
  out_directory : jsstring;
  out_timestamp : option jsstring;
  out_slug : option jsstring;
  out_savedFiles : list jsstring
}.

Record SharedState := {
  input : Input;
  metadata : Metadata;
  content : Content;
  layers : Layers;
  output : Output
}.

Record LayerEntry := {
  le_level : nat;
  le_name : LayerName;
  le_content : jsstring
}.

Record Processing := {
  cfg_maxRetries : nat;   (* Default: 3 *)
  cfg_retryWait : nat     (* Default: 2 (seconds) *)
}.

(** The [processing] part of [defaultConfig]; the [llm] and [output] parts
    configure the external services and are not modelled. *)
Definition defaultConfig_processing : Processing :=
  {| cfg_maxRetries := 3; cfg_retryWait := 2 |}.

Record InitialOptions := {
  opt_focusArea : option jsstring;
  opt_outputFormat : option jsstring;
  opt_outputDirectory : option jsstring
}.

Definition no_options : InitialOptions :=
  {| opt_focusArea := None; opt_outputFormat := None;
     opt_outputDirectory := None |}.

(** [createInitialState] *)
Definition createInitialState (inp : jsstring) (options : InitialOptions)
  : SharedState :=
  {| input := {| in_raw := inp; in_type := None;
                 in_focusArea := opt_focusArea options;
                 in_outputFormat := opt_outputFormat options |};
     metadata := {| md_title := []; md_author := None; md_date := None;
                    md_sourceType := []; md_wordCount := 0 |};
     content := {| ct_raw := []; ct_sections := None |};
     layers := {| layer1 := None; layer2 := None; layer3 := None;
                  layer4 := None; layer5 := None |};
     output := {| out_directory :=
                    opt_or_else (opt_outputDirectory options)
                                (str "./data/notes");
                  out_timestamp := None; out_slug := None;
                  out_savedFiles := [] |} |}.

(** Assignments to one field of the shared state. *)
Definition set_input_type (t : InputType) (sh : SharedState) : SharedState :=
  {| input := {| in_raw := in_raw (input sh); in_type := Some t;
                 in_focusArea := in_focusArea (input sh);
                 in_outputFormat := in_outputFormat (input sh) |};
     metadata := metadata sh; content := content sh; layers := layers sh;
     output := output sh |}.

Definition set_content_raw (c : jsstring) (sh : SharedState) : SharedState :=
  {| input := input sh; metadata := metadata sh;
     content := {| ct_raw := c; ct_sections := ct_sections (content sh) |};
     layers := layers sh; output := output sh |}.

Definition set_metadata (m : Metadata) (sh : SharedState) : SharedState :=
  {| input := input sh; metadata := m; content := content sh;
     layers := layers sh; output := output sh |}.

Definition set_layers (l : Layers) (sh : SharedState) : SharedState :=
  {| input := input sh; metadata := metadata sh; content := content sh;
     layers := l; output := output sh |}.

Definition set_layer1 (r : jsstring) (sh : SharedState) : SharedState :=
  set_layers {| layer1 := Some r; layer2 := layer2 (layers sh);
                layer3 := layer3 (layers sh); layer4 := layer4 (layers sh);
                layer5 := layer5 (layers sh) |} sh.

Definition set_layer2 (r : jsstring) (sh : SharedState) : SharedState :=
  set_layers {| layer1 := layer1 (layers sh); layer2 := Some r;
                layer3 := layer3 (layers sh); layer4 := layer4 (layers sh);
                layer5 := layer5 (layers sh) |} sh.

Definition set_layer3 (r : jsstring) (sh : SharedState) : SharedState :=
  set_layers {| layer1 := layer1 (layers sh); layer2 := layer2 (layers sh);
                layer3 := Some r; layer4 := layer4 (layers sh);
                layer5 := layer5 (layers sh) |} sh.

Definition set_layer4 (r : jsstring) (sh : SharedState) : SharedState :=
  set_layers {| layer1 := layer1 (layers sh); layer2 := layer2 (layers sh);
                layer3 := layer3 (layers sh); layer4 := Some r;
                layer5 := layer5 (layers sh) |} sh.

Definition set_layer5 (r : jsstring) (sh : SharedState) : SharedState :=
  set_layers {| layer1 := layer1 (layers sh); layer2 := layer2 (layers sh);
                layer3 := layer3 (layers sh); layer4 := layer4 (layers sh);
                layer5 := Some r |} sh.

Definition set_output (o : Output) (sh : SharedState) : SharedState :=
  {| input := input sh; metadata := metadata sh; content := content sh;
     layers := layers sh; output := o |}.

Definition set_output_timestamp (t : jsstring) (sh : SharedState)
  : SharedState :=
  set_output {| out_directory := out_directory (output sh);
                out_timestamp := Some t; out_slug := out_slug (output sh);
                out_savedFiles := out_savedFiles (output sh) |} sh.

Definition set_output_slug (g : jsstring) (sh : SharedState) : SharedState :=
  set_output {| out_directory := out_directory (output sh);
                out_timestamp := out_timestamp (output sh);
                out_slug := Some g;
                out_savedFiles := out_savedFiles (output sh) |} sh.

Definition set_output_savedFiles (fs : list jsstring) (sh : SharedState)
  : SharedState :=
  set_output {| out_directory := out_directory (output sh);
                out_timestamp := out_timestamp (output sh);
                out_slug := out_slug (output sh);
                out_savedFiles := fs |} sh.

(** ** The platform

    What the program gets from Node.js, from its libraries and from the
    network: pure built-ins, and effects on a world the program does not
    own. *)

(** The local-time fields of a [Date] that [generateTimestamp] reads. *)
Record Date := {
  getFullYear : nat;
  getMonth : nat;       (* 0 .. 11 *)
  getDate : nat;
  getHours : nat;
  getMinutes : nat;
  getSeconds : nat
}.

(** What [extractFromURL] reads of a [fetch] response. *)
Record Response := {
  resp_ok : bool;
  resp_status : nat;
  resp_statusText : jsstring
}.

(** What [extractFromPDF] reads of the result of [pdf-parse]. *)
Record PdfData := {
  pdf_text : jsstring;
  pdf_info_Title : option jsstring;
  pdf_info_Author : option jsstring
}.

(** [LLMOptions]; the temperature is given in tenths (0.3 is 3). *)
Record LLMOptions := { temperature_tenths : nat }.

Class Platform := {
  World : Type;
  (** [new URL(input)] returns instead of throwing *)
  URL_parses : jsstring -> bool;
  (** [String.prototype.toLowerCase] *)
  toLowerCase : jsstring -> jsstring;
  (** the [slugify] package, with [{lower, strict, trim}] *)
  slugifyLib : jsstring -> jsstring;
  (** [path.join] of two segments *)
  path_join : jsstring -> jsstring -> jsstring;
  (** [JSON.stringify] of a layer entry *)
  JSON_stringify : LayerEntry -> jsstring;
  (** [new Date()] and [new Date().toISOString()] *)
  Date_now : World -> Date;
  Date_now_toISOString : World -> jsstring;
  (** a timer of the given number of seconds elapses *)
  setTimeout_elapsed : nat -> World -> World;
  (** [fs/promises] *)
  mkdir_recursive : jsstring -> M World unit;
  writeFile : jsstring -> jsstring -> M World unit;
  (** [fetch(url, {headers})] and [response.text()] *)
  fetch : jsstring -> M World Response;
  response_text : Response -> M World jsstring;
  (** [pdfParse(await readFile(filePath))] *)
  pdf_parse_file : jsstring -> M World PdfData;
  (** [callLlm] of [utils/llm.ts]: the request to the configured
      provider *)
  callLlm : jsstring -> LLMOptions -> M World jsstring
}.

(** ** utils/files.ts *)

Record LayerMetadata := {
  lm_title : jsstring;
  lm_layer : nat;
  lm_layerName : LayerName;
  lm_sourceType : jsstring;
  lm_created : jsstring;
  lm_wordCount : nat;
  lm_author : option jsstring
}.

(** [String(n).padStart(2, '0')] *)
Definition pad2 (n : nat) : jsstring :=
  let s := Number_toString n in
  List.repeat 48 (2 - length s) ++ s.

(** [generateTimestamp]: [YYYYMMDD-HHmmss] *)
Definition generateTimestamp (d : Date) : jsstring :=
  let year := Number_toString (getFullYear d) in
  let month := pad2 (getMonth d + 1) in
  let day := pad2 (getDate d) in
  let hours := pad2 (getHours d) in
  let minutes := pad2 (getMinutes d) in
  let seconds := pad2 (getSeconds d) in
  year ++ month ++ day ++ str "-" ++ hours ++ minutes ++ seconds.

(** [generateLayerFilename] *)
Definition generateLayerFilename (timestamp slug : jsstring) (level : nat)
  : jsstring :=
  timestamp ++ str "_" ++ slug ++ str "_level-" ++ Number_toString level
    ++ str ".md".

(** [escapeYamlString]: [str.replace(/"/g, '\\"')] *)
Definition escapeYamlString (s : jsstring) : jsstring :=
  List.flat_map (fun c => if c =? 34 then [92; 34] else [c]) s.

(** [generateFrontmatter] *)
Definition generateFrontmatter (metadata : LayerMetadata) : jsstring :=
  let lines :=
    [ str "---";
      str "title: " ++ dq ++ escapeYamlString (lm_title metadata) ++ dq;
      str "layer: " ++ Number_toString (lm_layer metadata);
      str "layer_name: " ++ dq
        ++ str (LayerName_string (lm_layerName metadata)) ++ dq;
      str "source: " ++ dq ++ lm_sourceType metadata ++ dq;
      str "created: " ++ dq ++ lm_created metadata ++ dq;
      str "word_count: " ++ Number_toString (lm_wordCount metadata) ] in
  let lines :=
    match lm_author metadata with
    | Some author =>
        if truthy author
        then lines ++ [str "author: " ++ dq ++ escapeYamlString author ++ dq]
        else lines
    | None => lines
    end in
  let lines := lines ++ [str "---"] in
  let lines := lines ++ [[]] in
  join_lines lines.

(** [getLayerName] *)
Definition getLayerName (level : nat) : LayerName :=
  match level with
  | 1 => InitialCapture
  | 2 => KeyPassages
  | 3 => DistilledInsights
  | 4 => ExecutiveSummary
  | 5 => CreativeOutput
  | _ => InitialCapture
  end%nat.

Section Files.
Context `{Platform}.

(** [slugify] *)
Definition slugify (title : jsstring) : jsstring := slugifyLib title.

(** [ensureDirectory]: an [EEXIST] error is ignored, any other is
    rethrown. *)
Definition ensureDirectory (dirPath : jsstring) : M World unit :=
  try_catch (mkdir_recursive dirPath)
    (fun error =>
       if bool_decide (err_code error = Some "EEXIST"%string)
       then ret tt
       else throw error).

(** The heading line of a layer file. *)
Definition layerHeader (metadata : LayerMetadata) : jsstring :=
  str "# L" ++ Number_toString (lm_layer metadata) ++ str ": "
    ++ lm_title metadata ++ str " - "
    ++ str (LayerName_string (lm_layerName metadata)) ++ nl ++ nl.

(** [saveLayer] *)
Definition saveLayer (directory filename content : jsstring)
    (metadata : LayerMetadata) : M World jsstring :=
  ensureDirectory directory ;;
  let filePath := path_join directory filename in
  let frontmatter := generateFrontmatter metadata in
  let header := layerHeader metadata in
  let fullContent := frontmatter ++ header ++ content in
  writeFile filePath fullContent ;;
  mret filePath.

End Files.

(** ** utils/extractors.ts *)

(** [PrepResult] of the layer nodes 1, 3, 4 and 5. *)
Record Layer1Prep := {
  l1_content : jsstring;
  l1_title : jsstring;
  l1_focusArea : option jsstring;
  l1_sourceType : jsstring;
  l1_author : option jsstring;
  l1_date : option jsstring
}.

Record Layer3Prep := {
  l3_layer2 : jsstring;
  l3_originalWordCount : nat
}.

Record Layer4Prep := {
  l4_layer3 : jsstring;
  l4_title : jsstring;
  l4_author : option jsstring
}.

Record Layer5Prep := {
  l5_layer3 : jsstring;
  l5_layer4 : jsstring;
  l5_title : jsstring;
  l5_outputFormat : option jsstring;
  l5_sourceType : jsstring
}.

(** The regular-expression helpers of [extractors.ts] ([htmlToText] and the
    three title extractors for HTML, URLs and paths) and the prompt
    templates of the five layer nodes are pure functions of their
    arguments; their text is left open. *)
Class Templates := {
  htmlToText : jsstring -> jsstring;
  extractTitleFromHTML : jsstring -> option jsstring;
  extractTitleFromURL : jsstring -> jsstring;
  extractTitleFromPath : jsstring -> jsstring;
  layer1_prompt : Layer1Prep -> jsstring;
  layer2_prompt : jsstring -> jsstring;
  layer3_prompt : Layer3Prep -> jsstring;
  layer4_prompt : Layer4Prep -> jsstring;
  layer5_prompt : Layer5Prep -> jsstring
}.

Section Extractors.
Context `{Platform} `{Templates}.

(** [extractFromPDF] *)
Definition extractFromPDF (filePath : jsstring) : M World ExtractionResult :=
  try_catch
    (data ← pdf_parse_file filePath;
     let content := pdf_text data in
     let wordCount := countWords content in
     mret {| er_content := content;
             er_metadata :=
               {| em_title :=
                    Some (opt_or_else (pdf_info_Title data)
                                      (extractTitleFromPath filePath));
                  em_author := pdf_info_Author data;
                  em_date := None;
                  em_wordCount := wordCount |} |})
    (fun error =>
       throw (Error (str "Failed to extract PDF content: "
                       ++ err_message error))).

(** [extractFromImage]: a placeholder, no OCR is performed. *)
Definition extractFromImage (filePath : jsstring) : ExtractionResult :=
  {| er_content :=
       str "[Image content from: " ++ filePath ++ str "]" ++ nl ++ nl
         ++ str "Note: OCR extraction requires tesseract.js or cloud OCR integration.";
     er_metadata :=
       {| em_title := Some (extractTitleFromPath filePath);
          em_author := None; em_date := None; em_wordCount := 0 |} |}.

(** [extractFromURL] *)
Definition extractFromURL (url : jsstring) : M World ExtractionResult :=
  try_catch
    (response ← fetch url;
     (if resp_ok response then mret tt
      else throw (Error (str "HTTP " ++ Number_toString (resp_status response)
                           ++ str ": " ++ resp_statusText response))) ;;
     html ← response_text response;
     let content := htmlToText html in
     let wordCount := countWords content in
     let title := match extractTitleFromHTML html with
                  | Some t => or_else t (extractTitleFromURL url)
                  | None => extractTitleFromURL url
                  end in
     now ← gets Date_now_toISOString;
     mret {| er_content := content;
             er_metadata :=
               {| em_title := Some title; em_author := None;
                  em_date := Some now; em_wordCount := wordCount |} |})
    (fun error =>
       throw (Error (str "Failed to fetch URL content: "
                       ++ err_message error))).

End Extractors.

(** ** The flow engine

    The nodes extend the classes [Node] and [BatchNode] of the [pocketflow]
    package and are run by its [Flow]; that package is not part of the
    sources followed here, so the engine is written after its
    specification. *)

(** The fields of the shared state that nodes assign. *)
Inductive Field :=
| F_input_type
| F_content_raw
| F_metadata
| F_output_timestamp
| F_output_slug
| F_layer1 | F_layer2 | F_layer3 | F_layer4 | F_layer5
| F_output_savedFiles.

#[global] Instance Field_eq_dec : EqDecision Field.
Proof. solve_decision. Defined.

(** Modelled from the spec: the retry policy a node declares, "a maximum
    attempt count and a fixed inter-attempt wait duration".  The
    constructor of the missing [Node] class takes both as optional
    arguments. *)
Record RetryPolicy := {
  maxRetries : nat;
  wait : nat
}.

(** Modelled from the spec: the values the missing [Node] constructor gives
    to the two arguments when they are omitted.  The spec does not state
    them; they are left open. *)
Class EngineDefaults := {
  default_maxRetries : nat;
  default_wait : nat
}.

Section Engine.
Context `{Platform}.
Context {Id : Type} `{EqDecision Id}.

(** What an instrumented run records: which node is activated, and each
    assignment to a field of the shared state. *)
Inductive Event :=
| Activated (n : Id)
| Wrote (f : Field).

(** The shared state (one mutable object passed by reference), the world,
    and the record of the run so far. *)
Record Store := {
  shared : SharedState;
  world : World;
  trace : list Event
}.

(** An effect on the world, performed while a flow runs. *)
Definition liftW {A} (c : M World A) : M Store A :=
  fun st =>
    let (r, w') := c (world st) in
    (r, {| shared := shared st; world := w'; trace := trace st |}).

Definition emit (e : Event) : M Store unit :=
  modify (fun st => {| shared := shared st; world := world st;
                       trace := trace st ++ [e] |}).

(** [shared.<field> = value]: the assignment, and its record. *)
Definition assign (f : Field) (upd : SharedState -> SharedState)
  : M Store unit :=
  modify (fun st => {| shared := upd (shared st); world := world st;
                       trace := trace st ++ [Wrote f] |}).

(** Modelled from the spec: the node contract of the missing [Node] and
    [BatchNode] classes.  "prepare(state): pure read of the shared state";
    "execute(PreparedInput): must not read or write shared state
    directly"; "finalize(state, PreparedInput, Result): the only phase
    permitted to mutate shared state; returns a label".  "If all attempts
    fail, the node may supply a fallback result or propagate the failure".
    A batch node's "prepare phase yields a sequence of independent work
    items", its "execute phase is applied once per item", and its
    "finalize receives the full ordered list of original items" with the
    results. *)
Inductive Node : Type :=
| PlainNode {P R : Type} (policy : RetryPolicy)
    (prep : SharedState -> P)
    (exec : P -> M World R)
    (execFallback : option (P -> JsError -> M World R))
    (post : P -> R -> M Store string)
| BatchNode {I R : Type} (policy : RetryPolicy)
    (prep : SharedState -> list I)
    (exec : I -> M World R)
    (execFallback : option (I -> JsError -> M World R))
    (post : list I -> list R -> M Store string).

(** The policy a node declares. *)
Definition policy_of (n : Node) : RetryPolicy :=
  match n with
  | PlainNode policy _ _ _ _ => policy
  | BatchNode policy _ _ _ _ => policy
  end.

(** Modelled from the spec: [new C(maxRetries, wait)], the constructor of
    the missing [Node] class; both arguments are optional. *)
Definition new `{EngineDefaults} (C : RetryPolicy -> Node)
    (maxRetries_arg wait_arg : option nat) : Node :=
  C {| maxRetries := default default_maxRetries maxRetries_arg;
       wait := default default_wait wait_arg |}.

(** Modelled from the spec: "On an execute-phase failure, the engine waits
    the configured duration and re-invokes execute with the same prepared
    input, up to the configured maximum; if all attempts fail, the node may
    supply a fallback result or propagate the failure".  [remaining] is the
    number of attempts left after this one; an attempt count of 0 is run
    as one attempt. *)
Fixpoint attempt {R} (exec : M World R)
    (fallback : option (JsError -> M World R)) (wait_s : nat)
    (remaining : nat) : M World R :=
  try_catch exec
    (fun e =>
       match remaining with
       | O => match fallback with
              | Some fb => fb e
              | None => throw e
              end
       | S k => modify (setTimeout_elapsed wait_s) ;;
                attempt exec fallback wait_s k
       end).

(** Modelled from the spec: the execute phase of a node under its retry
    policy, on one prepared input. *)
Definition exec_with_retry {P R} (policy : RetryPolicy)
    (exec : P -> M World R)
    (execFallback : option (P -> JsError -> M World R)) (p : P)
  : M World R :=
  attempt (exec p) (option_map (fun fb => fb p) execFallback)
    (wait policy) (maxRetries policy - 1).

(** Modelled from the spec: one activation runs the three phases "strictly
    in order"; prepare and finalize are not retried.  In a batch node the
    retry policy applies to each item on its own, and the items are taken
    in their order. *)
Definition run_node (id : Id) (n : Node) : M Store string :=
  emit (Activated id) ;;
  match n with
  | PlainNode policy prep exec fb post =>
      sh ← gets shared;
      let p := prep sh in
      r ← liftW (exec_with_retry policy exec fb p);
      post p r
  | BatchNode policy prep exec fb post =>
      sh ← gets shared;
      let items := prep sh in
      rs ← liftW (mapM (exec_with_retry policy exec fb) items);
      post items rs
  end.

(** Modelled from the spec: the routing table, "a per-node mapping from a
    returned outcome label to a successor node", with the reserved label
    "default" for the unconditional successor. *)
Record Flow := {
  start : Id;
  node : Id -> Node;
  successors : Id -> gmap string Id
}.

(** Modelled from the spec: [src.on(action, dst)] of the missing [Node]
    class registers [dst] as the successor of [src] for the label
    [action]. *)
Definition on (src : Id) (action : string) (dst : Id) (fl : Flow) : Flow :=
  {| start := start fl; node := node fl;
     successors := fun n => if decide (n = src)
                            then <[action := dst]> (successors fl n)
                            else successors fl n |}.

(** Modelled from the spec: [src.next(dst)] registers the unconditional
    successor, under the reserved label "default". *)
Definition next (src dst : Id) (fl : Flow) : Flow :=
  on src "default" dst fl.

(** Modelled from the spec: how a run ends.  A label without successor
    "terminates the run successfully"; a failure that leaves a node aborts
    the run and carries the identity of the node. *)
Inductive Outcome :=
| Completed
| Aborted (at_node : Id) (cause : JsError)
| OutOfFuel.

(** Modelled from the spec: "maintain current node = start node; loop: run
    the node's three phases in order, obtain outcome label; look up
    successor for that exact label in the current node's table; if found,
    set current node to successor and repeat; if absent, the run ends".
    There is no cycle detection, hence the fuel. *)
Fixpoint orchestrate (fuel : nat) (fl : Flow) (current : Id) (st : Store)
  : Outcome * Store :=
  match fuel with
  | O => (OutOfFuel, st)
  | S fuel' =>
      match run_node current (node fl current) st with
      | (Throw e, st') => (Aborted current e, st')
      | (Ok action, st') =>
          match successors fl current !! action with
          | Some nxt => orchestrate fuel' fl nxt st'
          | None => (Completed, st')
          end
      end
  end.

(** Modelled from the spec: [flow.run(shared)] starts the walk at the
    designated entry node. *)
Definition run (fuel : nat) (fl : Flow) (sh : SharedState) (w : World)
  : Outcome * Store :=
  orchestrate fuel fl (start fl) {| shared := sh; world := w; trace := [] |}.

End Engine.

Arguments Event Id : clear implicits.
Arguments Store {_} Id.
Arguments Node {_} Id.
Arguments Flow {_} Id.
Arguments Outcome Id : clear implicits.

(** ** nodes/input_detector_node.ts *)

(** One code unit against one pattern character under the [i] flag: an
    ASCII letter matches itself and its upper-case form. *)
Definition matches_ci (c p : N) : bool :=
  (c =? p) || ((97 <=? p) && (p <=? 122) && (c =? p - 32)).

Fixpoint startsWith_ci (s pat : jsstring) : bool :=
  match pat, s with
  | [], _ => true
  | p :: pat', c :: s' => matches_ci c p && startsWith_ci s' pat'
  | _ :: _, [] => false
  end.

(** [input.match(/^https?:\/\//i)] *)
Definition matches_http_scheme (inp : jsstring) : bool :=
  startsWith_ci inp (str "http://") || startsWith_ci inp (str "https://").

Definition imageExtensions : list jsstring :=
  [str ".png"; str ".jpg"; str ".jpeg"; str ".gif"; str ".bmp"; str ".webp";
   str ".tiff"].

Section InputDetector.
Context `{Platform}.

(** [isUrl] *)
Definition isUrl (inp : jsstring) : bool :=
  if negb (matches_http_scheme inp) then false
  else URL_parses inp.

(** [isPdfFile] *)
Definition isPdfFile (inp : jsstring) : bool :=
  endsWith (toLowerCase inp) (str ".pdf").

(** [isImageFile] *)
Definition isImageFile (inp : jsstring) : bool :=
  let lower := toLowerCase inp in
  existsb (fun ext => endsWith lower ext) imageExtensions.

(** The body of [InputDetectorNode.exec]. *)
Definition detectInputType (inp : jsstring) : InputType :=
  let trimmed := trim inp in
  if isUrl trimmed then Url
  else if isPdfFile trimmed then Pdf
  else if isImageFile trimmed then Image
  else Text.

Context {Id : Type}.

Definition InputDetector_prep (sh : SharedState) : jsstring :=
  in_raw (input sh).

Definition InputDetector_exec (inp : jsstring) : M World InputType :=
  mret (detectInputType inp).

Definition InputDetector_post (_prepRes : jsstring) (inputType : InputType)
  : M (Store Id) string :=
  assign F_input_type (set_input_type inputType) ;;
  mret (InputType_label inputType).

Definition InputDetectorNode (policy : RetryPolicy) : Node Id :=
  PlainNode policy InputDetector_prep InputDetector_exec None
    InputDetector_post.

End InputDetector.

(** ** nodes/content_extractor_node.ts *)

Record ExtractorPrep := {
  ep_raw : jsstring;
  ep_type : InputType
}.

Section ContentExtractor.
Context `{Platform} `{Templates} {Id : Type}.

Definition ContentExtractor_prep (sh : SharedState) : ExtractorPrep :=
  {| ep_raw := in_raw (input sh);
     ep_type := default Text (in_type (input sh)) |}.

Definition ContentExtractor_exec (prepRes : ExtractorPrep)
  : M World ExtractionResult :=
  let raw := ep_raw prepRes in
  match ep_type prepRes with
  | Pdf => extractFromPDF raw
  | Image => mret (extractFromImage raw)
  | Url => extractFromURL raw
  | Text => mret (extractFromText raw)
  end.

Definition ContentExtractor_post (_prepRes : ExtractorPrep)
    (result : ExtractionResult) : M (Store Id) string :=
  assign F_content_raw (set_content_raw (er_content result)) ;;
  sh ← gets shared;
  assign F_metadata
    (set_metadata
       {| md_title := opt_or_else (em_title (er_metadata result))
                                  (str "Untitled");
          md_author := em_author (er_metadata result);
          md_date := em_date (er_metadata result);
          md_sourceType :=
            str (InputType_label (default Text (in_type (input sh))));
          md_wordCount := em_wordCount (er_metadata result) |}) ;;
  now ← liftW (gets Date_now);
  assign F_output_timestamp (set_output_timestamp (generateTimestamp now)) ;;
  sh ← gets shared;
  assign F_output_slug (set_output_slug (slugify (md_title (metadata sh)))) ;;
  mret "default"%string.

Definition ContentExtractorNode (policy : RetryPolicy) : Node Id :=
  PlainNode policy ContentExtractor_prep ContentExtractor_exec None
    ContentExtractor_post.

End ContentExtractor.

(** ** The five layer nodes *)

Section LayerNodes.
Context `{Platform} `{Templates} {Id : Type}.

Definition Layer1_prep (sh : SharedState) : Layer1Prep :=
  {| l1_content := ct_raw (content sh);
     l1_title := md_title (metadata sh);
     l1_focusArea := in_focusArea (input sh);
     l1_sourceType := md_sourceType (metadata sh);
     l1_author := md_author (metadata sh);
     l1_date := md_date (metadata sh) |}.

Definition Layer1_exec (prepRes : Layer1Prep) : M World jsstring :=
  callLlm (layer1_prompt prepRes) {| temperature_tenths := 3 |}.

Definition Layer1_post (_prepRes : Layer1Prep) (result : jsstring)
  : M (Store Id) string :=
  assign F_layer1 (set_layer1 result) ;;
  mret "default"%string.

Definition Layer1CaptureNode (policy : RetryPolicy) : Node Id :=
  PlainNode policy Layer1_prep Layer1_exec None Layer1_post.

Definition Layer2_prep (sh : SharedState) : jsstring :=
  opt_or_else (layer1 (layers sh)) [].

Definition Layer2_exec (layer1Content : jsstring) : M World jsstring :=
  callLlm (layer2_prompt layer1Content) {| temperature_tenths := 3 |}.

Definition Layer2_post (_prepRes : jsstring) (result : jsstring)
  : M (Store Id) string :=
  assign F_layer2 (set_layer2 result) ;;
  mret "default"%string.

Definition Layer2BoldNode (policy : RetryPolicy) : Node Id :=
  PlainNode policy Layer2_prep Layer2_exec None Layer2_post.

Definition Layer3_prep (sh : SharedState) : Layer3Prep :=
  {| l3_layer2 := opt_or_else (layer2 (layers sh)) [];
     l3_originalWordCount := md_wordCount (metadata sh) |}.

Definition Layer3_exec (prepRes : Layer3Prep) : M World jsstring :=
  callLlm (layer3_prompt prepRes) {| temperature_tenths := 4 |}.

Definition Layer3_post (_prepRes : Layer3Prep) (result : jsstring)
  : M (Store Id) string :=
  assign F_layer3 (set_layer3 result) ;;
  mret "default"%string.

Definition Layer3DistillNode (policy : RetryPolicy) : Node Id :=
  PlainNode policy Layer3_prep Layer3_exec None Layer3_post.

Definition Layer4_prep (sh : SharedState) : Layer4Prep :=
  {| l4_layer3 := opt_or_else (layer3 (layers sh)) [];
     l4_title := md_title (metadata sh);
     l4_author := md_author (metadata sh) |}.

Definition Layer4_exec (prepRes : Layer4Prep) : M World jsstring :=
  callLlm (layer4_prompt prepRes) {| temperature_tenths := 6 |}.

Definition Layer4_post (_prepRes : Layer4Prep) (result : jsstring)
  : M (Store Id) string :=
  assign F_layer4 (set_layer4 result) ;;
  mret "default"%string.

Definition Layer4SummaryNode (policy : RetryPolicy) : Node Id :=
  PlainNode policy Layer4_prep Layer4_exec None Layer4_post.

Definition Layer5_prep (sh : SharedState) : Layer5Prep :=
  {| l5_layer3 := opt_or_else (layer3 (layers sh)) [];
     l5_layer4 := opt_or_else (layer4 (layers sh)) [];
     l5_title := md_title (metadata sh);
     l5_outputFormat := in_outputFormat (input sh);
     l5_sourceType := md_sourceType (metadata sh) |}.

Definition Layer5_exec (prepRes : Layer5Prep) : M World jsstring :=
  callLlm (layer5_prompt prepRes) {| temperature_tenths := 7 |}.

Definition Layer5_post (_prepRes : Layer5Prep) (result : jsstring)
  : M (Store Id) string :=
  assign F_layer5 (set_layer5 result) ;;
  mret "default"%string.

Definition Layer5CreativeNode (policy : RetryPolicy) : Node Id :=
  PlainNode policy Layer5_prep Layer5_exec None Layer5_post.

End LayerNodes.

(** ** The layout of an artifact *)

(** A layer slot is non-empty when it holds a non-empty text; this is the
    test of [FileSaverNode.prep]. *)
Definition slot_nonempty (o : option jsstring) : bool :=
  match o with
  | Some c => truthy c
  | None => false
  end.

(** The layout of a persisted artifact, written out after the
    specification: the file name pattern
    [<timestamp>_<slug>_level-<n>.md]. *)
Definition artifact_filename (timestamp slug : jsstring) (n : nat)
  : jsstring :=
  timestamp ++ str "_" ++ slug ++ str "_level-" ++ Number_toString n
    ++ str ".md".

(** The metadata header: title, layer number, layer name, source type,
    creation time, word count, and the author when present, between two
    [---] lines. *)
Definition artifact_header (title : jsstring) (n : nat) (name : LayerName)
    (source created : jsstring) (words : nat) (author : option jsstring)
  : jsstring :=
  str "---" ++ nl
  ++ str "title: " ++ dq ++ escapeYamlString title ++ dq ++ nl
  ++ str "layer: " ++ Number_toString n ++ nl
  ++ str "layer_name: " ++ dq ++ str (LayerName_string name) ++ dq ++ nl
  ++ str "source: " ++ dq ++ source ++ dq ++ nl
  ++ str "created: " ++ dq ++ created ++ dq ++ nl
  ++ str "word_count: " ++ Number_toString words ++ nl
  ++ (if slot_nonempty author
      then str "author: " ++ dq ++ escapeYamlString (default [] author)
             ++ dq ++ nl
      else [])
  ++ str "---" ++ nl.

(** The section heading that follows the header. *)
Definition artifact_heading (title : jsstring) (n : nat) (name : LayerName)
  : jsstring :=
  str "# L" ++ Number_toString n ++ str ": " ++ title ++ str " - "
    ++ str (LayerName_string name) ++ nl ++ nl.

(** ** nodes/file_saver_node.ts *)

(** Which slot of [shared.layers] a configuration reads. *)
Inductive LayerKey := K_layer1 | K_layer2 | K_layer3 | K_layer4 | K_layer5.

Definition layers_get (l : Layers) (k : LayerKey) : option jsstring :=
  match k with
  | K_layer1 => layer1 l
  | K_layer2 => layer2 l
  | K_layer3 => layer3 l
  | K_layer4 => layer4 l
  | K_layer5 => layer5 l
  end.

Record LayerConfig := {
  lc_level : nat;
  lc_name : LayerName;
  lc_key : LayerKey
}.

Definition layerConfigs : list LayerConfig :=
  [ {| lc_level := 1; lc_name := InitialCapture; lc_key := K_layer1 |};
    {| lc_level := 2; lc_name := KeyPassages; lc_key := K_layer2 |};
    {| lc_level := 3; lc_name := DistilledInsights; lc_key := K_layer3 |};
    {| lc_level := 4; lc_name := ExecutiveSummary; lc_key := K_layer4 |};
    {| lc_level := 5; lc_name := CreativeOutput; lc_key := K_layer5 |} ].

(** The loop of [FileSaverNode.prep] over a list of configurations: a slot
    is taken when its content is truthy (defined and not the empty
    string). *)
Fixpoint collect_entries (l : Layers) (configs : list LayerConfig)
  : list LayerEntry :=
  match configs with
  | [] => []
  | config :: rest =>
      match layers_get l (lc_key config) with
      | Some c =>
          if truthy c
          then {| le_level := lc_level config; le_name := lc_name config;
                  le_content := c |} :: collect_entries l rest
          else collect_entries l rest
      | None => collect_entries l rest
      end
  end.

Section FileSaver.
Context `{Platform} {Id : Type}.

Definition FileSaver_prep (sh : SharedState) : list LayerEntry :=
  collect_entries (layers sh) layerConfigs.

Definition FileSaver_exec (entry : LayerEntry) : M World jsstring :=
  mret (JSON_stringify entry).

(** The body of the loop of [FileSaverNode.post] for one entry: it returns
    the path that the loop pushes on its local list [savedFiles]. *)
Definition save_entry (timestamp slug directory : jsstring)
    (entry : LayerEntry) : M (Store Id) jsstring :=
  let filename := generateLayerFilename timestamp slug (le_level entry) in
  sh ← gets shared;
  created ← liftW (gets Date_now_toISOString);
  let metadata :=
    {| lm_title := md_title (metadata sh);
       lm_layer := le_level entry;
       lm_layerName := le_name entry;
       lm_sourceType := md_sourceType (metadata sh);
       lm_created := created;
       lm_wordCount := countWords (le_content entry);
       lm_author := md_author (metadata sh) |} in
  liftW (saveLayer directory filename (le_content entry) metadata).

(** The loop itself, with its local list as accumulator. *)
Fixpoint save_entries (timestamp slug directory : jsstring)
    (entries : list LayerEntry) (savedFiles : list jsstring)
  : M (Store Id) (list jsstring) :=
  match entries with
  | [] => mret savedFiles
  | entry :: rest =>
      filePath ← save_entry timestamp slug directory entry;
      save_entries timestamp slug directory rest (savedFiles ++ [filePath])
  end.

Definition FileSaver_post (entries : list LayerEntry)
    (_results : list jsstring) : M (Store Id) string :=
  sh ← gets shared;
  let timestamp := opt_or_else (out_timestamp (output sh)) [] in
  let slug := opt_or_else (out_slug (output sh)) (str "untitled") in
  let directory := out_directory (output sh) in
  savedFiles ← save_entries timestamp slug directory entries [];
  assign F_output_savedFiles (set_output_savedFiles savedFiles) ;;
  mret "default"%string.

(** The path under which the loop of [post] saves an entry. *)
Definition entry_path (sh : SharedState) (entry : LayerEntry) : jsstring :=
  path_join (out_directory (output sh))
    (artifact_filename (opt_or_else (out_timestamp (output sh)) [])
       (opt_or_else (out_slug (output sh)) (str "untitled"))
       (le_level entry)).

(** The text of the artifact of an entry: the metadata header with the
    given creation time, the section heading and the raw text of the
    layer. *)
Definition artifact_text (sh : SharedState) (created : jsstring)
    (entry : LayerEntry) : jsstring :=
  artifact_header (md_title (metadata sh)) (le_level entry) (le_name entry)
    (md_sourceType (metadata sh)) created (countWords (le_content entry))
    (md_author (metadata sh))
  ++ artifact_heading (md_title (metadata sh)) (le_level entry)
       (le_name entry)
  ++ le_content entry.

(** What saving one entry does to the world: the creation time is read,
    the output directory is made sure of, and one file is written, the
    artifact of the entry under the path of the entry. *)
Definition write_artifact (sh : SharedState) (entry : LayerEntry)
  : M World unit :=
  created ← gets Date_now_toISOString;
  ensureDirectory (out_directory (output sh)) ;;
  writeFile (entry_path sh entry) (artifact_text sh created entry).

Definition FileSaverNode (policy : RetryPolicy) : Node Id :=
  BatchNode policy FileSaver_prep FileSaver_exec None FileSaver_post.

End FileSaver.

(** ** flows/note_flow.ts *)

Inductive NoteNode :=
| InputDetector | ContentExtractor
| Layer1Capture | Layer2Bold | Layer3Distill | Layer4Summary | Layer5Creative
| FileSaver.

#[global] Instance NoteNode_eq_dec : EqDecision NoteNode.
Proof. solve_decision. Defined.

Definition all_nodes : list NoteNode :=
  [InputDetector; ContentExtractor; Layer1Capture; Layer2Bold; Layer3Distill;
   Layer4Summary; Layer5Creative; FileSaver].

Section NoteFlow.
Context `{Platform} `{Templates} `{EngineDefaults}.

(** The policy of a node made by a constructor call without arguments. *)
Definition constructor_defaults : RetryPolicy :=
  {| maxRetries := default_maxRetries; wait := default_wait |}.

(** The node instances of [createNoteFlow], each made by a constructor
    call without arguments. *)
Definition instances (n : NoteNode) : Node NoteNode :=
  match n with
  | InputDetector => new InputDetectorNode None None
  | ContentExtractor => new ContentExtractorNode None None
  | Layer1Capture => new Layer1CaptureNode None None
  | Layer2Bold => new Layer2BoldNode None None
  | Layer3Distill => new Layer3DistillNode None None
  | Layer4Summary => new Layer4SummaryNode None None
  | Layer5Creative => new Layer5CreativeNode None None
  | FileSaver => new FileSaverNode None None
  end.

(** [createNoteFlow]; it takes no argument. *)
Definition createNoteFlow : Flow NoteNode :=
  let fl := {| start := InputDetector; node := instances;
               successors := fun _ => ∅ |} in
  let fl := on InputDetector "text" ContentExtractor fl in
  let fl := on InputDetector "pdf" ContentExtractor fl in
  let fl := on InputDetector "image" ContentExtractor fl in
  let fl := on InputDetector "url" ContentExtractor fl in
  let fl := next ContentExtractor Layer1Capture fl in
  let fl := next Layer1Capture Layer2Bold fl in
  let fl := next Layer2Bold Layer3Distill fl in
  let fl := next Layer3Distill Layer4Summary fl in
  let fl := next Layer4Summary Layer5Creative fl in
  let fl := next Layer5Creative FileSaver fl in
  fl.

End NoteFlow.

(** ** A small concrete platform

    A world with an in-memory disk of bounded capacity, a network that is
    up or down, and a generative-text service that always gives the same
    reply.  It is used to run the model on concrete inputs. *)

Module Sim.

Record SimWorld := {
  disk : list (jsstring * jsstring);   (* path, content, in write order *)
  capacity : nat;                      (* number of files the disk holds *)
  llm_reply : jsstring;
  elapsed : nat
}.

Definition lower_ascii (c : N) : N :=
  if (65 <=? c) && (c <=? 90) then c + 32 else c.

Definition is_alnum (c : N) : bool :=
  ((48 <=? c) && (c <=? 57)) || ((97 <=? c) && (c <=? 122)).

Definition sim_slug (title : jsstring) : jsstring :=
  List.filter (fun c => is_alnum c || (c =? 45))
    (List.map (fun c => if isWhiteSpace c then 45 else lower_ascii c)
       (trim title)).

Definition sim_date : Date :=
  {| getFullYear := 2024; getMonth := 0; getDate := 15; getHours := 14;
     getMinutes := 30; getSeconds := 22 |}.

Definition ENOSPC : JsError :=
  {| err_code := Some "ENOSPC"%string;
     err_message := str "ENOSPC: no space left on device, write" |}.

Definition sim_writeFile (path data : jsstring) : M SimWorld unit :=
  fun w =>
    if (length (disk w) <? capacity w)%nat
    then (Ok tt, {| disk := disk w ++ [(path, data)]; capacity := capacity w;
                    llm_reply := llm_reply w; elapsed := elapsed w |})
    else (Throw ENOSPC, w).

Definition sim_fetch (online : bool) (url : jsstring) : M SimWorld Response :=
  fun w =>
    if online
    then (Ok {| resp_ok := true; resp_status := 200;
                resp_statusText := str "OK" |}, w)
    else (Throw (Error (str "fetch failed")), w).

(** The platform, with the network up ([online = true]) or down. *)
Definition platform (online : bool) : Platform := {|
  World := SimWorld;
  URL_parses := fun s => negb (endsWith s (str "//"));
  toLowerCase := List.map lower_ascii;
  slugifyLib := sim_slug;
  path_join := fun d f => d ++ str "/" ++ f;
  JSON_stringify := le_content;
  Date_now := fun _ => sim_date;
  Date_now_toISOString := fun _ => str "2024-01-15T14:30:22.000Z";
  setTimeout_elapsed := fun n w =>
    {| disk := disk w; capacity := capacity w; llm_reply := llm_reply w;
       elapsed := elapsed w + n |};
  mkdir_recursive := fun _ => ret tt;
  writeFile := sim_writeFile;
  fetch := sim_fetch online;
  response_text := fun _ => ret (str "<title>Page</title><p>Some text</p>");
  pdf_parse_file := fun _ => throw (Error (str "ENOENT: no such file"));
  callLlm := fun _ _ => gets llm_reply
|}.

Definition templates : Templates := {|
  htmlToText := fun html => html;
  extractTitleFromHTML := fun _ => None;
  extractTitleFromURL := fun url => url;
  extractTitleFromPath := fun p => p;
  layer1_prompt := l1_content;
  layer2_prompt := fun c => c;
  layer3_prompt := l3_layer2;
  layer4_prompt := l4_layer3;
  layer5_prompt := l5_layer4
|}.

(** One attempt and no wait when the constructor arguments are omitted. *)
Definition defaults : EngineDefaults :=
  {| default_maxRetries := 1; default_wait := 0 |}.

Definition world0 (cap : nat) (reply : jsstring) : SimWorld :=
  {| disk := []; capacity := cap; llm_reply := reply; elapsed := 0 |}.

(** The note flow on the simulated platform. *)
Definition note_flow (online : bool) : @Flow (platform online) NoteNode :=
  @createNoteFlow (platform online) templates defaults.

End Sim.

(** The batch save node on the simulated platform. *)

Module SimSave.
Import Sim.

(** A shared state as the layer nodes leave it: metadata, time stamp and
    slug set, the five layer slots filled. *)
Definition five_layers : SharedState :=
  set_layer5 (str "five")
    (set_layer4 (str "four")
       (set_layer3 (str "three")
          (set_layer2 (str "two words")
             (set_layer1 (str "one")
                (set_output_slug (str "note")
                   (set_output_timestamp (str "20240115-143022")
                      (set_metadata
                         {| md_title := str "Note"; md_author := None;
                            md_date := None; md_sourceType := str "text";
                            md_wordCount := 9 |}
                         (createInitialState hello_note no_options)))))))).

(** The store before the batch save node runs, on a disk that holds
    [cap] files. *)
Definition before_save (cap : nat) : @Store (platform true) NoteNode :=
  Build_Store (H := platform true) (Id := NoteNode) five_layers (world0 cap []) [].

Definition entries : list LayerEntry := FileSaver_prep five_layers.

Definition path_of (n : nat) : jsstring :=
  str "./data/notes/20240115-143022_note_level-" ++ Number_toString n
    ++ str ".md".

(** The finalize phase on a disk that holds two files. *)
Definition disk_full_run : Result string * @Store (platform true) NoteNode :=
  FileSaver_post (H := platform true) entries [] (before_save 2).

(** The store after the first two entries are saved, and after the failed
    save of the third. *)
Definition after_two : @Store (platform true) NoteNode :=
  snd (save_entries (H := platform true) (str "20240115-143022") (str "note")
         (str "./data/notes") (take 2 entries) [] (before_save 2)).

(** The third entry, the one whose save fails. *)
Definition third_entry : LayerEntry :=
  default (Build_LayerEntry 0 InitialCapture []) (entries !! 2%nat).

Definition after_failure : @Store (platform true) NoteNode :=
  snd (save_entry (H := platform true) (str "20240115-143022") (str "note")
         (str "./data/notes") third_entry after_two).

(** The finalize phase on a disk with room for all files. *)
Definition full_run : Result string * @Store (platform true) NoteNode :=
  FileSaver_post (H := platform true) entries [] (before_save 5).

End SimSave.

(** Runs of the flow on the simulated platform. *)

Module SimRun.
Import Sim.

(** A run on the sample note, with the given reply of the generative-text
    service and a disk that holds five files. *)
Definition note_run (reply : jsstring)
  : Outcome NoteNode * @Store (platform true) NoteNode :=
  run (H := platform true) 8 (note_flow true)
    (createInitialState hello_note no_options) (world0 5 reply).

Definition dead_link : jsstring := str "https://nowhere.invalid/article".

(** A run on a URL while the network is down. *)
Definition dead_link_run
  : Outcome NoteNode * @Store (platform false) NoteNode :=
  run (H := platform false) 8 (note_flow false)
    (createInitialState dead_link no_options) (world0 5 (str "reply")).

End SimRun.

(** ** Reading a run *)

(** The assignments recorded in a trace, each with the node that was
    active when it happened. *)
Fixpoint writes_from {Id} (cur : option Id) (tr : list (Event Id))
  : list (Id * Field) :=
  match tr with
  | [] => []
  | Activated n :: tr' => writes_from (Some n) tr'
  | Wrote f :: tr' =>
      match cur with
      | Some n => (n, f) :: writes_from cur tr'
      | None => writes_from cur tr'
      end
  end.

Definition writes {Id} (tr : list (Event Id)) : list (Id * Field) :=
  writes_from None tr.

(** The nodes a trace activates, in order. *)
Fixpoint activations {Id} (tr : list (Event Id)) : list Id :=
  match tr with
  | [] => []
  | Activated n :: tr' => n :: activations tr'
  | Wrote _ :: tr' => activations tr'
  end.

(** The successor of a node of the chain for the label "default". *)
Definition chain_successor (n : NoteNode) : option NoteNode :=
  match n with
  | InputDetector => None
  | ContentExtractor => Some Layer1Capture
  | Layer1Capture => Some Layer2Bold
  | Layer2Bold => Some Layer3Distill
  | Layer3Distill => Some Layer4Summary
  | Layer4Summary => Some Layer5Creative
  | Layer5Creative => Some FileSaver
  | FileSaver => None
  end.

(** The assignments of a completed run, in order, each with its node. *)
Definition completed_writes : list (NoteNode * Field) :=
  [ (InputDetector, F_input_type);
    (ContentExtractor, F_content_raw);
    (ContentExtractor, F_metadata);
    (ContentExtractor, F_output_timestamp);
    (ContentExtractor, F_output_slug);
    (Layer1Capture, F_layer1);
    (Layer2Bold, F_layer2);
    (Layer3Distill, F_layer3);
    (Layer4Summary, F_layer4);
    (Layer5Creative, F_layer5);
    (FileSaver, F_output_savedFiles) ].

Definition level_nonempty (l : Layers) (level : nat) : bool :=
  match level with
  | 1 => slot_nonempty (layer1 l)
  | 2 => slot_nonempty (layer2 l)
  | 3 => slot_nonempty (layer3 l)
  | 4 => slot_nonempty (layer4 l)
  | 5 => slot_nonempty (layer5 l)
  | _ => false
  end%nat.

(** What a field of the shared state holds. *)
Inductive FieldValue :=
| V_type (t : option InputType)
| V_text (s : jsstring)
| V_metadata (m : Metadata)
| V_slot (o : option jsstring)
| V_paths (l : list jsstring).

(** The value of a field in a shared state. *)
Definition field_get (f : Field) (sh : SharedState) : FieldValue :=
  match f with
  | F_input_type => V_type (in_type (input sh))
  | F_content_raw => V_text (ct_raw (content sh))
  | F_metadata => V_metadata (metadata sh)
  | F_output_timestamp => V_slot (out_timestamp (output sh))
  | F_output_slug => V_slot (out_slug (output sh))
  | F_layer1 => V_slot (layer1 (layers sh))
  | F_layer2 => V_slot (layer2 (layers sh))
  | F_layer3 => V_slot (layer3 (layers sh))
  | F_layer4 => V_slot (layer4 (layers sh))
  | F_layer5 => V_slot (layer5 (layers sh))
  | F_output_savedFiles => V_paths (out_savedFiles (output sh))
  end.

(** The parts of the shared state that no field of [Field] names: the raw
    input, the two options, the sections and the output directory. *)
Definition unassigned_part (sh : SharedState)
  : jsstring * option jsstring * option jsstring * option (list jsstring)
    * jsstring :=
  (in_raw (input sh), in_focusArea (input sh), in_outputFormat (input sh),
   ct_sections (content sh), out_directory (output sh)).

(** The fields assigned so far in a trace. *)
Definition assigned {Id} (tr : list (Event Id)) : list Field :=
  List.map snd (writes tr).

(** ** index.ts: the command line *)

(** [CLIOptions].  The provider is cast from the argument without a check,
    so it is any string. *)
Record CLIOptions := {
  cli_input : jsstring;
  cli_output : option jsstring;
  cli_focus : option jsstring;
  cli_format : option jsstring;
  cli_provider : option jsstring;
  cli_model : option jsstring
}.

Definition set_cli_input (v : jsstring) (o : CLIOptions) : CLIOptions :=
  {| cli_input := v; cli_output := cli_output o; cli_focus := cli_focus o;
     cli_format := cli_format o; cli_provider := cli_provider o;
     cli_model := cli_model o |}.

Definition set_cli_output (v : option jsstring) (o : CLIOptions)
  : CLIOptions :=
  {| cli_input := cli_input o; cli_output := v; cli_focus := cli_focus o;
     cli_format := cli_format o; cli_provider := cli_provider o;
     cli_model := cli_model o |}.

Definition set_cli_focus (v : option jsstring) (o : CLIOptions)
  : CLIOptions :=
  {| cli_input := cli_input o; cli_output := cli_output o; cli_focus := v;
     cli_format := cli_format o; cli_provider := cli_provider o;
     cli_model := cli_model o |}.

Definition set_cli_format (v : option jsstring) (o : CLIOptions)
  : CLIOptions :=
  {| cli_input := cli_input o; cli_output := cli_output o;
     cli_focus := cli_focus o; cli_format := v;
     cli_provider := cli_provider o; cli_model := cli_model o |}.

Definition set_cli_provider (v : option jsstring) (o : CLIOptions)
  : CLIOptions :=
  {| cli_input := cli_input o; cli_output := cli_output o;
     cli_focus := cli_focus o; cli_format := cli_format o;
     cli_provider := v; cli_model := cli_model o |}.

Definition set_cli_model (v : option jsstring) (o : CLIOptions)
  : CLIOptions :=
  {| cli_input := cli_input o; cli_output := cli_output o;
     cli_focus := cli_focus o; cli_format := cli_format o;
     cli_provider := cli_provider o; cli_model := v |}.

(** How [parseArgs] ends: it returns the options, or the process exits
    ([process.exit(code)] after [printHelp()]). *)
Inductive CliResult :=
| Parsed (options : CLIOptions)
| Exited (code : nat).

(** [arg === 'literal'] *)
Definition arg_is (arg : jsstring) (literal : string) : bool :=
  bool_decide (arg = str literal).

(** The cases of the [switch] that assign [args[++i]] to an option: the
    assignment of the case that [arg] selects, if any. *)
Definition value_case (arg : jsstring)
  : option (option jsstring -> CLIOptions -> CLIOptions) :=
  if arg_is arg "--output" || arg_is arg "-o" then Some set_cli_output
  else if arg_is arg "--focus" || arg_is arg "-f" then Some set_cli_focus
  else if arg_is arg "--format" then Some set_cli_format
  else if arg_is arg "--provider" || arg_is arg "-p"
       then Some set_cli_provider
  else if arg_is arg "--model" || arg_is arg "-m" then Some set_cli_model
  else None.

(** The [case '--help': case '-h':] of the [switch]. *)
Definition help_case (arg : jsstring) : bool :=
  arg_is arg "--help" || arg_is arg "-h".

(** The loop of [parseArgs] from index [i], with [args] the arguments from
    [i] on.  [args[++i]] past the end is [undefined], and the loop then
    ends. *)
Fixpoint parseArgs_from (args : list jsstring) (options : CLIOptions)
  : CliResult :=
  match args with
  | [] => Parsed options
  | arg :: rest =>
      match value_case arg with
      | Some assign_value =>
          match rest with
          | value :: rest' =>
              parseArgs_from rest' (assign_value (Some value) options)
          | [] => Parsed (assign_value None options)
          end
      | None =>
          if help_case arg then Exited 0
          else
            parseArgs_from rest
              (if negb (startsWith arg (str "-"))
                  && negb (truthy (cli_input options))
               then set_cli_input arg options
               else options)
      end
  end.

(** [parseArgs], on [process.argv.slice(2)]. *)
Definition parseArgs (args : list jsstring) : CliResult :=
  parseArgs_from args
    {| cli_input := []; cli_output := None; cli_focus := None;
       cli_format := None; cli_provider := None; cli_model := None |}.

(** A pattern of ASCII characters at the end of the input, under the [i]
    flag: [/pattern$/i]. *)
Definition endsWith_ci (s pat : jsstring) : bool :=
  startsWith_ci (rev s) (rev pat).

(** [input.match(/\.(pdf|png|jpg|jpeg|gif|bmp|webp|tiff)$/i)] *)
Definition matches_binary_suffix (inp : jsstring) : bool :=
  existsb (fun ext => endsWith_ci inp (str ext))
    [".pdf"; ".png"; ".jpg"; ".jpeg"; ".gif"; ".bmp"; ".webp";
     ".tiff"]%string.

(** [input.match(/\.(txt|md|markdown)$/i)] *)
Definition matches_text_suffix (inp : jsstring) : bool :=
  existsb (fun ext => endsWith_ci inp (str ext))
    [".txt"; ".md"; ".markdown"]%string.

(** What [index.ts] needs of Node.js beyond the platform of the flow. *)
Class CliPlatform `{Platform} := {
  (** [path.resolve] of one segment *)
  path_resolve : jsstring -> jsstring;
  (** [readFile(path, 'utf-8')] *)
  readFile_utf8 : jsstring -> M World jsstring
}.

Section ResolveInput.
Context `{CliPlatform}.

(** [resolveInput] *)
Definition resolveInput (inp : jsstring) : M World jsstring :=
  if matches_http_scheme inp then mret inp
  else if matches_binary_suffix inp then mret (path_resolve inp)
  else if matches_text_suffix inp
  then try_catch (readFile_utf8 (path_resolve inp)) (fun _ => mret inp)
  else try_catch (readFile_utf8 (path_resolve inp)) (fun _ => mret inp).

End ResolveInput.

(** ** Measures used in the properties *)

(** The number of places where a word starts: a code unit that is not
    white space, at the start of the text or right after white space.
    [after_space] tells whether the text so far ended in white space (or is
    empty). *)
Fixpoint word_starts (after_space : bool) (s : jsstring) : nat :=
  match s with
  | [] => 0
  | c :: s' =>
      if isWhiteSpace c then word_starts true s'
      else (if after_space then 1 else 0) + word_starts false s'
  end.

(** A text of white space only. *)
Definition blank (s : jsstring) : bool := forallb isWhiteSpace s.

(** A decimal digit. *)
Definition isDigit (c : N) : bool := (48 <=? c) && (c <=? 57).

(** The inverse of [escapeYamlString]: a backslash before a double quote
    is dropped. *)
Fixpoint unescapeYamlString (s : jsstring) : jsstring :=
  match s with
  | [] => []
  | c :: r =>
      match r with
      | d :: r' =>
          if (c =? 92) && (d =? 34) then 34 :: unescapeYamlString r'
          else c :: unescapeYamlString r
      | [] => [c]
      end
  end.

(** ** utils/extractors.ts: the title of a file path *)

(** [extractTitleFromPath] uses only regular expressions over ASCII
    classes, so it is written out here; the extractors above take it
    through [Templates]. *)
Module PathTitle.

(** [\w] *)
Definition isWordChar (c : N) : bool :=
  ((48 <=? c) && (c <=? 57)) || ((65 <=? c) && (c <=? 90)) || (c =? 95)
  || ((97 <=? c) && (c <=? 122)).

(** [c.toUpperCase()] for a code unit that [\w] matches. *)
Definition upperWordChar (c : N) : N :=
  if (97 <=? c) && (c <=? 122) then c - 32 else c.

(** [s.replace(/\b\w/g, (c) => c.toUpperCase())]; [in_word] tells whether
    the code unit before is a word character. *)
Fixpoint capitalizeWords (in_word : bool) (s : jsstring) : jsstring :=
  match s with
  | [] => []
  | c :: s' =>
      if isWordChar c
      then (if in_word then c else upperWordChar c) :: capitalizeWords true s'
      else c :: capitalizeWords false s'
  end.

(** [s.replace(/[-_]/g, ' ')] *)
Definition hyphensToSpaces (s : jsstring) : jsstring :=
  List.map (fun c => if (c =? 45) || (c =? 95) then 32 else c) s.

(** [s.replace(/\.[^.]+$/, '')]: the last dot and what follows it are
    removed, when something follows it. *)
Definition removeExtension (s : jsstring) : jsstring :=
  let r := rev s in
  match takeWhile (fun c => negb (c =? 46)) r,
        dropWhile (fun c => negb (c =? 46)) r with
  | _ :: _, _ :: base => rev base
  | _, _ => s
  end.

(** [filePath.split('/').pop() || filePath] *)
Definition lastSegment (filePath : jsstring) : jsstring :=
  or_else (rev (takeWhile (fun c => negb (c =? 47)) (rev filePath))) filePath.

(** [extractTitleFromPath] *)
Definition extractTitleFromPath (filePath : jsstring) : jsstring :=
  let fileName := lastSegment filePath in
  capitalizeWords false (hyphensToSpaces (removeExtension fileName)).

End PathTitle.

(** The place of a node in the chain that [createNoteFlow] wires. *)
Definition chain_rank (n : NoteNode) : nat :=
  match n with
  | InputDetector => 0
  | ContentExtractor => 1
  | Layer1Capture => 2
  | Layer2Bold => 3
  | Layer3Distill => 4
  | Layer4Summary => 5
  | Layer5Creative => 6
  | FileSaver => 7
  end.

(** The number of line feeds of a text. *)
Definition line_feeds (s : jsstring) : nat :=
  length (List.filter (fun c => c =? 10) s).

(** The command line on the simulated platform: a file is read from the
    in-memory disk, and a path is resolved against a fixed directory. *)

Module SimCli.
Import Sim.

Definition ENOENT : JsError :=
  {| err_code := Some "ENOENT"%string;
     err_message := str "ENOENT: no such file or directory" |}.

Definition sim_readFile (path : jsstring) : M SimWorld jsstring :=
  fun w =>
    match List.find (fun f => bool_decide (fst f = path)) (disk w) with
    | Some f => (Ok (snd f), w)
    | None => (Throw ENOENT, w)
    end.

Definition cli (online : bool) : @CliPlatform (platform online) :=
  @Build_CliPlatform (platform online)
    (fun p => str "/work/" ++ p) sim_readFile.

End SimCli.

(** * Properties *)

(** ** The text utilities *)

Example countWords_hello : countWords hello_note = 9%nat.
Proof. vm_compute. reflexivity. Qed.

Example countWords_blank : countWords (str "   ") = 0%nat.
Proof. reflexivity. Qed.

Example split_ws_leading : split_ws (str " a  b ") = [[]; str "a"; str "b"; []].
Proof. reflexivity. Qed.

(** [extractFromText] passes its input through and never fails. *)
Lemma extractFromText_content (inp : jsstring) :
  er_content (extractFromText inp) = inp.
Proof. reflexivity. Qed.

Lemma extractFromText_wordCount (inp : jsstring) :
  em_wordCount (er_metadata (extractFromText inp)) = countWords inp.
Proof. reflexivity. Qed.

(** ** The monad *)

(** Unfold the monad operations behind the notations. *)
Ltac unfold_monad :=
  unfold mbind, M_bind, mret, M_ret in *.

Lemma liftW_inv `{Platform} {Id A} (c : M World A) (st st' : Store Id) r :
  liftW c st = (r, st') ->
  c (world st) = (r, world st') /\ shared st' = shared st
  /\ trace st' = trace st.
Proof.
  unfold liftW. destruct (c (world st)) as [r0 w'] eqn:E.
  intros [= <- <-]. simpl. auto.
Qed.

(** ** Extraction of plain text *)

(** C3, as stated, fails: the word count of the sample note is not 8.  The
    note has nine fields between white space: Hello, world., This, is, a,
    short, note, about, focus. *)
Lemma extractFromText_hello_wordCount_not_8 :
  er_content (extractFromText hello_note) = hello_note /\
  em_wordCount (er_metadata (extractFromText hello_note)) <> 8%nat.
Proof. split; [reflexivity | vm_compute; discriminate]. Qed.

(** C3, amended: for the sample note with detected type text, the
    execute phase of the extraction node returns the content unchanged and
    a word count of 9, on every platform and in every world. *)
Theorem ContentExtractor_exec_hello `{Platform} `{Templates} (w : World) :
  exists r,
    ContentExtractor_exec {| ep_raw := hello_note; ep_type := Text |} w
      = (Ok r, w)
    /\ er_content r = hello_note
    /\ em_wordCount (er_metadata r) = 9%nat.
Proof.
  exists (extractFromText hello_note). split; [reflexivity |].
  split; [reflexivity | vm_compute; reflexivity].
Qed.

(** ** Classification of the input *)

Lemma existsb_endsWith (lower : jsstring) (exts : list jsstring) :
  existsb (fun ext => endsWith lower ext) exts = true <->
  exists ext, ext ∈ exts /\ endsWith lower ext = true.
Proof.
  rewrite existsb_exists. split; intros (ext & Hin & He); exists ext;
    (split; [| exact He]); by apply list_elem_of_In.
Qed.

(** C6: on every input the execute phase of the classification node
    returns, without failing and without touching the world, one of the
    four labels; the label is [url] when the trimmed input starts with
    [http://] or [https://] and parses as a URL, else [pdf] when it ends
    in [.pdf], else [image] when it ends in an image suffix, else
    [text].  As in the source, the scheme and the suffixes are compared
    without regard to letter case. *)
Theorem InputDetector_exec_classifies `{Platform} (inp : jsstring) (w : World) :
  InputDetector_exec inp w = (Ok (detectInputType inp), w)
  /\ InputType_label (detectInputType inp)
       ∈ ["url"; "pdf"; "image"; "text"]%string
  /\ (isUrl (trim inp) = true <->
        (startsWith_ci (trim inp) (str "http://") = true
         \/ startsWith_ci (trim inp) (str "https://") = true)
        /\ URL_parses (trim inp) = true)
  /\ (isPdfFile (trim inp) = true <->
        endsWith (toLowerCase (trim inp)) (str ".pdf") = true)
  /\ (isImageFile (trim inp) = true <->
        exists ext,
          ext ∈ [str ".png"; str ".jpg"; str ".jpeg"; str ".gif";
                 str ".bmp"; str ".webp"; str ".tiff"]
          /\ endsWith (toLowerCase (trim inp)) ext = true)
  /\ (detectInputType inp = Url <-> isUrl (trim inp) = true)
  /\ (detectInputType inp = Pdf <->
        isUrl (trim inp) = false /\ isPdfFile (trim inp) = true)
  /\ (detectInputType inp = Image <->
        isUrl (trim inp) = false /\ isPdfFile (trim inp) = false
        /\ isImageFile (trim inp) = true)
  /\ (detectInputType inp = Text <->
        isUrl (trim inp) = false /\ isPdfFile (trim inp) = false
        /\ isImageFile (trim inp) = false).
Proof.
  split; [reflexivity |].
  split.
  { destruct (detectInputType inp); simpl; set_solver. }
  split.
  { unfold isUrl, matches_http_scheme.
    destruct (startsWith_ci (trim inp) (str "http://")) eqn:E1;
      destruct (startsWith_ci (trim inp) (str "https://")) eqn:E2;
      simpl; split; try tauto; try (intros [[?|?] ?]; congruence);
      intros ?; discriminate. }
  split; [reflexivity |].
  split; [apply existsb_endsWith |].
  unfold detectInputType.
  destruct (isUrl (trim inp)), (isPdfFile (trim inp)),
    (isImageFile (trim inp)); simpl;
    repeat split; intros; try discriminate; try tauto;
    repeat match goal with H : _ /\ _ |- _ => destruct H end;
    try discriminate; auto.
Qed.

Section SimExamples.
Import Sim.
#[local] Existing Instance templates.
#[local] Existing Instance defaults.

Example detect_url :
  detectInputType (H := platform true) (str "  HTTPS://Example.com/a.pdf ")
  = Url.
Proof. vm_compute. reflexivity. Qed.

Example detect_pdf :
  detectInputType (H := platform true) (str "./Report.PDF") = Pdf.
Proof. vm_compute. reflexivity. Qed.

Example detect_image :
  detectInputType (H := platform true) (str "scan.JPeG") = Image.
Proof. vm_compute. reflexivity. Qed.

Example detect_text :
  detectInputType (H := platform true) hello_note = Text.
Proof. vm_compute. reflexivity. Qed.

(** A string with the scheme of a URL that does not parse as one is not
    classified as a URL. *)
Example detect_bad_url :
  detectInputType (H := platform true) (str "http://") = Text.
Proof. vm_compute. reflexivity. Qed.

End SimExamples.

(** ** The routing table *)

(** C8: in the flow that [createNoteFlow] builds, each of the four labels
    [text], [pdf], [image] and [url] that the classification node returns
    leads to the same successor, the content-extraction node. *)
Theorem createNoteFlow_branches_converge
    `{Platform} `{Templates} `{EngineDefaults} :
  Forall (fun label =>
            successors createNoteFlow InputDetector !! label
            = Some ContentExtractor)
         ["text"; "pdf"; "image"; "url"]%string
  /\ (forall t : InputType,
        InputType_label t ∈ ["text"; "pdf"; "image"; "url"]%string).
Proof.
  split; [repeat constructor |].
  intros []; simpl; set_solver.
Qed.

(** Whatever type is detected, the extraction node comes next. *)
Lemma InputDetector_successor `{Platform} `{Templates} `{EngineDefaults}
    (t : InputType) :
  successors createNoteFlow InputDetector !! InputType_label t
  = Some ContentExtractor.
Proof. destruct t; reflexivity. Qed.

(** The label the classification node hands to the routing table is the
    label of the detected type. *)
Lemma InputDetector_post_label `{Platform} {Id} (p : jsstring) (t : InputType)
    (st : Store Id) :
  fst (InputDetector_post p t st) = Ok (InputType_label t).
Proof. reflexivity. Qed.

(** The rest of the table is a chain. *)
Lemma createNoteFlow_chain `{Platform} `{Templates} `{EngineDefaults} :
  successors createNoteFlow ContentExtractor !! "default"%string
    = Some Layer1Capture
  /\ successors createNoteFlow Layer1Capture !! "default"%string
    = Some Layer2Bold
  /\ successors createNoteFlow Layer2Bold !! "default"%string
    = Some Layer3Distill
  /\ successors createNoteFlow Layer3Distill !! "default"%string
    = Some Layer4Summary
  /\ successors createNoteFlow Layer4Summary !! "default"%string
    = Some Layer5Creative
  /\ successors createNoteFlow Layer5Creative !! "default"%string
    = Some FileSaver
  /\ successors createNoteFlow FileSaver !! "default"%string = None.
Proof. repeat split; reflexivity. Qed.

(** ** The retry policy of the nodes *)

(** C2: the nodes of the flow are made by constructor calls without
    arguments, so each declares the policy of the engine's constructor
    defaults; the processing configuration is not an input of
    [createNoteFlow]. *)
Theorem createNoteFlow_nodes_use_constructor_defaults
    `{Platform} `{Templates} `{EngineDefaults} :
  Forall (fun n => policy_of (node createNoteFlow n)
                   = {| maxRetries := default_maxRetries;
                        wait := default_wait |})
         all_nodes.
Proof. repeat constructor. Qed.

(** With one attempt and no wait as constructor defaults, no node of the
    flow declares the policy of the default processing configuration. *)
Lemma note_flow_policy_is_not_configured (online : bool) :
  Forall (fun n =>
            maxRetries (policy_of (node (Sim.note_flow online) n))
              <> cfg_maxRetries defaultConfig_processing
            /\ wait (policy_of (node (Sim.note_flow online) n))
              <> cfg_retryWait defaultConfig_processing)
         all_nodes.
Proof. repeat constructor; vm_compute; discriminate. Qed.

(** ** Extraction without a detected type *)

(** C10: when the detected type is undefined, the prepare phase of the
    extraction node substitutes the type text, and its execute phase
    returns the plain-text pass-through of the raw input, without
    failing. *)
Theorem ContentExtractor_defaults_to_text `{Platform} `{Templates}
    (sh : SharedState) (w : World) :
  in_type (input sh) = None ->
  ep_type (ContentExtractor_prep sh) = Text
  /\ ep_raw (ContentExtractor_prep sh) = in_raw (input sh)
  /\ ContentExtractor_exec (ContentExtractor_prep sh) w
     = (Ok (extractFromText (in_raw (input sh))), w)
  /\ er_content (extractFromText (in_raw (input sh))) = in_raw (input sh).
Proof.
  intros Hty. unfold ContentExtractor_prep, ContentExtractor_exec.
  rewrite Hty. simpl. repeat split; reflexivity.
Qed.

Lemma ContentExtractor_defaults_to_text_witness :
  in_type (input (createInitialState hello_note no_options)) = None
  /\ ContentExtractor_exec (H := Sim.platform true) (H0 := Sim.templates)
       (ContentExtractor_prep (createInitialState hello_note no_options))
       (Sim.world0 5 [])
     = (Ok (extractFromText hello_note), Sim.world0 5 []).
Proof.
  split; [reflexivity |].
  apply (ContentExtractor_defaults_to_text (H := Sim.platform true)
           (H0 := Sim.templates)
           (createInitialState hello_note no_options) (Sim.world0 5 [])).
  reflexivity.
Defined.

(** ** The batch save node *)

Section FileSaverProperties.
Context `{Platform} {Id : Type}.
Implicit Types (st : Store Id) (entry : LayerEntry).

Lemma generateFrontmatter_layout (md : LayerMetadata) :
  generateFrontmatter md
  = artifact_header (lm_title md) (lm_layer md) (lm_layerName md)
      (lm_sourceType md) (lm_created md) (lm_wordCount md) (lm_author md).
Proof.
  unfold generateFrontmatter, artifact_header.
  destruct (lm_author md) as [author |]; simpl slot_nonempty;
    [destruct (truthy author) |];
    cbn [join_lines app default from_option id nl];
    repeat rewrite <- app_assoc; reflexivity.
Qed.

Lemma saveLayer_path (dir fn body : jsstring) (md : LayerMetadata)
    (w w' : World) (p : jsstring) :
  saveLayer dir fn body md w = (Ok p, w') -> p = path_join dir fn.
Proof.
  unfold saveLayer. unfold_monad. unfold bind, ret.
  destruct (ensureDirectory dir w) as [[[] | e] w1]; [| discriminate].
  destruct (writeFile _ _ w1) as [[[] | e] w2]; [| discriminate].
  intros [= <- <-]. reflexivity.
Qed.

Lemma save_entry_inv (ts slug dir : jsstring) entry st st' r :
  save_entry ts slug dir entry st = (r, st') ->
  shared st' = shared st /\ trace st' = trace st
  /\ (forall p, r = Ok p ->
        p = path_join dir (generateLayerFilename ts slug (le_level entry))).
Proof.
  unfold save_entry. unfold_monad. unfold bind at 1 2.
  unfold gets at 1. unfold liftW at 1, gets at 1. cbn beta iota zeta.
  intros Hs. apply liftW_inv in Hs as (Hw & Hsh & Htr). simpl in *.
  repeat split; auto. intros p ->. eapply saveLayer_path. exact Hw.
Qed.

Lemma save_entries_inv (ts slug dir : jsstring) (entries : list LayerEntry) :
  forall (acc : list jsstring) st st' r,
    save_entries ts slug dir entries acc st = (r, st') ->
    shared st' = shared st /\ trace st' = trace st
    /\ (forall paths, r = Ok paths ->
          paths = acc ++ List.map
                    (fun entry =>
                       path_join dir
                         (generateLayerFilename ts slug (le_level entry)))
                    entries).
Proof.
  induction entries as [| entry rest IH]; intros acc st st' r.
  - simpl. intros [= <- <-]. repeat split; auto.
    intros paths [= <-]. by rewrite app_nil_r.
  - simpl. unfold_monad. unfold bind at 1.
    destruct (save_entry ts slug dir entry st) as [[p | e] st1] eqn:E.
    + apply save_entry_inv in E as (Hsh & Htr & Hp).
      intros Hr. apply IH in Hr as (Hsh' & Htr' & Hps).
      repeat split; [congruence | congruence |].
      intros paths ->. rewrite (Hps _ eq_refl), (Hp _ eq_refl).
      by rewrite <- app_assoc.
    + apply save_entry_inv in E as (Hsh & Htr & _).
      intros [= <- <-]. repeat split; auto. intros ? [=].
Qed.

Lemma save_entries_app (ts slug dir : jsstring)
    (done rest : list LayerEntry) :
  forall (acc : list jsstring) st,
    save_entries ts slug dir (done ++ rest) acc st
    = match save_entries ts slug dir done acc st with
      | (Ok paths, st1) => save_entries ts slug dir rest paths st1
      | (Throw e, st1) => (Throw e, st1)
      end.
Proof.
  induction done as [| entry done IH]; intros acc st; [reflexivity |].
  cbn [save_entries app]. unfold_monad. unfold bind.
  destruct (save_entry ts slug dir entry st) as [[p | e] st1]; [| reflexivity].
  apply IH.
Qed.

Lemma FileSaver_prep_levels (sh : SharedState) :
  List.map le_level (FileSaver_prep sh)
  = List.filter (level_nonempty (layers sh)) [1; 2; 3; 4; 5]%nat.
Proof.
  unfold FileSaver_prep. destruct (layers sh) as [a b c d e].
  destruct a as [[|? ?]|], b as [[|? ?]|], c as [[|? ?]|], d as [[|? ?]|],
    e as [[|? ?]|]; reflexivity.
Qed.

Lemma FileSaver_prep_contents (sh : SharedState) :
  Forall (fun entry =>
            exists k, layers_get (layers sh) k = Some (le_content entry)
                      /\ In {| lc_level := le_level entry;
                               lc_name := le_name entry; lc_key := k |}
                            layerConfigs)
         (FileSaver_prep sh).
Proof.
  unfold FileSaver_prep. destruct (layers sh) as [a b c d e].
  destruct a as [[|? ?]|], b as [[|? ?]|], c as [[|? ?]|], d as [[|? ?]|],
    e as [[|? ?]|]; cbn [collect_entries layerConfigs layers_get lc_key
      lc_level lc_name truthy layer1 layer2 layer3 layer4 layer5];
    repeat constructor;
    first [ by (exists K_layer1; simpl; auto 10)
          | by (exists K_layer2; simpl; auto 10)
          | by (exists K_layer3; simpl; auto 10)
          | by (exists K_layer4; simpl; auto 10)
          | by (exists K_layer5; simpl; auto 10) ].
Qed.

(** Saving one entry acts on the world as [write_artifact] does, and fails
    exactly when it fails. *)
Lemma save_entry_world entry st r st' :
  save_entry (opt_or_else (out_timestamp (output (shared st))) [])
    (opt_or_else (out_slug (output (shared st))) (str "untitled"))
    (out_directory (output (shared st))) entry st = (r, st') ->
  write_artifact (shared st) entry (world st)
  = (match r with Ok _ => Ok tt | Throw e => Throw e end, world st').
Proof.
  unfold save_entry. unfold_monad. unfold bind at 1 2.
  unfold gets at 1. unfold liftW at 1, gets at 1. cbn beta iota zeta.
  intros Hs. apply liftW_inv in Hs as (Hw & _ & _). simpl in Hw.
  revert Hw. unfold saveLayer, write_artifact. unfold_monad.
  unfold bind, gets, ret.
  destruct (ensureDirectory _ (world st)) as [[[] | e] w1];
    [| by intros [= <- <-]].
  rewrite generateFrontmatter_layout.
  unfold entry_path, artifact_text, layerHeader, artifact_heading,
    artifact_filename, generateLayerFilename.
  cbn [lm_title lm_layer lm_layerName lm_sourceType lm_created lm_wordCount
       lm_author].
  match goal with
  | |- context [writeFile ?p ?c w1] =>
      destruct (writeFile p c w1) as [[[] | e] w2]
  end; by intros [= <- <-].
Qed.

(** The loop of [post] acts on the world as one [write_artifact] for each
    entry, in the order of the entries. *)
Lemma save_entries_world (sh : SharedState) (entries : list LayerEntry) :
  forall (acc : list jsstring) st st' paths,
    shared st = sh ->
    save_entries (opt_or_else (out_timestamp (output sh)) [])
      (opt_or_else (out_slug (output sh)) (str "untitled"))
      (out_directory (output sh)) entries acc st = (Ok paths, st') ->
    mapM (write_artifact sh) entries (world st)
    = (Ok (List.map (fun _ => tt) entries), world st').
Proof.
  induction entries as [| entry rest IH]; intros acc st st' paths Hsh.
  - simpl. by intros [= <- <-].
  - cbn [save_entries mapM List.map]. unfold_monad. unfold bind at 1.
    destruct (save_entry _ _ _ entry st) as [[p | e] st1] eqn:E;
      [| discriminate].
    intros Hrest. subst sh.
    pose proof (save_entry_inv _ _ _ _ _ _ _ E) as (Hsh1 & _ & _).
    apply save_entry_world in E. unfold bind at 1. rewrite E.
    unfold bind at 1.
    rewrite (IH (acc ++ [p]) st1 st' paths Hsh1 Hrest). reflexivity.
Qed.

End FileSaverProperties.

Section FileSaverClaims.
Context `{Platform} {Id : Type}.
Implicit Types (st : Store Id) (entry : LayerEntry).


(** C5: when the finalize phase of the batch save node succeeds on the
    items its prepare phase produced, it has produced exactly one artifact
    for each non-empty layer slot: the world it leaves is the one reached
    by one [write_artifact] for each entry, in ascending order of layer
    number, and nothing else.  The saved-path list it writes into the
    shared state has the path of each of these artifacts, in the same
    order, whatever the list of per-item results is; nothing else of the
    shared state changes. *)
Theorem FileSaver_post_saves_in_layer_order st st' (rs : list jsstring)
    (a : string) :
  FileSaver_post (FileSaver_prep (shared st)) rs st = (Ok a, st') ->
  out_savedFiles (output (shared st'))
    = List.map (entry_path (shared st)) (FileSaver_prep (shared st))
  /\ List.map le_level (FileSaver_prep (shared st))
     = List.filter (level_nonempty (layers (shared st))) [1; 2; 3; 4; 5]%nat
  /\ (forall rs' : list jsstring,
        FileSaver_post (FileSaver_prep (shared st)) rs' st
        = FileSaver_post (FileSaver_prep (shared st)) rs st)
  /\ layers (shared st') = layers (shared st)
  /\ mapM (write_artifact (shared st)) (FileSaver_prep (shared st)) (world st)
     = (Ok (List.map (fun _ => tt) (FileSaver_prep (shared st))), world st')
  /\ shared st'
     = set_output_savedFiles
         (List.map (entry_path (shared st)) (FileSaver_prep (shared st)))
         (shared st).
Proof.
  intros Hpost.
  assert (Hloop : exists paths st1,
             save_entries
               (opt_or_else (out_timestamp (output (shared st))) [])
               (opt_or_else (out_slug (output (shared st))) (str "untitled"))
               (out_directory (output (shared st)))
               (FileSaver_prep (shared st)) [] st = (Ok paths, st1)
             /\ st' = {| shared := set_output_savedFiles paths (shared st1);
                         world := world st1;
                         trace := trace st1 ++ [Wrote F_output_savedFiles] |}).
  { revert Hpost. unfold FileSaver_post. unfold_monad.
    unfold bind at 1. unfold gets at 1. cbn beta iota zeta.
    unfold bind at 1.
    destruct (save_entries _ _ _ (FileSaver_prep (shared st)) [] st)
      as [[paths | e] st1]; [| discriminate].
    unfold bind, assign, modify. intros [= <- <-]. by exists paths, st1. }
  destruct Hloop as (paths & st1 & Hloop & ->).
  pose proof (save_entries_inv _ _ _ _ _ _ _ _ Hloop) as (Hsh & _ & Hps).
  pose proof (save_entries_world (shared st) _ _ _ _ _ eq_refl Hloop)
    as Hworld.
  specialize (Hps _ eq_refl). simpl in Hps. subst paths.
  cbn [shared world]. rewrite Hsh.
  split; [reflexivity |].
  split; [apply FileSaver_prep_levels |].
  split; [reflexivity |].
  split; [reflexivity |].
  split; [exact Hworld | reflexivity].
Qed.

(** C1, amended: when the save of one entry fails after the entries
    before it were saved, [post] throws the same error, and the shared
    state is exactly as it was before the node ran: the saved-path list is
    assigned only after the whole loop, so the paths of the artifacts
    already saved are not in it. *)
Theorem FileSaver_post_failure st st1 st2
    (done rest : list LayerEntry) entry (rs paths : list jsstring)
    (e : JsError) :
  save_entries (opt_or_else (out_timestamp (output (shared st))) [])
    (opt_or_else (out_slug (output (shared st))) (str "untitled"))
    (out_directory (output (shared st))) done [] st = (Ok paths, st1) ->
  save_entry (opt_or_else (out_timestamp (output (shared st))) [])
    (opt_or_else (out_slug (output (shared st))) (str "untitled"))
    (out_directory (output (shared st))) entry st1 = (Throw e, st2) ->
  FileSaver_post (done ++ entry :: rest) rs st = (Throw e, st2)
  /\ paths = List.map (entry_path (shared st)) done
  /\ shared st2 = shared st
  /\ out_savedFiles (output (shared st2)) = out_savedFiles (output (shared st))
  /\ trace st2 = trace st.
Proof.
  intros Hdone Hentry.
  pose proof (save_entries_inv _ _ _ _ _ _ _ _ Hdone) as (Hsh1 & Htr1 & Hps).
  pose proof (save_entry_inv _ _ _ _ _ _ _ Hentry) as (Hsh2 & Htr2 & _).
  split.
  - unfold FileSaver_post. unfold_monad.
    unfold bind at 1. unfold gets at 1. cbn beta iota zeta.
    unfold bind at 1. rewrite save_entries_app, Hdone.
    cbn [save_entries]. unfold_monad. unfold bind at 1.
    rewrite Hentry. reflexivity.
  - rewrite (Hps _ eq_refl). simpl.
    repeat split; congruence.
Qed.

End FileSaverClaims.

(** *** The batch save node on the simulated platform *)

Example SimSave_entries_levels :
  List.map le_level SimSave.entries = [1; 2; 3; 4; 5]%nat.
Proof. reflexivity. Qed.

(** The first artifact of the simulated run, in full. *)
Example SimSave_first_artifact :
  head (Sim.disk (world (snd SimSave.full_run)))
  = Some (SimSave.path_of 1,
          str "---" ++ nl
          ++ str "title: " ++ dq ++ str "Note" ++ dq ++ nl
          ++ str "layer: 1" ++ nl
          ++ str "layer_name: " ++ dq ++ str "Initial Capture" ++ dq ++ nl
          ++ str "source: " ++ dq ++ str "text" ++ dq ++ nl
          ++ str "created: " ++ dq ++ str "2024-01-15T14:30:22.000Z" ++ dq
          ++ nl
          ++ str "word_count: 1" ++ nl
          ++ str "---" ++ nl
          ++ str "# L1: Note - Initial Capture" ++ nl ++ nl
          ++ str "one").
Proof. vm_compute. reflexivity. Qed.

(** C1, as stated, fails: on a disk that holds two files the save of the
    third layer fails with the disk's error, the first two artifacts are on
    the disk, and the saved-path list of the shared state is empty. *)
Lemma FileSaver_post_disk_full_savedFiles_empty :
  fst SimSave.disk_full_run = Throw Sim.ENOSPC
  /\ List.map fst (Sim.disk (world (snd SimSave.disk_full_run)))
     = [SimSave.path_of 1; SimSave.path_of 2]
  /\ out_savedFiles (output (shared (snd SimSave.disk_full_run))) = []
  /\ ~ (forall p,
          In p (List.map fst (Sim.disk (world (snd SimSave.disk_full_run)))) ->
          In p (out_savedFiles (output (shared (snd SimSave.disk_full_run))))).
Proof.
  split; [vm_compute; reflexivity |].
  split; [vm_compute; reflexivity |].
  split; [vm_compute; reflexivity |].
  intros Hall. specialize (Hall (SimSave.path_of 1)).
  assert (Hin : In (SimSave.path_of 1)
                  (List.map fst (Sim.disk (world (snd SimSave.disk_full_run))))).
  { vm_compute. left. reflexivity. }
  apply Hall in Hin. vm_compute in Hin. exact Hin.
Qed.

Lemma FileSaver_post_failure_witness :
  FileSaver_post (H := Sim.platform true)
    (take 2 SimSave.entries ++ SimSave.third_entry :: drop 3 SimSave.entries)
    [] (SimSave.before_save 2)
  = (Throw Sim.ENOSPC, SimSave.after_failure)
  /\ [SimSave.path_of 1; SimSave.path_of 2]
     = List.map (entry_path (H := Sim.platform true)
                   (shared (SimSave.before_save 2)))
         (take 2 SimSave.entries)
  /\ shared SimSave.after_failure = shared (SimSave.before_save 2)
  /\ out_savedFiles (output (shared SimSave.after_failure))
     = out_savedFiles (output (shared (SimSave.before_save 2)))
  /\ trace SimSave.after_failure = trace (SimSave.before_save 2).
Proof.
  apply (FileSaver_post_failure (H := Sim.platform true)
           (SimSave.before_save 2) SimSave.after_two SimSave.after_failure
           (take 2 SimSave.entries) (drop 3 SimSave.entries)
           SimSave.third_entry
           [] [SimSave.path_of 1; SimSave.path_of 2] Sim.ENOSPC).
  - vm_compute. reflexivity.
  - vm_compute. reflexivity.
Defined.

Lemma FileSaver_post_saves_in_layer_order_witness :
  out_savedFiles (output (shared (snd SimSave.full_run)))
  = List.map (entry_path (H := Sim.platform true) SimSave.five_layers)
      SimSave.entries
  /\ List.map le_level SimSave.entries
     = List.filter (level_nonempty (layers SimSave.five_layers))
         [1; 2; 3; 4; 5]%nat
  /\ (forall rs' : list jsstring,
        FileSaver_post (H := Sim.platform true) SimSave.entries rs'
          (SimSave.before_save 5)
        = FileSaver_post (H := Sim.platform true) SimSave.entries []
            (SimSave.before_save 5))
  /\ layers (shared (snd SimSave.full_run)) = layers SimSave.five_layers
  /\ mapM (write_artifact (H := Sim.platform true) SimSave.five_layers)
       SimSave.entries (Sim.world0 5 [])
     = (Ok (List.map (fun _ => tt) SimSave.entries),
        world (snd SimSave.full_run))
  /\ shared (snd SimSave.full_run)
     = set_output_savedFiles
         (List.map (entry_path (H := Sim.platform true) SimSave.five_layers)
            SimSave.entries)
         SimSave.five_layers.
Proof.
  apply (FileSaver_post_saves_in_layer_order (H := Sim.platform true)
           (SimSave.before_save 5) (snd SimSave.full_run) []
           "default"%string).
  vm_compute. reflexivity.
Defined.

(** On the simulated platform the five artifacts are the five files of the
    disk, in the order of the saved-path list. *)
Example SimSave_full_run_disk :
  List.map fst (Sim.disk (world (snd SimSave.full_run)))
  = out_savedFiles (output (shared (snd SimSave.full_run)))
  /\ List.map fst (Sim.disk (world (snd SimSave.full_run)))
     = List.map SimSave.path_of [1; 2; 3; 4; 5]%nat.
Proof. vm_compute. split; reflexivity. Qed.

(** ** The engine *)

Section EngineProperties.
Context `{Platform} {Id : Type}.
Implicit Types (st : Store Id).

(** An execute phase that succeeds at once is not retried. *)
Lemma attempt_ok {R} (exec : M World R) fb (wait_s remaining : nat)
    (w w' : World) (r : R) :
  exec w = (Ok r, w') -> attempt exec fb wait_s remaining w = (Ok r, w').
Proof.
  intros He. destruct remaining; simpl; unfold try_catch; by rewrite He.
Qed.

(** An execute phase that fails in every world fails on every attempt, and
    without a fallback the failure leaves the node. *)
Lemma attempt_always_throws {R} (exec : M World R) (wait_s : nat) :
  (forall w, exists e w', exec w = (Throw e, w')) ->
  forall remaining w,
    exists e w', attempt exec None wait_s remaining w = (Throw e, w').
Proof.
  intros Hfail. induction remaining as [| k IH]; intros w.
  - destruct (Hfail w) as (e & w' & He). exists e, w'.
    simpl. unfold try_catch. rewrite He. reflexivity.
  - destruct (Hfail w) as (e & w' & He).
    destruct (IH (setTimeout_elapsed wait_s w')) as (e2 & w2 & He2).
    exists e2, w2. simpl. unfold try_catch. rewrite He.
    unfold_monad. unfold bind, modify. exact He2.
Qed.

Lemma run_node_plain {P R} (id : Id) pol (prep : SharedState -> P)
    (exec : P -> M World R) fb post st :
  run_node id (PlainNode pol prep exec fb post) st
  = match exec_with_retry pol exec fb (prep (shared st)) (world st) with
    | (Ok r, w') =>
        post (prep (shared st)) r
          {| shared := shared st; world := w';
             trace := trace st ++ [Activated id] |}
    | (Throw e, w') =>
        (Throw e, {| shared := shared st; world := w';
                     trace := trace st ++ [Activated id] |})
    end.
Proof.
  unfold run_node. unfold_monad. unfold bind at 1. unfold emit, modify.
  unfold bind at 1. unfold gets at 1. unfold bind, liftW. simpl.
  destruct (exec_with_retry pol exec fb (prep (shared st)) (world st))
    as [[r | e] w']; reflexivity.
Qed.

Lemma run_node_batch {I R} (id : Id) pol (prep : SharedState -> list I)
    (exec : I -> M World R) fb post st :
  run_node id (BatchNode pol prep exec fb post) st
  = match mapM (exec_with_retry pol exec fb) (prep (shared st)) (world st) with
    | (Ok rs, w') =>
        post (prep (shared st)) rs
          {| shared := shared st; world := w';
             trace := trace st ++ [Activated id] |}
    | (Throw e, w') =>
        (Throw e, {| shared := shared st; world := w';
                     trace := trace st ++ [Activated id] |})
    end.
Proof.
  unfold run_node. unfold_monad. unfold bind at 1. unfold emit, modify.
  unfold bind at 1. unfold gets at 1. unfold bind, liftW. simpl.
  destruct (mapM (exec_with_retry pol exec fb) (prep (shared st)) (world st))
    as [[r | e] w']; reflexivity.
Qed.

(** A node whose finalize phase is one assignment and a fixed label: when
    its execute phase fails nothing is assigned. *)
Lemma run_node_one_assignment {P R} (id : Id) pol (prep : SharedState -> P)
    (exec : P -> M World R) fb (f : Field)
    (upd : R -> SharedState -> SharedState) (label : string) st r st' :
  run_node id
    (PlainNode pol prep exec fb
       (fun _ x => assign f (upd x) ;; mret label)) st = (r, st') ->
  match r with
  | Ok a =>
      a = label
      /\ trace st' = trace st ++ [Activated id; Wrote f]
      /\ exists x, shared st' = upd x (shared st)
  | Throw _ =>
      trace st' = trace st ++ [Activated id] /\ shared st' = shared st
  end.
Proof.
  rewrite run_node_plain.
  destruct (exec_with_retry pol exec fb (prep (shared st)) (world st))
    as [[x | e] w'].
  - unfold_monad. unfold bind, assign, modify. intros [= <- <-]. simpl.
    rewrite <- app_assoc. split; [reflexivity |]. split; [reflexivity |].
    by exists x.
  - intros [= <- <-]. split; reflexivity.
Qed.

Lemma orchestrate_S (fuel : nat) (fl : Flow Id) (current : Id) st :
  orchestrate (S fuel) fl current st
  = match run_node current (node fl current) st with
    | (Throw e, st') => (Aborted current e, st')
    | (Ok action, st') =>
        match successors fl current !! action with
        | Some nxt => orchestrate fuel fl nxt st'
        | None => (Completed, st')
        end
    end.
Proof. reflexivity. Qed.

(** Without a fallback, a result of the execute phase under the retry
    policy is the result of one of its attempts, the last one. *)
Lemma attempt_ok_inv {R} (exec : M World R) (wait_s remaining : nat)
    (w w' : World) (r : R) :
  attempt exec None wait_s remaining w = (Ok r, w') ->
  exists w1, exec w1 = (Ok r, w').
Proof.
  revert w. induction remaining as [| k IH]; intros w; simpl;
    unfold try_catch; destruct (exec w) as [[x | e] w1] eqn:E.
  - intros [= <- <-]. by exists w.
  - discriminate.
  - intros [= <- <-]. by exists w.
  - unfold_monad. unfold bind, modify. apply IH.
Qed.

(** A node whose finalize phase is one assignment: when the node
    succeeds, the value assigned is a result of its execute phase on the
    prepared input. *)
Lemma run_node_one_assignment_ok {P R} (id : Id) pol
    (prep : SharedState -> P) (exec : P -> M World R) (f : Field)
    (upd : R -> SharedState -> SharedState) (label : string) st a st' :
  run_node id
    (PlainNode pol prep exec None
       (fun _ x => assign f (upd x) ;; mret label)) st = (Ok a, st') ->
  exists x w1,
    exec (prep (shared st)) w1 = (Ok x, world st')
    /\ shared st' = upd x (shared st).
Proof.
  rewrite run_node_plain.
  destruct (exec_with_retry pol exec None (prep (shared st)) (world st))
    as [[x | e] w'] eqn:E; [| discriminate].
  unfold exec_with_retry in E. cbn [option_map] in E.
  apply attempt_ok_inv in E as (w1 & E).
  unfold_monad. unfold bind, assign, modify. intros [= <- <-]. simpl.
  by exists x, w1.
Qed.

(** One more unit of fuel: a walk that has ended stays as it is, and a
    walk that ran out of fuel runs one more node. *)
Lemma orchestrate_one_more (fl : Flow Id) (k : nat) :
  forall (cur : Id) st,
    (fst (orchestrate k fl cur st) <> OutOfFuel
     /\ orchestrate (S k) fl cur st = orchestrate k fl cur st)
    \/ (exists n r,
          run_node n (node fl n) (snd (orchestrate k fl cur st))
          = (r, snd (orchestrate (S k) fl cur st))).
Proof.
  induction k as [| k IH]; intros cur st.
  - right. exists cur. cbn [orchestrate snd].
    destruct (run_node cur (node fl cur) st) as [[a | e] st'];
      [destruct (successors fl cur !! a) |]; by eexists.
  - rewrite (orchestrate_S (S k)), (orchestrate_S k).
    destruct (run_node cur (node fl cur) st) as [[a | e] st'];
      [destruct (successors fl cur !! a) as [nxt |] |].
    + apply IH.
    + left. by split.
    + left. by split.
Qed.

(** The assignments of a trace that one more activation extends. *)
Lemma writes_from_activation (cur : option Id) (tr : list (Event Id))
    (n : Id) (fs : list Field) :
  writes_from cur (tr ++ Activated n :: List.map Wrote fs)
  = writes_from cur tr ++ List.map (pair n) fs.
Proof.
  revert cur. induction tr as [| [m | f] tr IH]; intros cur.
  - cbn [app writes_from]. induction fs as [| f fs IHfs]; [reflexivity |].
    cbn [List.map writes_from]. by rewrite IHfs.
  - cbn [app writes_from]. apply IH.
  - cbn [app writes_from]. destruct cur; [| apply IH].
    by rewrite IH.
Qed.

Lemma assigned_activation (tr : list (Event Id)) (n : Id)
    (fs : list Field) :
  assigned (tr ++ Activated n :: List.map Wrote fs) = assigned tr ++ fs.
Proof.
  unfold assigned, writes. rewrite writes_from_activation, List.map_app.
  f_equal. induction fs as [| f fs IH]; [reflexivity |].
  simpl. by rewrite IH.
Qed.

End EngineProperties.

(** ** The nodes under the engine *)

Section NodeRuns.
Context `{Platform} `{Templates} {Id : Type}.
Implicit Types (st : Store Id) (pol : RetryPolicy).

(** The classification node never fails: it assigns the detected type and
    returns its label. *)
Lemma run_InputDetector (id : Id) pol st :
  run_node id (InputDetectorNode pol) st
  = (Ok (InputType_label (detectInputType (in_raw (input (shared st))))),
     {| shared := set_input_type
                    (detectInputType (in_raw (input (shared st))))
                    (shared st);
        world := world st;
        trace := trace st ++ [Activated id; Wrote F_input_type] |}).
Proof.
  unfold InputDetectorNode. rewrite run_node_plain.
  unfold exec_with_retry.
  rewrite (attempt_ok _ _ _ _ (world st) (world st)
             (detectInputType (in_raw (input (shared st)))))
    by reflexivity.
  unfold InputDetector_post. unfold_monad. unfold bind, assign, modify.
  simpl. rewrite <- app_assoc. reflexivity.
Qed.

Lemma ContentExtractor_post_inv (p : ExtractorPrep) (r : ExtractionResult)
    st a st' :
  ContentExtractor_post p r st = (Ok a, st') ->
  a = "default"%string
  /\ trace st' = trace st ++ [Wrote F_content_raw; Wrote F_metadata;
                              Wrote F_output_timestamp; Wrote F_output_slug]
  /\ input (shared st') = input (shared st)
  /\ layers (shared st') = layers (shared st)
  /\ out_savedFiles (output (shared st')) = out_savedFiles (output (shared st))
  /\ ct_raw (content (shared st')) = er_content r.
Proof.
  unfold ContentExtractor_post. unfold_monad.
  unfold bind, assign, modify, gets, liftW. simpl.
  intros [= <- <-]. simpl. repeat rewrite <- app_assoc.
  repeat split; reflexivity.
Qed.

Lemma run_ContentExtractor_inv (id : Id) pol st r st' :
  run_node id (ContentExtractorNode pol) st = (r, st') ->
  match r with
  | Ok a =>
      a = "default"%string
      /\ trace st' = trace st ++ [Activated id; Wrote F_content_raw;
                                  Wrote F_metadata; Wrote F_output_timestamp;
                                  Wrote F_output_slug]
      /\ input (shared st') = input (shared st)
      /\ layers (shared st') = layers (shared st)
      /\ out_savedFiles (output (shared st'))
         = out_savedFiles (output (shared st))
  | Throw _ =>
      trace st' = trace st ++ [Activated id] /\ shared st' = shared st
  end.
Proof.
  unfold ContentExtractorNode. rewrite run_node_plain.
  destruct (exec_with_retry _ _ _ _ _) as [[x | e] w'].
  - destruct r as [a | e].
    + intros Hp. apply ContentExtractor_post_inv in Hp
        as (-> & Htr & Hin & Hl & Hs & _).
      simpl in *. rewrite Htr, <- app_assoc. repeat split; assumption.
    + unfold ContentExtractor_post. unfold_monad.
      unfold bind, assign, modify, gets, liftW. simpl. discriminate.
  - intros [= <- <-]. split; reflexivity.
Qed.

(** When the fetch fails in every world, so does [extractFromURL]. *)
Lemma extractFromURL_unreachable (url : jsstring) :
  (forall w, exists e w', fetch url w = (Throw e, w')) ->
  forall w, exists e w', extractFromURL url w = (Throw e, w').
Proof.
  intros Hfail w. destruct (Hfail w) as (e & w' & He).
  exists (Error (str "Failed to fetch URL content: " ++ err_message e)), w'.
  unfold extractFromURL, try_catch. unfold_monad. unfold bind at 1.
  rewrite He. reflexivity.
Qed.

Lemma run_ContentExtractor_unreachable (id : Id) pol st :
  in_type (input (shared st)) = Some Url ->
  (forall w, exists e w', fetch (in_raw (input (shared st))) w = (Throw e, w')) ->
  exists e w',
    run_node id (ContentExtractorNode pol) st
    = (Throw e, {| shared := shared st; world := w';
                   trace := trace st ++ [Activated id] |}).
Proof.
  intros Hty Hfail. unfold ContentExtractorNode. rewrite run_node_plain.
  unfold exec_with_retry, ContentExtractor_prep. rewrite Hty.
  change (ContentExtractor_exec
            {| ep_raw := in_raw (input (shared st));
               ep_type := default Text (Some Url) |})
    with (extractFromURL (in_raw (input (shared st)))).
  cbn [option_map].
  destruct (attempt_always_throws
              (extractFromURL (in_raw (input (shared st)))) (wait pol)
              (extractFromURL_unreachable _ Hfail)
              (maxRetries pol - 1) (world st)) as (e & w' & He).
  exists e, w'. rewrite He. reflexivity.
Qed.

Lemma FileSaver_post_inv (entries : list LayerEntry) (rs : list jsstring)
    st a st' :
  FileSaver_post entries rs st = (Ok a, st') ->
  a = "default"%string
  /\ trace st' = trace st ++ [Wrote F_output_savedFiles]
  /\ shared st'
     = set_output_savedFiles (List.map (entry_path (shared st)) entries)
         (shared st).
Proof.
  unfold FileSaver_post. unfold_monad.
  unfold bind at 1. unfold gets at 1. cbn beta iota zeta.
  unfold bind at 1.
  destruct (save_entries _ _ _ entries [] st) as [[paths | e] st1] eqn:E;
    [| discriminate].
  apply save_entries_inv in E as (Hsh & Htr & Hps).
  unfold bind, assign, modify. intros [= <- <-]. simpl.
  rewrite (Hps _ eq_refl), Hsh, Htr. repeat split; reflexivity.
Qed.

Lemma FileSaver_post_throw_inv (entries : list LayerEntry)
    (rs : list jsstring) st e st' :
  FileSaver_post entries rs st = (Throw e, st') ->
  trace st' = trace st /\ shared st' = shared st.
Proof.
  unfold FileSaver_post. unfold_monad.
  unfold bind at 1. unfold gets at 1. cbn beta iota zeta.
  unfold bind at 1.
  destruct (save_entries _ _ _ entries [] st) as [[paths | e1] st1] eqn:E.
  - unfold bind, assign, modify. discriminate.
  - apply save_entries_inv in E as (Hsh & Htr & _).
    intros [= <- <-]. split; assumption.
Qed.

Lemma run_FileSaver_inv (id : Id) pol st r st' :
  run_node id (FileSaverNode pol) st = (r, st') ->
  match r with
  | Ok a =>
      a = "default"%string
      /\ trace st' = trace st ++ [Activated id; Wrote F_output_savedFiles]
      /\ layers (shared st') = layers (shared st)
  | Throw _ =>
      trace st' = trace st ++ [Activated id] /\ shared st' = shared st
  end.
Proof.
  unfold FileSaverNode. rewrite run_node_batch.
  destruct (mapM (M := M World) _ _ (world st)) as [[rs | e] w'].
  - destruct r as [a | e]; intros Hp.
    + apply FileSaver_post_inv in Hp as (-> & Htr & Hsh).
      simpl in *. rewrite Htr, Hsh, <- app_assoc. repeat split; reflexivity.
    + apply FileSaver_post_throw_inv in Hp as (Htr & Hsh).
      simpl in *. split; assumption.
  - intros [= <- <-]. split; reflexivity.
Qed.

End NodeRuns.

Section LayerRuns.
Context `{Platform} `{Templates} {Id : Type}.
Implicit Types (st : Store Id) (pol : RetryPolicy).

Lemma run_Layer1_inv (id : Id) pol st r st' :
  run_node id (Layer1CaptureNode pol) st = (r, st') ->
  match r with
  | Ok a =>
      a = "default"%string
      /\ trace st' = trace st ++ [Activated id; Wrote F_layer1]
      /\ exists x, shared st' = set_layer1 x (shared st)
  | Throw _ =>
      trace st' = trace st ++ [Activated id] /\ shared st' = shared st
  end.
Proof.
  exact (run_node_one_assignment id pol Layer1_prep Layer1_exec None
           F_layer1 set_layer1 "default"%string st r st').
Qed.

Lemma run_Layer2_inv (id : Id) pol st r st' :
  run_node id (Layer2BoldNode pol) st = (r, st') ->
  match r with
  | Ok a =>
      a = "default"%string
      /\ trace st' = trace st ++ [Activated id; Wrote F_layer2]
      /\ exists x, shared st' = set_layer2 x (shared st)
  | Throw _ =>
      trace st' = trace st ++ [Activated id] /\ shared st' = shared st
  end.
Proof.
  exact (run_node_one_assignment id pol Layer2_prep Layer2_exec None
           F_layer2 set_layer2 "default"%string st r st').
Qed.

Lemma run_Layer3_inv (id : Id) pol st r st' :
  run_node id (Layer3DistillNode pol) st = (r, st') ->
  match r with
  | Ok a =>
      a = "default"%string
      /\ trace st' = trace st ++ [Activated id; Wrote F_layer3]
      /\ exists x, shared st' = set_layer3 x (shared st)
  | Throw _ =>
      trace st' = trace st ++ [Activated id] /\ shared st' = shared st
  end.
Proof.
  exact (run_node_one_assignment id pol Layer3_prep Layer3_exec None
           F_layer3 set_layer3 "default"%string st r st').
Qed.

Lemma run_Layer4_inv (id : Id) pol st r st' :
  run_node id (Layer4SummaryNode pol) st = (r, st') ->
  match r with
  | Ok a =>
      a = "default"%string
      /\ trace st' = trace st ++ [Activated id; Wrote F_layer4]
      /\ exists x, shared st' = set_layer4 x (shared st)
  | Throw _ =>
      trace st' = trace st ++ [Activated id] /\ shared st' = shared st
  end.
Proof.
  exact (run_node_one_assignment id pol Layer4_prep Layer4_exec None
           F_layer4 set_layer4 "default"%string st r st').
Qed.

Lemma run_Layer5_inv (id : Id) pol st r st' :
  run_node id (Layer5CreativeNode pol) st = (r, st') ->
  match r with
  | Ok a =>
      a = "default"%string
      /\ trace st' = trace st ++ [Activated id; Wrote F_layer5]
      /\ exists x, shared st' = set_layer5 x (shared st)
  | Throw _ =>
      trace st' = trace st ++ [Activated id] /\ shared st' = shared st
  end.
Proof.
  exact (run_node_one_assignment id pol Layer5_prep Layer5_exec None
           F_layer5 set_layer5 "default"%string st r st').
Qed.

(** The finalize phase of the extraction node assigns four fields and
    leaves the rest of the shared state as it is. *)
Lemma ContentExtractor_post_frame (p : ExtractorPrep) (r : ExtractionResult)
    st res st' :
  ContentExtractor_post p r st = (res, st') ->
  trace st' = trace st ++ List.map Wrote [F_content_raw; F_metadata;
                                          F_output_timestamp; F_output_slug]
  /\ (forall f, ~ In f [F_content_raw; F_metadata; F_output_timestamp;
                        F_output_slug] ->
        field_get f (shared st') = field_get f (shared st))
  /\ unassigned_part (shared st') = unassigned_part (shared st).
Proof.
  unfold ContentExtractor_post. unfold_monad.
  unfold bind, assign, modify, gets, liftW. simpl.
  intros [= <- <-]. simpl. repeat rewrite <- app_assoc.
  split; [reflexivity |]. split; [| reflexivity].
  intros f Hf. destruct f; try reflexivity; exfalso; apply Hf; simpl; auto.
Qed.

(** When the batch save node succeeds, it has assigned the saved-path
    list and nothing else. *)
Lemma run_FileSaver_ok (id : Id) pol st a st' :
  run_node id (FileSaverNode pol) st = (Ok a, st') ->
  shared st'
  = set_output_savedFiles
      (List.map (entry_path (shared st)) (FileSaver_prep (shared st)))
      (shared st).
Proof.
  unfold FileSaverNode. rewrite run_node_batch.
  destruct (mapM (M := M World) _ _ (world st)) as [[rs | e] w'];
    [| discriminate].
  intros Hp. apply FileSaver_post_inv in Hp as (_ & _ & Hsh). exact Hsh.
Qed.

End LayerRuns.

(** ** Runs of the note flow *)

Section FlowRuns.
Context `{Platform} `{Templates} `{EngineDefaults}.

(** C7: when the input is classified as a URL and fetching it fails in
    every world, the classification node assigns the type [url], every
    attempt of the extraction node's execute phase raises, and the run
    aborts in the extraction node: no layer node and no save node is
    activated, no layer slot is assigned and the saved-path list stays
    empty. *)
Theorem unresolvable_url_aborts_run (raw : jsstring)
    (options : InitialOptions) (w : World) (fuel : nat) :
  detectInputType raw = Url ->
  (forall w0, exists e w1, fetch raw w0 = (Throw e, w1)) ->
  (2 <= fuel)%nat ->
  exists e st',
    run fuel createNoteFlow (createInitialState raw options) w
    = (Aborted ContentExtractor e, st')
    /\ in_type (input (shared st')) = Some Url
    /\ (forall w0, exists e0 w1,
          ContentExtractor_exec (ContentExtractor_prep (shared st')) w0
          = (Throw e0, w1))
    /\ trace st' = [Activated InputDetector; Wrote F_input_type;
                    Activated ContentExtractor]
    /\ layers (shared st')
       = {| layer1 := None; layer2 := None; layer3 := None; layer4 := None;
            layer5 := None |}
    /\ out_savedFiles (output (shared st')) = [].
Proof.
  intros Hurl Hfail Hfuel.
  destruct fuel as [| [| fuel]]; [lia | lia |].
  unfold run. rewrite orchestrate_S.
  change (start createNoteFlow) with InputDetector.
  change (node createNoteFlow InputDetector)
    with (InputDetectorNode (Id := NoteNode)
            {| maxRetries := default_maxRetries; wait := default_wait |}).
  rewrite run_InputDetector.
  cbn [shared world trace createInitialState input in_raw].
  rewrite Hurl, InputDetector_successor, orchestrate_S.
  change (node createNoteFlow ContentExtractor)
    with (ContentExtractorNode (Id := NoteNode)
            {| maxRetries := default_maxRetries; wait := default_wait |}).
  match goal with
  | |- context [run_node ContentExtractor ?n ?st] =>
      destruct (run_ContentExtractor_unreachable ContentExtractor
                  {| maxRetries := default_maxRetries; wait := default_wait |}
                  st eq_refl Hfail) as (e & w' & Hrun)
  end.
  rewrite Hrun. eexists e, _. split; [reflexivity |].
  cbn [shared trace]. split; [reflexivity |]. split.
  { intros w0. apply (extractFromURL_unreachable raw Hfail). }
  repeat split; reflexivity.
Qed.

End FlowRuns.

Section FlowWrites.
Context `{Platform} `{Templates} `{EngineDefaults}.

Lemma createNoteFlow_start : start createNoteFlow = InputDetector.
Proof. reflexivity. Qed.

Lemma createNoteFlow_node (n : NoteNode) :
  node createNoteFlow n
  = match n with
    | InputDetector => InputDetectorNode constructor_defaults
    | ContentExtractor => ContentExtractorNode constructor_defaults
    | Layer1Capture => Layer1CaptureNode constructor_defaults
    | Layer2Bold => Layer2BoldNode constructor_defaults
    | Layer3Distill => Layer3DistillNode constructor_defaults
    | Layer4Summary => Layer4SummaryNode constructor_defaults
    | Layer5Creative => Layer5CreativeNode constructor_defaults
    | FileSaver => FileSaverNode constructor_defaults
    end.
Proof. destruct n; reflexivity. Qed.

Lemma createNoteFlow_default (n : NoteNode) :
  successors createNoteFlow n !! "default"%string = chain_successor n.
Proof. destruct n; reflexivity. Qed.

(** Close the case of a run that aborted: its assignments are the first
    ones of [completed_writes]. *)
Ltac aborted_case :=
  split; [discriminate |];
  repeat match goal with
         | Htr : trace ?s = _ |- context [trace ?s] => rewrite Htr
         end;
  cbn [trace app];
  split; [eexists; reflexivity |];
  split; [| discriminate];
  apply NoDup_ListNoDup;
  repeat (constructor; [cbn [In]; intuition discriminate |]);
  constructor.

(** A run of the flow with fuel for its eight nodes does not run out of
    fuel.  However it ends, its recorded assignments are the first ones of
    the list [completed_writes], in that order; when it completes, all of
    them happened. *)
Lemma run_writes_prefix (sh : SharedState) (w : World) (fuel : nat) :
  (8 <= fuel)%nat ->
  fst (run fuel createNoteFlow sh w) <> OutOfFuel
  /\ writes (trace (snd (run fuel createNoteFlow sh w)))
       `prefix_of` completed_writes
  /\ NoDup (List.map snd (writes (trace (snd (run fuel createNoteFlow sh w)))))
  /\ (fst (run fuel createNoteFlow sh w) = Completed ->
      writes (trace (snd (run fuel createNoteFlow sh w))) = completed_writes
      /\ is_Some (layer1 (layers (shared (snd (run fuel createNoteFlow sh w)))))
      /\ is_Some (layer2 (layers (shared (snd (run fuel createNoteFlow sh w)))))
      /\ is_Some (layer3 (layers (shared (snd (run fuel createNoteFlow sh w)))))
      /\ is_Some (layer4 (layers (shared (snd (run fuel createNoteFlow sh w)))))
      /\ is_Some
           (layer5 (layers (shared (snd (run fuel createNoteFlow sh w)))))).
Proof.
  intros Hfuel.
  do 8 (destruct fuel as [| fuel]; [lia |]). clear Hfuel.
  pattern (run (S (S (S (S (S (S (S (S fuel)))))))) createNoteFlow sh w).
  match goal with |- ?P _ => set (Q := P) end.
  unfold run. rewrite createNoteFlow_start, orchestrate_S.
  rewrite createNoteFlow_node, run_InputDetector, InputDetector_successor.
  cbn [shared world trace app].
  (* content extraction *)
  rewrite orchestrate_S.
  rewrite createNoteFlow_node.
  destruct (run_node ContentExtractor _ _) as [[a2 | e2] st2] eqn:E2;
    apply run_ContentExtractor_inv in E2;
    [destruct E2 as (-> & Htr2 & _ & Hl2 & _)
    | destruct E2 as (Htr2 & _); subst Q; cbn [fst snd]; aborted_case].
  rewrite createNoteFlow_default.
  cbn [chain_successor].
  (* layer 1 *)
  rewrite orchestrate_S.
  rewrite createNoteFlow_node.
  destruct (run_node Layer1Capture _ _) as [[a3 | e3] st3] eqn:E3;
    apply run_Layer1_inv in E3;
    [destruct E3 as (-> & Htr3 & r1 & Hsh3)
    | destruct E3 as (Htr3 & _); subst Q; cbn [fst snd]; aborted_case].
  rewrite createNoteFlow_default.
  cbn [chain_successor].
  (* layer 2 *)
  rewrite orchestrate_S.
  rewrite createNoteFlow_node.
  destruct (run_node Layer2Bold _ _) as [[a4 | e4] st4] eqn:E4;
    apply run_Layer2_inv in E4;
    [destruct E4 as (-> & Htr4 & r2 & Hsh4)
    | destruct E4 as (Htr4 & _); subst Q; cbn [fst snd]; aborted_case].
  rewrite createNoteFlow_default.
  cbn [chain_successor].
  (* layer 3 *)
  rewrite orchestrate_S.
  rewrite createNoteFlow_node.
  destruct (run_node Layer3Distill _ _) as [[a5 | e5] st5] eqn:E5;
    apply run_Layer3_inv in E5;
    [destruct E5 as (-> & Htr5 & r3 & Hsh5)
    | destruct E5 as (Htr5 & _); subst Q; cbn [fst snd]; aborted_case].
  rewrite createNoteFlow_default.
  cbn [chain_successor].
  (* layer 4 *)
  rewrite orchestrate_S.
  rewrite createNoteFlow_node.
  destruct (run_node Layer4Summary _ _) as [[a6 | e6] st6] eqn:E6;
    apply run_Layer4_inv in E6;
    [destruct E6 as (-> & Htr6 & r4 & Hsh6)
    | destruct E6 as (Htr6 & _); subst Q; cbn [fst snd]; aborted_case].
  rewrite createNoteFlow_default.
  cbn [chain_successor].
  (* layer 5 *)
  rewrite orchestrate_S.
  rewrite createNoteFlow_node.
  destruct (run_node Layer5Creative _ _) as [[a7 | e7] st7] eqn:E7;
    apply run_Layer5_inv in E7;
    [destruct E7 as (-> & Htr7 & r5 & Hsh7)
    | destruct E7 as (Htr7 & _); subst Q; cbn [fst snd]; aborted_case].
  rewrite createNoteFlow_default.
  cbn [chain_successor].
  (* the batch save *)
  rewrite orchestrate_S.
  rewrite createNoteFlow_node.
  destruct (run_node FileSaver _ _) as [[a8 | e8] st8] eqn:E8;
    apply run_FileSaver_inv in E8;
    [destruct E8 as (-> & Htr8 & Hl8)
    | destruct E8 as (Htr8 & _); subst Q; cbn [fst snd]; aborted_case].
  rewrite createNoteFlow_default.
  cbn [chain_successor]. subst Q. cbn [fst snd].
  assert (Htrace : writes (trace st8) = completed_writes).
  { rewrite Htr8, Htr7, Htr6, Htr5, Htr4, Htr3, Htr2. reflexivity. }
  split; [discriminate |].
  split; [rewrite Htrace; reflexivity |].
  split.
  { rewrite Htrace. unfold completed_writes. cbn [List.map snd].
    apply NoDup_ListNoDup.
    repeat (constructor; [cbn [In]; intuition discriminate |]).
    constructor. }
  intros _. split; [exact Htrace |].
  rewrite Hl8, Hsh7, Hsh6, Hsh5, Hsh4, Hsh3. cbn.
  repeat split; eauto.
Qed.

(** What one activation of a node of the flow does to the store: it
    extends the trace by its activation and its assignments, and every
    field it does not assign keeps its value. *)
Lemma run_node_frame (n : NoteNode) (st : Store NoteNode) r st' :
  run_node n (node createNoteFlow n) st = (r, st') ->
  exists fs,
    trace st' = trace st ++ Activated n :: List.map Wrote fs
    /\ (forall f, ~ In f fs ->
          field_get f (shared st') = field_get f (shared st))
    /\ unassigned_part (shared st') = unassigned_part (shared st).
Proof.
  rewrite createNoteFlow_node. destruct n.
  - rewrite run_InputDetector. intros [= <- <-]. exists [F_input_type].
    split; [reflexivity |]. split; [| reflexivity].
    intros f Hf. destruct f; try reflexivity; exfalso; apply Hf; simpl; auto.
  - unfold ContentExtractorNode. rewrite run_node_plain.
    destruct (exec_with_retry _ _ _ _ _) as [[x | e] w'].
    + intros Hp. apply ContentExtractor_post_frame in Hp as (Htr & Hf & Hu).
      exists [F_content_raw; F_metadata; F_output_timestamp; F_output_slug].
      cbn [shared trace] in *. rewrite Htr, <- app_assoc.
      split; [reflexivity |]. split; assumption.
    + intros [= <- <-]. exists []. simpl. auto.
  - intros Hrun. apply run_Layer1_inv in Hrun. destruct r as [a | e].
    + destruct Hrun as (_ & Htr & x & Hsh). exists [F_layer1].
      rewrite Htr, Hsh. split; [reflexivity |]. split; [| reflexivity].
      intros f Hf. destruct f; try reflexivity; exfalso; apply Hf; simpl; auto.
    + destruct Hrun as (Htr & Hsh). exists []. rewrite Htr, Hsh. auto.
  - intros Hrun. apply run_Layer2_inv in Hrun. destruct r as [a | e].
    + destruct Hrun as (_ & Htr & x & Hsh). exists [F_layer2].
      rewrite Htr, Hsh. split; [reflexivity |]. split; [| reflexivity].
      intros f Hf. destruct f; try reflexivity; exfalso; apply Hf; simpl; auto.
    + destruct Hrun as (Htr & Hsh). exists []. rewrite Htr, Hsh. auto.
  - intros Hrun. apply run_Layer3_inv in Hrun. destruct r as [a | e].
    + destruct Hrun as (_ & Htr & x & Hsh). exists [F_layer3].
      rewrite Htr, Hsh. split; [reflexivity |]. split; [| reflexivity].
      intros f Hf. destruct f; try reflexivity; exfalso; apply Hf; simpl; auto.
    + destruct Hrun as (Htr & Hsh). exists []. rewrite Htr, Hsh. auto.
  - intros Hrun. apply run_Layer4_inv in Hrun. destruct r as [a | e].
    + destruct Hrun as (_ & Htr & x & Hsh). exists [F_layer4].
      rewrite Htr, Hsh. split; [reflexivity |]. split; [| reflexivity].
      intros f Hf. destruct f; try reflexivity; exfalso; apply Hf; simpl; auto.
    + destruct Hrun as (Htr & Hsh). exists []. rewrite Htr, Hsh. auto.
  - intros Hrun. apply run_Layer5_inv in Hrun. destruct r as [a | e].
    + destruct Hrun as (_ & Htr & x & Hsh). exists [F_layer5].
      rewrite Htr, Hsh. split; [reflexivity |]. split; [| reflexivity].
      intros f Hf. destruct f; try reflexivity; exfalso; apply Hf; simpl; auto.
    + destruct Hrun as (Htr & Hsh). exists []. rewrite Htr, Hsh. auto.
  - intros Hrun. destruct r as [a | e].
    + pose proof (run_FileSaver_ok _ _ _ _ _ Hrun) as Hsh.
      apply run_FileSaver_inv in Hrun as (_ & Htr & _).
      exists [F_output_savedFiles]. rewrite Htr, Hsh.
      split; [reflexivity |]. split; [| reflexivity].
      intros f Hf. destruct f; try reflexivity; exfalso; apply Hf; simpl; auto.
    + apply run_FileSaver_inv in Hrun as (Htr & Hsh).
      exists []. rewrite Htr, Hsh. auto.
Qed.

(** The run with one more unit of fuel is the run with one more node, or
    the same run. *)
Lemma run_one_more (sh : SharedState) (w : World) (k : nat) :
  exists ext fs,
    trace (snd (run (S k) createNoteFlow sh w))
    = trace (snd (run k createNoteFlow sh w)) ++ ext
    /\ assigned (trace (snd (run (S k) createNoteFlow sh w)))
       = assigned (trace (snd (run k createNoteFlow sh w))) ++ fs
    /\ (forall f, ~ In f fs ->
          field_get f (shared (snd (run (S k) createNoteFlow sh w)))
          = field_get f (shared (snd (run k createNoteFlow sh w))))
    /\ unassigned_part (shared (snd (run (S k) createNoteFlow sh w)))
       = unassigned_part (shared (snd (run k createNoteFlow sh w))).
Proof.
  unfold run.
  destruct (orchestrate_one_more createNoteFlow k (start createNoteFlow)
              {| shared := sh; world := w; trace := [] |})
    as [[_ Heq] | (n & r & Hrun)].
  - rewrite Heq. exists [], []. by rewrite !app_nil_r.
  - apply run_node_frame in Hrun as (fs & Htr & Hf & Hu).
    exists (Activated n :: List.map Wrote fs), fs.
    rewrite Htr, assigned_activation. auto.
Qed.

(** The runs with less fuel are the beginnings of the run. *)
Lemma run_trace_prefix (sh : SharedState) (w : World) (k j : nat) :
  (k <= j)%nat ->
  trace (snd (run k createNoteFlow sh w))
    `prefix_of` trace (snd (run j createNoteFlow sh w))
  /\ assigned (trace (snd (run k createNoteFlow sh w)))
       `prefix_of` assigned (trace (snd (run j createNoteFlow sh w))).
Proof.
  induction 1 as [| j Hle [IHt IHa]]; [split; reflexivity |].
  destruct (run_one_more sh w j) as (ext & fs & Htr & Has & _).
  rewrite Has, Htr. split.
  - etrans; [exact IHt | by apply prefix_app_r].
  - etrans; [exact IHa | by apply prefix_app_r].
Qed.

(** No field is recorded twice, in a run with any fuel. *)
Lemma run_assigned_NoDup (sh : SharedState) (w : World) (k : nat) :
  NoDup (assigned (trace (snd (run k createNoteFlow sh w)))).
Proof.
  destruct (run_trace_prefix sh w k (k + 8)) as (_ & (fs & Has)); [lia |].
  destruct (run_writes_prefix sh w (k + 8)) as (_ & _ & Hnodup & _); [lia |].
  fold (assigned (trace (snd (run (k + 8) createNoteFlow sh w)))) in Hnodup.
  rewrite Has in Hnodup. by apply NoDup_app in Hnodup as (Hnodup & _).
Qed.

(** A field that no node has assigned yet holds its initial value. *)
Lemma run_unassigned_initial (sh : SharedState) (w : World) (k : nat)
    (f : Field) :
  ~ In f (assigned (trace (snd (run k createNoteFlow sh w)))) ->
  field_get f (shared (snd (run k createNoteFlow sh w))) = field_get f sh.
Proof.
  induction k as [| k IH]; [reflexivity |].
  destruct (run_one_more sh w k) as (ext & fs & _ & Has & Hf & _).
  rewrite Has. intros Hnot. rewrite Hf.
  - apply IH. intros Hin. apply Hnot, in_or_app. by left.
  - intros Hin. apply Hnot, in_or_app. by right.
Qed.

(** A field that a node has assigned keeps its value in the rest of the
    run. *)
Lemma run_assigned_kept (sh : SharedState) (w : World) (k j : nat)
    (f : Field) :
  (k <= j)%nat ->
  In f (assigned (trace (snd (run k createNoteFlow sh w)))) ->
  field_get f (shared (snd (run j createNoteFlow sh w)))
  = field_get f (shared (snd (run k createNoteFlow sh w))).
Proof.
  intros Hle Hin. induction Hle as [| j Hle IH]; [reflexivity |].
  destruct (run_one_more sh w j) as (ext & fs & _ & Has & Hf & _).
  rewrite Hf; [exact IH |].
  intros Hfs.
  pose proof (run_assigned_NoDup sh w (S j)) as Hnodup.
  rewrite Has in Hnodup. apply NoDup_app in Hnodup as (_ & Hdisj & _).
  destruct (run_trace_prefix sh w k j Hle) as (_ & (fs' & Hpre)).
  apply (Hdisj f).
  - rewrite Hpre. apply elem_of_app. left. by apply list_elem_of_In.
  - by apply list_elem_of_In.
Qed.

(** The parts of the shared state that no field names stay as they
    are. *)
Lemma run_unassigned_part (sh : SharedState) (w : World) (k : nat) :
  unassigned_part (shared (snd (run k createNoteFlow sh w)))
  = unassigned_part sh.
Proof.
  induction k as [| k IH]; [reflexivity |].
  destruct (run_one_more sh w k) as (ext & fs & _ & _ & _ & Hu).
  by rewrite Hu.
Qed.

(** When the run completes, each layer slot holds the text that the
    generative service returned to the node of the layer, for the prompt
    made from the shared state that the nodes before it left: the state
    after the first two nodes, with the slots of the layers before. *)
Lemma completed_run_replies (sh : SharedState) (w : World) (fuel : nat) :
  (8 <= fuel)%nat ->
  fst (run fuel createNoteFlow sh w) = Completed ->
  exists sh2 r1 r2 r3 r4 r5,
    sh2 = shared (snd (run 2 createNoteFlow sh w))
    /\ layers sh2 = layers sh
    /\ (exists w1 w2, Layer1_exec (Layer1_prep sh2) w1 = (Ok r1, w2))
    /\ (exists w1 w2,
          Layer2_exec (Layer2_prep (set_layer1 r1 sh2)) w1 = (Ok r2, w2))
    /\ (exists w1 w2,
          Layer3_exec (Layer3_prep (set_layer2 r2 (set_layer1 r1 sh2))) w1
          = (Ok r3, w2))
    /\ (exists w1 w2,
          Layer4_exec
            (Layer4_prep (set_layer3 r3 (set_layer2 r2 (set_layer1 r1 sh2))))
            w1
          = (Ok r4, w2))
    /\ (exists w1 w2,
          Layer5_exec
            (Layer5_prep
               (set_layer4 r4
                  (set_layer3 r3 (set_layer2 r2 (set_layer1 r1 sh2)))))
            w1
          = (Ok r5, w2))
    /\ layers (shared (snd (run fuel createNoteFlow sh w)))
       = {| layer1 := Some r1; layer2 := Some r2; layer3 := Some r3;
            layer4 := Some r4; layer5 := Some r5 |}.
Proof.
  intros Hfuel.
  do 8 (destruct fuel as [| fuel]; [lia |]). clear Hfuel.
  pattern (run (S (S (S (S (S (S (S (S fuel)))))))) createNoteFlow sh w).
  match goal with |- ?P _ => set (Q := P) end.
  unfold run. rewrite createNoteFlow_start, orchestrate_S.
  rewrite createNoteFlow_node, run_InputDetector, InputDetector_successor.
  cbn [shared world trace app].
  (* content extraction *)
  rewrite orchestrate_S, createNoteFlow_node.
  destruct (run_node ContentExtractor _ _) as [[a2 | e2] st2] eqn:E2;
    [| subst Q; cbn [fst]; discriminate].
  assert (Hrun2 : snd (run 2 createNoteFlow sh w) = st2).
  { pose proof (run_ContentExtractor_inv _ _ _ _ _ E2) as (Ha2 & _).
    unfold run. rewrite createNoteFlow_start, orchestrate_S.
    rewrite createNoteFlow_node, run_InputDetector, InputDetector_successor.
    cbn [shared world trace app].
    rewrite orchestrate_S, createNoteFlow_node, E2, Ha2.
    rewrite createNoteFlow_default. reflexivity. }
  apply run_ContentExtractor_inv in E2 as (-> & _ & _ & Hl2 & _).
  rewrite createNoteFlow_default. cbn [chain_successor].
  (* layer 1 *)
  rewrite orchestrate_S, createNoteFlow_node.
  destruct (run_node Layer1Capture _ _) as [[a3 | e3] st3] eqn:E3;
    [| subst Q; cbn [fst]; discriminate].
  pose proof (run_node_one_assignment_ok _ _ _ _ _ _ _ _ _ _ E3)
    as (r1 & w1 & Hr1 & Hsh3).
  apply run_Layer1_inv in E3 as (-> & _).
  rewrite createNoteFlow_default. cbn [chain_successor].
  (* layer 2 *)
  rewrite orchestrate_S, createNoteFlow_node.
  destruct (run_node Layer2Bold _ _) as [[a4 | e4] st4] eqn:E4;
    [| subst Q; cbn [fst]; discriminate].
  pose proof (run_node_one_assignment_ok _ _ _ _ _ _ _ _ _ _ E4)
    as (r2 & w2 & Hr2 & Hsh4).
  apply run_Layer2_inv in E4 as (-> & _).
  rewrite createNoteFlow_default. cbn [chain_successor].
  (* layer 3 *)
  rewrite orchestrate_S, createNoteFlow_node.
  destruct (run_node Layer3Distill _ _) as [[a5 | e5] st5] eqn:E5;
    [| subst Q; cbn [fst]; discriminate].
  pose proof (run_node_one_assignment_ok _ _ _ _ _ _ _ _ _ _ E5)
    as (r3 & w3 & Hr3 & Hsh5).
  apply run_Layer3_inv in E5 as (-> & _).
  rewrite createNoteFlow_default. cbn [chain_successor].
  (* layer 4 *)
  rewrite orchestrate_S, createNoteFlow_node.
  destruct (run_node Layer4Summary _ _) as [[a6 | e6] st6] eqn:E6;
    [| subst Q; cbn [fst]; discriminate].
  pose proof (run_node_one_assignment_ok _ _ _ _ _ _ _ _ _ _ E6)
    as (r4 & w4 & Hr4 & Hsh6).
  apply run_Layer4_inv in E6 as (-> & _).
  rewrite createNoteFlow_default. cbn [chain_successor].
  (* layer 5 *)
  rewrite orchestrate_S, createNoteFlow_node.
  destruct (run_node Layer5Creative _ _) as [[a7 | e7] st7] eqn:E7;
    [| subst Q; cbn [fst]; discriminate].
  pose proof (run_node_one_assignment_ok _ _ _ _ _ _ _ _ _ _ E7)
    as (r5 & w5 & Hr5 & Hsh7).
  apply run_Layer5_inv in E7 as (-> & _).
  rewrite createNoteFlow_default. cbn [chain_successor].
  (* the batch save *)
  rewrite orchestrate_S, createNoteFlow_node.
  destruct (run_node FileSaver _ _) as [[a8 | e8] st8] eqn:E8;
    [| subst Q; cbn [fst]; discriminate].
  apply run_FileSaver_inv in E8 as (-> & _ & Hl8).
  rewrite createNoteFlow_default. cbn [chain_successor].
  subst Q. cbn [fst snd]. intros _.
  rewrite Hsh4, Hsh3 in Hr3. rewrite Hsh5, Hsh4, Hsh3 in Hr4.
  rewrite Hsh6, Hsh5, Hsh4, Hsh3 in Hr5. rewrite Hsh3 in Hr2.
  exists (shared st2), r1, r2, r3, r4, r5.
  split; [by rewrite Hrun2 |].
  split; [exact Hl2 |].
  split; [by exists w1, (world st3) |].
  split; [by exists w2, (world st4) |].
  split; [by exists w3, (world st5) |].
  split; [by exists w4, (world st6) |].
  split; [by exists w5, (world st7) |].
  rewrite Hl8, Hsh7, Hsh6, Hsh5, Hsh4, Hsh3. reflexivity.
Qed.

(** C4, amended: a run of the flow with fuel for its eight nodes does not
    run out of fuel.  However it ends, its assignments are the first ones
    of the list [completed_writes], in that order: every field is assigned
    at most once, each by one node, the slot of layer N by the layer-N node
    only and after the slot of layer N-1.  No field is cleared or assigned
    again: the runs with less fuel are the beginnings of the run, and
    through them a field that no node has assigned yet holds its initial
    value, a field that a node has assigned keeps the value it had when
    that node ended, and what no field names stays as it is.  When the run
    completes, all of [completed_writes] happened and each of the five
    layer slots holds a text, the one the generative service returned to
    the node of the layer. *)
Theorem completed_run_writes_once (sh : SharedState) (w : World)
    (fuel : nat) :
  (8 <= fuel)%nat ->
  fst (run fuel createNoteFlow sh w) <> OutOfFuel
  /\ writes (trace (snd (run fuel createNoteFlow sh w)))
       `prefix_of` completed_writes
  /\ NoDup (List.map snd (writes (trace (snd (run fuel createNoteFlow sh w)))))
  /\ (fst (run fuel createNoteFlow sh w) = Completed ->
      writes (trace (snd (run fuel createNoteFlow sh w))) = completed_writes
      /\ is_Some (layer1 (layers (shared (snd (run fuel createNoteFlow sh w)))))
      /\ is_Some (layer2 (layers (shared (snd (run fuel createNoteFlow sh w)))))
      /\ is_Some (layer3 (layers (shared (snd (run fuel createNoteFlow sh w)))))
      /\ is_Some (layer4 (layers (shared (snd (run fuel createNoteFlow sh w)))))
      /\ is_Some
           (layer5 (layers (shared (snd (run fuel createNoteFlow sh w))))))
  /\ (forall k j, (k <= j)%nat ->
        trace (snd (run k createNoteFlow sh w))
          `prefix_of` trace (snd (run j createNoteFlow sh w)))
  /\ (forall k f,
        ~ In f (assigned (trace (snd (run k createNoteFlow sh w)))) ->
        field_get f (shared (snd (run k createNoteFlow sh w)))
        = field_get f sh)
  /\ (forall k j f, (k <= j)%nat ->
        In f (assigned (trace (snd (run k createNoteFlow sh w)))) ->
        field_get f (shared (snd (run j createNoteFlow sh w)))
        = field_get f (shared (snd (run k createNoteFlow sh w))))
  /\ (forall k,
        unassigned_part (shared (snd (run k createNoteFlow sh w)))
        = unassigned_part sh)
  /\ (fst (run fuel createNoteFlow sh w) = Completed ->
      exists sh2 r1 r2 r3 r4 r5,
        sh2 = shared (snd (run 2 createNoteFlow sh w))
        /\ layers sh2 = layers sh
        /\ (exists w1 w2, Layer1_exec (Layer1_prep sh2) w1 = (Ok r1, w2))
        /\ (exists w1 w2,
              Layer2_exec (Layer2_prep (set_layer1 r1 sh2)) w1 = (Ok r2, w2))
        /\ (exists w1 w2,
              Layer3_exec (Layer3_prep (set_layer2 r2 (set_layer1 r1 sh2)))
                w1
              = (Ok r3, w2))
        /\ (exists w1 w2,
              Layer4_exec
                (Layer4_prep
                   (set_layer3 r3 (set_layer2 r2 (set_layer1 r1 sh2))))
                w1
              = (Ok r4, w2))
        /\ (exists w1 w2,
              Layer5_exec
                (Layer5_prep
                   (set_layer4 r4
                      (set_layer3 r3 (set_layer2 r2 (set_layer1 r1 sh2)))))
                w1
              = (Ok r5, w2))
        /\ layers (shared (snd (run fuel createNoteFlow sh w)))
           = {| layer1 := Some r1; layer2 := Some r2; layer3 := Some r3;
                layer4 := Some r4; layer5 := Some r5 |}).
Proof.
  intros Hfuel.
  destruct (run_writes_prefix sh w fuel Hfuel) as (Hend & Hpre & Hnd & Hall).
  split; [exact Hend |]. split; [exact Hpre |]. split; [exact Hnd |].
  split; [exact Hall |].
  split; [intros k j Hle; apply (run_trace_prefix sh w k j Hle) |].
  split; [apply run_unassigned_initial |].
  split; [apply run_assigned_kept |].
  split; [apply run_unassigned_part |].
  apply (completed_run_replies sh w fuel Hfuel).
Qed.

End FlowWrites.

(** *** Runs on the simulated platform *)

Example note_run_completes :
  fst (SimRun.note_run (str "reply")) = Completed
  /\ List.map fst (Sim.disk (world (snd (SimRun.note_run (str "reply")))))
     = out_savedFiles (output (shared (snd (SimRun.note_run (str "reply")))))
  /\ length (out_savedFiles
               (output (shared (snd (SimRun.note_run (str "reply")))))) = 5%nat
  /\ md_wordCount (metadata (shared (snd (SimRun.note_run (str "reply")))))
     = 9%nat.
Proof. vm_compute. repeat split; reflexivity. Qed.

Example dead_link_run_writes_nothing :
  Sim.disk (world (snd SimRun.dead_link_run)) = []
  /\ activations (trace (snd SimRun.dead_link_run))
     = [InputDetector; ContentExtractor].
Proof. vm_compute. split; reflexivity. Qed.

(** C4, as stated, fails: when the generative-text service replies with
    the empty text (the value [callLlm] returns for a response without
    content), the run completes and every layer slot holds the empty
    string; the batch save node then finds no slot to save. *)
Lemma empty_reply_run_leaves_empty_slots :
  fst (SimRun.note_run []) = Completed
  /\ layer1 (layers (shared (snd (SimRun.note_run [])))) = Some []
  /\ Forall (fun level =>
               level_nonempty (layers (shared (snd (SimRun.note_run []))))
                 level = false)
            [1; 2; 3; 4; 5]%nat
  /\ out_savedFiles (output (shared (snd (SimRun.note_run [])))) = [].
Proof.
  split; [vm_compute; reflexivity |].
  split; [vm_compute; reflexivity |].
  split; [repeat constructor |].
  vm_compute; reflexivity.
Qed.

Lemma completed_run_writes_once_witness :
  fst (SimRun.note_run (str "reply")) = Completed
  /\ writes (trace (snd (SimRun.note_run (str "reply")))) = completed_writes
  /\ is_Some (layer1 (layers (shared (snd (SimRun.note_run (str "reply"))))))
  /\ is_Some (layer5 (layers (shared (snd (SimRun.note_run (str "reply"))))))
  /\ In F_layer1
       (assigned
          (trace
             (snd (run (H := Sim.platform true) 3 (Sim.note_flow true)
                     (createInitialState hello_note no_options)
                     (Sim.world0 5 (str "reply"))))))
  /\ field_get F_layer1 (shared (snd (SimRun.note_run (str "reply"))))
     = field_get F_layer1
         (shared
            (snd (run (H := Sim.platform true) 3 (Sim.note_flow true)
                    (createInitialState hello_note no_options)
                    (Sim.world0 5 (str "reply")))))
  /\ exists r1 r5,
       layer1 (layers (shared (snd (SimRun.note_run (str "reply")))))
       = Some r1
       /\ layer5 (layers (shared (snd (SimRun.note_run (str "reply")))))
          = Some r5.
Proof.
  assert (Hdone : fst (SimRun.note_run (str "reply")) = Completed)
    by (vm_compute; reflexivity).
  assert (Hin : In F_layer1
                  (assigned
                     (trace
                        (snd (run (H := Sim.platform true) 3
                                (Sim.note_flow true)
                                (createInitialState hello_note no_options)
                                (Sim.world0 5 (str "reply")))))))
    by (vm_compute; do 5 right; left; reflexivity).
  split; [exact Hdone |].
  assert (Hle : (8 <= 8)%nat) by lia.
  assert (Hle3 : (3 <= 8)%nat) by lia.
  destruct (completed_run_writes_once (H := Sim.platform true)
              (H0 := Sim.templates) (H1 := Sim.defaults)
              (createInitialState hello_note no_options)
              (Sim.world0 5 (str "reply")) 8 Hle)
    as (_ & _ & _ & Hcompleted & _ & _ & Hkept & _ & Hreplies).
  destruct (Hcompleted Hdone) as (Hw & Hl1 & _ & _ & _ & Hl5).
  destruct (Hreplies Hdone)
    as (sh2 & r1 & r2 & r3 & r4 & r5 & _ & _ & _ & _ & _ & _ & _ & Hlayers).
  split; [exact Hw |]. split; [exact Hl1 |]. split; [exact Hl5 |].
  split; [exact Hin |].
  split; [exact (Hkept 3%nat 8%nat F_layer1 Hle3 Hin) |].
  exists r1, r5.
  change (layers (shared (snd (SimRun.note_run (str "reply"))))
          = {| layer1 := Some r1; layer2 := Some r2; layer3 := Some r3;
               layer4 := Some r4; layer5 := Some r5 |}) in Hlayers.
  rewrite Hlayers. split; reflexivity.
Defined.

Lemma unresolvable_url_aborts_run_witness :
  detectInputType (H := Sim.platform false) SimRun.dead_link = Url
  /\ exists e st',
       SimRun.dead_link_run = (Aborted ContentExtractor e, st')
       /\ in_type (input (shared st')) = Some Url
       /\ (forall w0, exists e0 w1,
             ContentExtractor_exec (H := Sim.platform false)
               (H0 := Sim.templates) (ContentExtractor_prep (shared st')) w0
             = (Throw e0, w1))
       /\ trace st' = [Activated InputDetector; Wrote F_input_type;
                       Activated ContentExtractor]
       /\ layers (shared st')
          = {| layer1 := None; layer2 := None; layer3 := None;
               layer4 := None; layer5 := None |}
       /\ out_savedFiles (output (shared st')) = [].
Proof.
  split; [vm_compute; reflexivity |].
  apply (unresolvable_url_aborts_run (H := Sim.platform false)
           (H0 := Sim.templates) (H1 := Sim.defaults)
           SimRun.dead_link no_options (Sim.world0 5 (str "reply")) 8).
  - vm_compute. reflexivity.
  - intros w0. eexists _, w0. reflexivity.
  - lia.
Defined.

(** * Further properties of the code *)

(** ** White space *)

Section WhiteSpace.
Implicit Types (s t : jsstring) (c : N).

Lemma dropWhile_blank s : blank s = true -> dropWhile isWhiteSpace s = [].
Proof.
  induction s as [| c s IH]; [reflexivity |]. simpl.
  destruct (isWhiteSpace c); [exact IH | discriminate].
Qed.

Lemma dropWhile_app_last {A} (p : A -> bool) (l : list A) (x : A) :
  dropWhile p (l ++ [x])
  = if forallb p l then dropWhile p [x] else dropWhile p l ++ [x].
Proof.
  induction l as [| y l IH]; [reflexivity |]. simpl.
  destruct (p y); [exact IH | reflexivity].
Qed.

Lemma blank_rev s : blank (rev s) = blank s.
Proof.
  unfold blank. induction s as [| c s IH]; [reflexivity |].
  simpl. rewrite forallb_app, IH. simpl. rewrite andb_true_r.
  apply andb_comm.
Qed.

(** [trimEnd], code unit by code unit. *)
Lemma trimEnd_cons c s :
  trimEnd (c :: s)
  = if blank s then (if isWhiteSpace c then [] else [c])
    else c :: trimEnd s.
Proof.
  unfold trimEnd. simpl rev. rewrite dropWhile_app_last.
  fold (blank (rev s)). rewrite blank_rev.
  destruct (blank s); simpl.
  - destruct (isWhiteSpace c); reflexivity.
  - rewrite rev_app_distr. reflexivity.
Qed.

Lemma trimEnd_blank s : blank s = true -> trimEnd s = [].
Proof.
  intros Hb. unfold trimEnd.
  rewrite dropWhile_blank; [reflexivity |]. by rewrite blank_rev.
Qed.

Lemma trim_blank s : blank s = true -> trim s = [].
Proof. intros Hb. unfold trim, trimStart. by rewrite dropWhile_blank. Qed.

(** What [trimStart] leaves does not start with white space. *)
Lemma trimStart_head s c t :
  trimStart s = c :: t -> isWhiteSpace c = false.
Proof.
  unfold trimStart. induction s as [| d s IH]; [discriminate |]. simpl.
  destruct (isWhiteSpace d) eqn:E; [exact IH |]. intros [= <- _]. exact E.
Qed.

(** [trimEnd] keeps the first code unit of a text that starts with a code
    unit other than white space. *)
Lemma trimEnd_head c s :
  isWhiteSpace c = false -> exists t, trimEnd (c :: s) = c :: t.
Proof.
  intros Hc. rewrite trimEnd_cons, Hc. destruct (blank s); eauto.
Qed.

Lemma trim_head s c t : trim s = c :: t -> isWhiteSpace c = false.
Proof.
  unfold trim. destruct (trimStart s) as [| d u] eqn:E.
  - rewrite trimEnd_blank by reflexivity. discriminate.
  - pose proof (trimStart_head _ _ _ E) as Hd.
    destruct (trimEnd_head d u Hd) as (t' & ->). by intros [= <- _].
Qed.

Lemma trimStart_noop s c :
  isWhiteSpace c = false -> trimStart (c :: s) = c :: s.
Proof. intros Hc. unfold trimStart. simpl. by rewrite Hc. Qed.

Lemma blank_trimEnd s : blank (trimEnd s) = blank s.
Proof.
  induction s as [| c s IH]; [reflexivity |].
  rewrite trimEnd_cons. change (blank (c :: s)) with (isWhiteSpace c && blank s).
  destruct (blank s) eqn:Hb.
  - destruct (isWhiteSpace c) eqn:Hc; [reflexivity |].
    unfold blank. simpl. by rewrite Hc.
  - change (blank (c :: trimEnd s)) with (isWhiteSpace c && blank (trimEnd s)).
    by rewrite IH.
Qed.

Lemma trimEnd_idem s : trimEnd (trimEnd s) = trimEnd s.
Proof.
  induction s as [| c s IH]; [reflexivity |].
  rewrite trimEnd_cons. destruct (blank s) eqn:Hb.
  - destruct (isWhiteSpace c) eqn:Hc; [reflexivity |].
    rewrite trimEnd_cons. simpl. by rewrite Hc.
  - rewrite trimEnd_cons, IH, blank_trimEnd, Hb. reflexivity.
Qed.

(** [trim] is idempotent. *)
Lemma trim_idem s : trim (trim s) = trim s.
Proof.
  destruct (trim s) as [| c t] eqn:E; [reflexivity |].
  pose proof (trim_head s c t E) as Hc.
  unfold trim at 1. rewrite trimStart_noop by exact Hc.
  rewrite <- E. unfold trim. apply trimEnd_idem.
Qed.

(** The parts of a text that [trimEnd] and [trimStart] cut are blank. *)
Lemma trimEnd_split s : exists t, s = trimEnd s ++ t /\ blank t = true.
Proof.
  induction s as [| c s (t & Hs & Ht)].
  - exists []. split; reflexivity.
  - rewrite trimEnd_cons. destruct (blank s) eqn:Hb.
    + destruct (isWhiteSpace c) eqn:Hc.
      * exists (c :: s). split; [reflexivity |].
        unfold blank in *. simpl. by rewrite Hc.
      * exists s. split; [reflexivity | exact Hb].
    + exists t. split; [| exact Ht]. simpl. congruence.
Qed.

Lemma Forall_dropWhile {A} (P : A -> Prop) (p : A -> bool) (l : list A) :
  Forall P l -> Forall P (dropWhile p l).
Proof.
  induction 1 as [| x l Hx Hl IH]; simpl; [constructor |].
  destruct (p x); [exact IH | by constructor].
Qed.

Lemma Forall_trim (P : N -> Prop) s : Forall P s -> Forall P (trim s).
Proof.
  intros Hs. unfold trim, trimEnd, trimStart.
  apply Forall_rev, Forall_dropWhile, Forall_rev, Forall_dropWhile, Hs.
Qed.

End WhiteSpace.

(** ** Counting words *)

Section CountWords.
Implicit Types (s t : jsstring) (c : N).

Lemma truthy_rev_cons c s : truthy (rev (c :: s)) = true.
Proof. simpl. destruct (rev s); reflexivity. Qed.

(** The fields of [split_ws] that are not empty, counted. *)
Lemma split_ws_from_count s :
  (forall skipping,
     length (List.filter truthy (split_ws_from [] skipping s))
     = word_starts true s)
  /\ (forall c cur,
        length (List.filter truthy (split_ws_from (c :: cur) false s))
        = S (word_starts false s)).
Proof.
  induction s as [| d s [IH1 IH2]].
  - split; [reflexivity |]. intros c cur.
    cbn [split_ws_from List.filter]. by rewrite truthy_rev_cons.
  - split.
    + intros skipping. cbn [split_ws_from word_starts].
      destruct (isWhiteSpace d).
      * destruct skipping; [apply IH1 |].
        cbn [List.filter rev truthy]. apply IH1.
      * rewrite IH2. reflexivity.
    + intros c cur. cbn [split_ws_from word_starts].
      destruct (isWhiteSpace d).
      * cbn [List.filter]. rewrite truthy_rev_cons. cbn [length].
        by rewrite IH1.
      * rewrite IH2. reflexivity.
Qed.

Lemma word_starts_blank s after :
  blank s = true -> word_starts after s = 0%nat.
Proof.
  revert after. induction s as [| c s IH]; intros after; [reflexivity |].
  unfold blank. simpl. destruct (isWhiteSpace c); [apply IH | discriminate].
Qed.

Lemma word_starts_app_blank s t after :
  blank t = true -> word_starts after (s ++ t) = word_starts after s.
Proof.
  intros Ht. revert after. induction s as [| c s IH]; intros after.
  - simpl. by apply word_starts_blank.
  - simpl. destruct (isWhiteSpace c); by rewrite IH.
Qed.

Lemma word_starts_trimStart s :
  word_starts true (trimStart s) = word_starts true s.
Proof.
  unfold trimStart. induction s as [| c s IH]; [reflexivity |]. simpl.
  destruct (isWhiteSpace c) eqn:E; [exact IH |]. simpl. by rewrite E.
Qed.

Lemma word_starts_trimEnd s after :
  word_starts after (trimEnd s) = word_starts after s.
Proof.
  destruct (trimEnd_split s) as (t & Hs & Ht).
  rewrite Hs at 2. by rewrite word_starts_app_blank.
Qed.

Lemma word_starts_trim s : word_starts true (trim s) = word_starts true s.
Proof. unfold trim. by rewrite word_starts_trimEnd, word_starts_trimStart. Qed.

Lemma word_starts_app_space s t c after :
  isWhiteSpace c = true ->
  word_starts after (s ++ c :: t)
  = (word_starts after s + word_starts true t)%nat.
Proof.
  intros Hc. revert after. induction s as [| d s IH]; intros after.
  - simpl. by rewrite Hc.
  - simpl. destruct (isWhiteSpace d); rewrite IH; lia.
Qed.

Lemma word_starts_zero s : word_starts true s = 0%nat <-> blank s = true.
Proof.
  unfold blank. induction s as [| c s IH]; [done |]. simpl.
  destruct (isWhiteSpace c); simpl; [exact IH |]. split; discriminate.
Qed.

Lemma word_starts_bound s after :
  (2 * word_starts after s <= length s + (if after then 1 else 0))%nat.
Proof.
  revert after. induction s as [| c s IH]; intros after.
  - simpl. destruct after; lia.
  - simpl. destruct (isWhiteSpace c).
    + specialize (IH true). simpl in IH. destruct after; lia.
    + specialize (IH false). simpl in IH. destruct after; lia.
Qed.

(** [countWords] counts the places where a word starts: the code units
    that are not white space and stand at the start of the text or right
    after white space.  The [trim] and the [filter(Boolean)] of the source
    only remove the empty fields at the two ends. *)
Lemma countWords_word_starts s : countWords s = word_starts true s.
Proof.
  unfold countWords, split_ws.
  rewrite (proj1 (split_ws_from_count (trim s)) false).
  apply word_starts_trim.
Qed.

(** X1: the words of two texts joined by a white-space code unit are the
    words of the one and the words of the other. *)
Theorem countWords_app_space s t c :
  isWhiteSpace c = true ->
  countWords (s ++ c :: t) = (countWords s + countWords t)%nat.
Proof.
  intros Hc. rewrite !countWords_word_starts.
  by apply word_starts_app_space.
Qed.

Lemma countWords_app_space_witness :
  isWhiteSpace 10 = true
  /\ countWords (str "Hello world." ++ 10 :: str "A short note")
     = (countWords (str "Hello world.") + countWords (str "A short note"))%nat.
Proof.
  split; [reflexivity |].
  apply (countWords_app_space (str "Hello world.") (str "A short note") 10).
  reflexivity.
Defined.

(** X2: the word count is zero exactly for the texts of white space only
    (the empty text among them), and a text of [n] code units has at most
    [(n + 1) / 2] words. *)
Theorem countWords_zero_iff_blank s :
  (countWords s = 0%nat <-> blank s = true)
  /\ (2 * countWords s <= length s + 1)%nat.
Proof.
  rewrite countWords_word_starts. split.
  - apply word_starts_zero.
  - apply (word_starts_bound s true).
Qed.

End CountWords.

(** ** Classification and titles *)

(** X3: the classification of an input does not depend on the white space
    around it: an input and its trimmed form get the same type. *)
Theorem detectInputType_trim `{Platform} (inp : jsstring) :
  detectInputType (trim inp) = detectInputType inp.
Proof. unfold detectInputType. by rewrite trim_idem. Qed.

Section Titles.
Implicit Types (s t : jsstring) (c : N).

Lemma Forall_takeWhile {A} (p : A -> bool) (l : list A) :
  Forall (fun x => p x = true) (takeWhile p l).
Proof.
  induction l as [| x l IH]; simpl; [constructor |].
  destruct (p x) eqn:E; by constructor.
Qed.

Lemma firstLine_no_line_feed s :
  Forall (fun c => c <> 10)
    (or_else (trim (takeWhile (fun c => negb (c =? 10)) (trim s)))
       (str "Untitled")).
Proof.
  unfold or_else. destruct (truthy _).
  - apply Forall_trim.
    eapply Forall_impl; [apply Forall_takeWhile |].
    intros c Hc ->. discriminate.
  - repeat constructor; discriminate.
Qed.

(** X4: the title taken from a text never contains a line feed. *)
Theorem extractTitleFromText_one_line s :
  Forall (fun c => c <> 10) (extractTitleFromText s).
Proof.
  unfold extractTitleFromText.
  pose proof (firstLine_no_line_feed s) as Hl.
  set (firstLine := or_else _ _) in *.
  destruct (startsWith firstLine (str "#")).
  - by do 2 apply Forall_dropWhile.
  - destruct (length firstLine <=? 100)%nat; [exact Hl |].
    apply Forall_app. split.
    + by apply Forall_take.
    + repeat constructor; discriminate.
Qed.

(** The first line starts as the trimmed text does. *)
Lemma firstLine_head s c t :
  trim s = c :: t ->
  exists u,
    or_else (trim (takeWhile (fun c => negb (c =? 10)) (trim s)))
      (str "Untitled") = c :: u.
Proof.
  intros E. pose proof (trim_head s c t E) as Hc. rewrite E.
  assert (Hnl : negb (c =? 10) = true).
  { destruct (N.eqb_spec c 10) as [-> |]; [discriminate | reflexivity]. }
  cbn [takeWhile]. rewrite Hnl. unfold trim.
  rewrite trimStart_noop by exact Hc.
  destruct (trimEnd_head c (takeWhile (fun c => negb (c =? 10)) t) Hc)
    as (u & ->).
  exists u. reflexivity.
Qed.

(** X5: unless the text starts (after trimming) with the heading mark [#],
    its title has at most 100 code units. *)
Theorem extractTitleFromText_length s :
  startsWith (trim s) (str "#") = false ->
  (length (extractTitleFromText s) <= 100)%nat.
Proof.
  intros Hhash. unfold extractTitleFromText.
  assert (Hfirst : startsWith
                     (or_else (trim (takeWhile (fun c => negb (c =? 10))
                                       (trim s))) (str "Untitled"))
                     (str "#") = false).
  { pose proof (firstLine_head s) as Hh.
    destruct (trim s) as [| c t]; [reflexivity |].
    destruct (Hh c t eq_refl) as (u & ->).
    change (str "#") with [35] in *.
    destruct t, u; exact Hhash. }
  rewrite Hfirst.
  set (firstLine := or_else _ _).
  destruct (length firstLine <=? 100)%nat eqn:El.
  - by apply Nat.leb_le.
  - apply Nat.leb_gt in El. rewrite length_app, length_take.
    change (length (str "...")) with 3%nat. lia.
Qed.

Lemma extractTitleFromText_length_witness :
  startsWith (trim hello_note) (str "#") = false
  /\ (length (extractTitleFromText hello_note) <= 100)%nat.
Proof.
  split; [reflexivity |].
  apply (extractTitleFromText_length hello_note). reflexivity.
Defined.

(** A heading line is not cut: its title can be longer than 100 code
    units. *)
Example extractTitleFromText_long_heading :
  length (extractTitleFromText (str "# " ++ List.repeat 97 150)) = 150%nat.
Proof. vm_compute. reflexivity. Qed.

(** X6: a text of white space only (the empty text among them) gets the
    title [Untitled]. *)
Theorem extractTitleFromText_blank s :
  blank s = true -> extractTitleFromText s = str "Untitled".
Proof.
  intros Hb. unfold extractTitleFromText. rewrite (trim_blank s Hb).
  reflexivity.
Qed.

Lemma extractTitleFromText_blank_witness :
  blank (str "  ") = true
  /\ extractTitleFromText (str "  ") = str "Untitled".
Proof.
  split; [reflexivity |].
  apply (extractTitleFromText_blank (str "  ")). reflexivity.
Defined.

End Titles.

(** ** Extraction results *)

Section ExtractionResults.
Context `{Platform} `{Templates}.

(** X7: for a text, a PDF or a URL, an extraction that succeeds reports
    as word count the number of words of the content it returns. *)
Theorem ContentExtractor_exec_wordCount (p : ExtractorPrep) (w w' : World)
    (r : ExtractionResult) :
  ep_type p <> Image ->
  ContentExtractor_exec p w = (Ok r, w') ->
  em_wordCount (er_metadata r) = countWords (er_content r).
Proof.
  intros Hty. unfold ContentExtractor_exec. destruct (ep_type p).
  - intros [= <- _]. reflexivity.
  - unfold extractFromPDF, try_catch. unfold_monad. unfold bind, ret.
    destruct (pdf_parse_file (ep_raw p) w) as [[data | e] w1];
      [| discriminate].
    intros [= <- _]. reflexivity.
  - congruence.
  - unfold extractFromURL, try_catch. unfold_monad. unfold bind at 1.
    destruct (fetch (ep_raw p) w) as [[resp | e] w1]; [| discriminate].
    unfold bind at 1. destruct (resp_ok resp).
    + unfold ret at 1. unfold bind at 1.
      destruct (response_text resp w1) as [[html | e] w2]; [| discriminate].
      unfold bind, gets, ret. intros [= <- _]. reflexivity.
    + unfold throw at 1. discriminate.
Qed.

(** X8: the image placeholder never fails and reports a word count of 0,
    although the placeholder content it returns has words: the count is
    not taken from the content. *)
Theorem extractFromImage_wordCount (filePath : jsstring) (w : World) :
  ContentExtractor_exec {| ep_raw := filePath; ep_type := Image |} w
  = (Ok (extractFromImage filePath), w)
  /\ em_wordCount (er_metadata (extractFromImage filePath)) = 0%nat
  /\ (0 < countWords (er_content (extractFromImage filePath)))%nat.
Proof.
  split; [reflexivity |]. split; [reflexivity |].
  rewrite countWords_word_starts. simpl. lia.
Qed.

Context {Id : Type}.

(** X9: the finalize phase of the extraction node never fails, and the
    title it stores is never empty: an extraction without title, or with
    the empty title that a bare heading mark gives, is stored as
    [Untitled].  The stored word count and content are those of the
    result. *)
Theorem ContentExtractor_post_title (p : ExtractorPrep)
    (r : ExtractionResult) (st : Store Id) :
  fst (ContentExtractor_post p r st) = Ok "default"%string
  /\ truthy (md_title (metadata (shared (snd (ContentExtractor_post p r st)))))
     = true
  /\ (forall t, em_title (er_metadata r) = Some t -> truthy t = true ->
        md_title (metadata (shared (snd (ContentExtractor_post p r st)))) = t)
  /\ (em_title (er_metadata r) = None ->
      md_title (metadata (shared (snd (ContentExtractor_post p r st))))
      = str "Untitled")
  /\ (forall t, em_title (er_metadata r) = Some t -> truthy t = false ->
        md_title (metadata (shared (snd (ContentExtractor_post p r st))))
        = str "Untitled")
  /\ md_wordCount (metadata (shared (snd (ContentExtractor_post p r st))))
     = em_wordCount (er_metadata r)
  /\ ct_raw (content (shared (snd (ContentExtractor_post p r st))))
     = er_content r.
Proof.
  unfold ContentExtractor_post. unfold_monad.
  unfold bind, assign, modify, gets, liftW. simpl.
  split; [reflexivity |]. split.
  - destruct (em_title (er_metadata r)) as [t |]; simpl; [| reflexivity].
    unfold or_else. destruct (truthy t) eqn:E; [exact E | reflexivity].
  - split; [| split; [| split; [| split; reflexivity]]].
    + intros t -> Ht. simpl. unfold or_else. by rewrite Ht.
    + intros ->. reflexivity.
    + intros t -> Ht. simpl. unfold or_else. by rewrite Ht.
Qed.

End ExtractionResults.

Lemma ContentExtractor_exec_wordCount_witness :
  exists r,
    ContentExtractor_exec (H := Sim.platform true) (H0 := Sim.templates)
      {| ep_raw := SimRun.dead_link; ep_type := Url |} (Sim.world0 5 [])
    = (Ok r, Sim.world0 5 [])
    /\ em_wordCount (er_metadata r) = countWords (er_content r).
Proof.
  eexists. split; [vm_compute; reflexivity |].
  eapply (ContentExtractor_exec_wordCount (H := Sim.platform true)
            (H0 := Sim.templates)
            {| ep_raw := SimRun.dead_link; ep_type := Url |}
            (Sim.world0 5 []) (Sim.world0 5 [])).
  - discriminate.
  - vm_compute. reflexivity.
Defined.

(** The title of a text that is a bare heading mark is empty. *)
Example extractTitleFromText_bare_heading :
  extractTitleFromText (str "#") = [].
Proof. reflexivity. Qed.

(** ** File names, time stamps and escaping *)

Section FileNames.
Implicit Types (s t : jsstring) (c : N) (n m : nat).





Lemma escapeYamlString_head s : head (escapeYamlString s) <> Some 34.
Proof.
  destruct s as [| c s]; [discriminate |]. simpl.
  destruct (N.eqb_spec c 34) as [-> | Hc]; simpl; congruence.
Qed.

Lemma unescape_escape s : unescapeYamlString (escapeYamlString s) = s.
Proof.
  induction s as [| c s IH]; [reflexivity |].
  change (escapeYamlString (c :: s))
    with ((if c =? 34 then [92; 34] else [c]) ++ escapeYamlString s).
  destruct (N.eqb_spec c 34) as [-> | Hc].
  - cbn [app unescapeYamlString N.eqb Pos.eqb andb]. by rewrite IH.
  - cbn [app]. pose proof (escapeYamlString_head s) as Hh.
    simpl. destruct (escapeYamlString s) as [| d r] eqn:E.
    + simpl in IH. by rewrite <- IH.
    + destruct ((c =? 92) && (d =? 34)) eqn:Hcd.
      * apply andb_true_iff in Hcd as [_ Hd%N.eqb_eq]. subst d.
        by destruct Hh.
      * by rewrite IH.
Qed.

(** X11: [escapeYamlString] loses nothing: two titles with the same
    escaped form are the same title, and a text without double quote is
    left as it is. *)
Theorem escapeYamlString_inj s t :
  (escapeYamlString s = escapeYamlString t -> s = t)
  /\ (Forall (fun c => c <> 34) s -> escapeYamlString s = s).
Proof.
  split.
  - intros Heq. rewrite <- (unescape_escape s), <- (unescape_escape t).
    by rewrite Heq.
  - induction 1 as [| c s Hc Hs IH]; [reflexivity |].
    change (escapeYamlString (c :: s))
      with ((if c =? 34 then [92; 34] else [c]) ++ escapeYamlString s).
    destruct (N.eqb_spec c 34); [done |]. simpl. by rewrite IH.
Qed.

(** X12: in an escaped text every double quote stands right after a
    backslash, and the escaped text is longer than the text by the number
    of its double quotes. *)
Theorem escapeYamlString_quotes s :
  (forall i, escapeYamlString s !! i = Some 34 ->
     exists j, i = S j /\ escapeYamlString s !! j = Some 92)
  /\ length (escapeYamlString s)
     = (length s + length (List.filter (fun c => (c =? 34)%N) s))%nat.
Proof.
  split.
  - induction s as [| c s IH]; [intros [| i]; discriminate |].
    change (escapeYamlString (c :: s))
      with ((if c =? 34 then [92; 34] else [c]) ++ escapeYamlString s).
    destruct (N.eqb_spec c 34) as [-> | Hc]; cbn [app].
    + intros [| [| i]]; cbn [lookup list_lookup].
      * discriminate.
      * intros _. exists 0%nat. split; reflexivity.
      * intros Hi. destruct (IH i Hi) as (j & -> & Hj).
        exists (S (S j)). split; [reflexivity | exact Hj].
    + intros [| i]; cbn [lookup list_lookup].
      * congruence.
      * intros Hi. destruct (IH i Hi) as (j & -> & Hj).
        exists (S j). split; [reflexivity | exact Hj].
  - induction s as [| c s IH]; [reflexivity |].
    change (escapeYamlString (c :: s))
      with ((if c =? 34 then [92; 34] else [c]) ++ escapeYamlString s).
    cbn [List.filter]. destruct (c =? 34); rewrite length_app, IH; simpl; lia.
Qed.

End FileNames.

(** ** The entries of the save node *)

(** X13: every entry that the save node prepares has a level from 1 to 5,
    a content that is not empty, and the name that [getLayerName] gives
    to its level: the table of the node and the table of [files.ts]
    agree. *)
Theorem FileSaver_prep_entries (sh : SharedState) :
  Forall (fun entry =>
            (1 <= le_level entry <= 5)%nat
            /\ le_name entry = getLayerName (le_level entry)
            /\ truthy (le_content entry) = true)
         (FileSaver_prep sh).
Proof.
  unfold FileSaver_prep. destruct (layers sh) as [a b c d e].
  destruct a as [[|? ?]|], b as [[|? ?]|], c as [[|? ?]|], d as [[|? ?]|],
    e as [[|? ?]|];
    cbn [collect_entries layerConfigs layers_get lc_key lc_level lc_name
         truthy layer1 layer2 layer3 layer4 layer5];
    repeat constructor.
Qed.

Section NothingToSave.
Context `{Platform} {Id : Type}.

(** X14: when no layer slot holds a text that is not empty, the save node
    has no entry, and its finalize phase creates no directory and writes
    no file: it leaves the world as it is and sets the saved-path list to
    the empty list. *)
Theorem FileSaver_nothing_to_save (st : Store Id) (rs : list jsstring) :
  (forall k, slot_nonempty (layers_get (layers (shared st)) k) = false) ->
  FileSaver_prep (shared st) = []
  /\ FileSaver_post (FileSaver_prep (shared st)) rs st
     = (Ok "default"%string,
        {| shared := set_output_savedFiles [] (shared st);
           world := world st;
           trace := trace st ++ [Wrote F_output_savedFiles] |}).
Proof.
  intros Hempty.
  assert (Hprep : FileSaver_prep (shared st) = []).
  { unfold FileSaver_prep.
    pose proof (Hempty K_layer1) as H1. pose proof (Hempty K_layer2) as H2.
    pose proof (Hempty K_layer3) as H3. pose proof (Hempty K_layer4) as H4.
    pose proof (Hempty K_layer5) as H5. clear Hempty.
    destruct (layers (shared st)) as [a b c d e]. simpl in *.
    unfold slot_nonempty in *.
    destruct a as [a |]; [rewrite H1 |]; destruct b as [b |];
      [rewrite H2 | | rewrite H2 |];
      destruct c as [c |]; try rewrite H3; destruct d as [d |];
      try rewrite H4; destruct e as [e |]; try rewrite H5; reflexivity. }
  split; [exact Hprep |]. rewrite Hprep. destruct st; reflexivity.
Qed.

End NothingToSave.

Lemma FileSaver_nothing_to_save_witness :
  (forall k,
     slot_nonempty
       (layers_get (layers (createInitialState hello_note no_options)) k)
     = false)
  /\ FileSaver_prep (createInitialState hello_note no_options) = []
  /\ Sim.disk
       (world (snd (FileSaver_post (H := Sim.platform true) (Id := NoteNode)
                      (FileSaver_prep
                         (createInitialState hello_note no_options)) []
                      (Build_Store (H := Sim.platform true) (Id := NoteNode)
                         (createInitialState hello_note no_options)
                         (Sim.world0 5 []) [])))) = [].
Proof.
  assert (Hempty : forall k,
             slot_nonempty
               (layers_get (layers (createInitialState hello_note no_options))
                  k) = false) by (intros []; reflexivity).
  split; [exact Hempty |].
  destruct (FileSaver_nothing_to_save (H := Sim.platform true)
              (Build_Store (H := Sim.platform true) (Id := NoteNode)
                 (createInitialState hello_note no_options)
                 (Sim.world0 5 []) []) [] Hempty) as [Hprep Hpost].
  split; [exact Hprep |]. cbn [shared] in Hpost. rewrite Hpost. reflexivity.
Defined.

(** ** Time stamps *)

Section TimeStamps.

Lemma digits_isDigit (u : Decimal.uint) :
  Forall (fun c => isDigit c = true) (digits u).
Proof. induction u; simpl; constructor; auto. Qed.

Lemma pad2_isDigit (n : nat) : Forall (fun c => isDigit c = true) (pad2 n).
Proof.
  unfold pad2. apply Forall_app. split; [| apply digits_isDigit].
  apply Forall_forall. intros c Hc. apply list_elem_of_In, repeat_spec in Hc.
  by subst c.
Qed.

Lemma pad2_length (n : nat) : (n < 100)%nat -> length (pad2 n) = 2%nat.
Proof.
  intros Hn.
  assert (Hall : forallb (fun k => (length (pad2 k) =? 2)%nat) (seq 0 100)
                 = true) by (vm_compute; reflexivity).
  rewrite forallb_forall in Hall.
  apply Nat.eqb_eq, Hall, in_seq. lia.
Qed.

(** X15: for a date with a year of four digits, [generateTimestamp] gives
    the fifteen code units [YYYYMMDD-HHmmss]: eight digits, a hyphen, six
    digits. *)
Theorem generateTimestamp_format (d : Date) :
  length (Number_toString (getFullYear d)) = 4%nat ->
  (getMonth d <= 11)%nat -> (getDate d <= 31)%nat ->
  (getHours d <= 23)%nat -> (getMinutes d <= 59)%nat ->
  (getSeconds d <= 59)%nat ->
  length (generateTimestamp d) = 15%nat
  /\ generateTimestamp d !! 8%nat = Some 45
  /\ Forall (fun c => isDigit c = true) (take 8 (generateTimestamp d))
  /\ Forall (fun c => isDigit c = true) (drop 9 (generateTimestamp d)).
Proof.
  intros Ly Hmo Hd Hh Hmi Hs. unfold generateTimestamp.
  pose proof (digits_isDigit (Nat.to_uint (getFullYear d))) as Dy.
  fold (Number_toString (getFullYear d)) in Dy.
  pose proof (pad2_length (getMonth d + 1) ltac:(lia)) as Lmo.
  pose proof (pad2_isDigit (getMonth d + 1)) as Dmo.
  pose proof (pad2_length (getDate d) ltac:(lia)) as Ld.
  pose proof (pad2_isDigit (getDate d)) as Dd.
  pose proof (pad2_length (getHours d) ltac:(lia)) as Lh.
  pose proof (pad2_isDigit (getHours d)) as Dh.
  pose proof (pad2_length (getMinutes d) ltac:(lia)) as Lmi.
  pose proof (pad2_isDigit (getMinutes d)) as Dmi.
  pose proof (pad2_length (getSeconds d) ltac:(lia)) as Ls.
  pose proof (pad2_isDigit (getSeconds d)) as Ds.
  destruct (Number_toString (getFullYear d)) as [| y1 [| y2 [| y3 [| y4 [|]]]]];
    try discriminate.
  destruct (pad2 (getMonth d + 1)) as [| a1 [| a2 [|]]]; try discriminate.
  destruct (pad2 (getDate d)) as [| b1 [| b2 [|]]]; try discriminate.
  destruct (pad2 (getHours d)) as [| c1 [| c2 [|]]]; try discriminate.
  destruct (pad2 (getMinutes d)) as [| e1 [| e2 [|]]]; try discriminate.
  destruct (pad2 (getSeconds d)) as [| f1 [| f2 [|]]]; try discriminate.
  repeat match goal with
         | H : Forall _ (_ :: _) |- _ => inversion_clear H
         end.
  split; [reflexivity |]. split; [reflexivity |].
  split; cbn [app take drop str]; repeat constructor; assumption.
Qed.

Lemma generateTimestamp_format_witness :
  generateTimestamp Sim.sim_date = str "20240115-143022"
  /\ length (generateTimestamp Sim.sim_date) = 15%nat
  /\ generateTimestamp Sim.sim_date !! 8%nat = Some 45.
Proof.
  split; [reflexivity |].
  destruct (generateTimestamp_format Sim.sim_date) as (Hl & Hh & _);
    [reflexivity | simpl; lia .. |].
  split; [exact Hl | exact Hh].
Defined.

End TimeStamps.

(** ** The command line *)

Section ParseArgs.
Implicit Types (arg : jsstring) (args : list jsstring) (o : CLIOptions).

(** An argument that selects a case of the [switch] starts with a
    hyphen. *)
Lemma positional_no_case arg :
  startsWith arg (str "-") = false ->
  value_case arg = None /\ help_case arg = false.
Proof.
  intros Hpos.
  assert (Hlit : forall lit : string,
             startsWith (str lit) (str "-") = true -> arg_is arg lit = false).
  { intros lit Hl. unfold arg_is. apply bool_decide_eq_false.
    intros ->. congruence. }
  unfold value_case, help_case.
  rewrite !Hlit by reflexivity. split; reflexivity.
Qed.

Lemma value_case_input arg f v o :
  value_case arg = Some f -> cli_input (f v o) = cli_input o.
Proof.
  unfold value_case.
  repeat match goal with
         | |- context [if ?b then _ else _] => destruct b
         end; intros [= <-]; reflexivity.
Qed.

Lemma help_case_literal arg :
  help_case arg = true -> arg = str "--help" \/ arg = str "-h".
Proof.
  unfold help_case, arg_is. intros [H | H]%orb_true_iff;
    apply bool_decide_eq_true in H; auto.
Qed.

(** The input that the loop leaves is the one it started with, or an
    argument. *)
Lemma parseArgs_from_input args :
  forall o o',
    parseArgs_from args o = Parsed o' ->
    cli_input o' = cli_input o
    \/ (truthy (cli_input o) = false
        /\ In (cli_input o') args
        /\ startsWith (cli_input o') (str "-") = false
        /\ truthy (cli_input o') = true).
Proof.
  induction args as [args IH] using (induction_ltof1 _ (@length _)).
  unfold ltof in IH. intros o o'. destruct args as [| arg rest].
  - intros [= <-]. by left.
  - cbn [parseArgs_from]. destruct (value_case arg) as [f |] eqn:Ev.
    + destruct rest as [| value rest'].
      * intros [= <-]. left. by eapply value_case_input.
      * intros Hp. apply IH in Hp; [| simpl; lia].
        rewrite (value_case_input arg f (Some value) o Ev) in Hp.
        destruct Hp as [Hp | (Ht & Hin & Hp)]; [by left |].
        right. split; [exact Ht |]. split; [| exact Hp].
        right. right. exact Hin.
    + destruct (help_case arg); [discriminate |].
      destruct (negb (startsWith arg (str "-"))) eqn:Hdash;
        destruct (truthy (cli_input o)) eqn:Hin; cbn [andb negb];
        intros Hp; apply IH in Hp; try (simpl; lia).
      * destruct Hp as [Hp | (Ht & _)]; [by left | congruence].
      * cbn [set_cli_input cli_input] in Hp.
        destruct Hp as [Hp | (Ht & Hin' & Hp)].
        -- destruct (truthy arg) eqn:Harg.
           ++ right. rewrite Hp. split; [reflexivity |].
              split; [by left |]. split; [| exact Harg].
              by apply negb_true_iff.
           ++ left. rewrite Hp. destruct arg; [| discriminate].
              by destruct (cli_input o).
        -- right. split; [reflexivity |]. split; [| exact Hp].
           by right.
      * destruct Hp as [Hp | (Ht & _)]; [by left | congruence].
      * destruct Hp as [Hp | (Ht & Hin' & Hp)]; [by left |].
        right. split; [reflexivity |]. split; [| exact Hp]. by right.
Qed.

(** X16: the input that [parseArgs] returns is empty, or it is one of the
    arguments, not empty and not starting with a hyphen. *)
Theorem parseArgs_input args o :
  parseArgs args = Parsed o ->
  cli_input o = []
  \/ (In (cli_input o) args
      /\ startsWith (cli_input o) (str "-") = false
      /\ cli_input o <> []).
Proof.
  intros Hp. apply parseArgs_from_input in Hp.
  destruct Hp as [Hp | (_ & Hin & Hdash & Ht)]; [by left |].
  right. split; [exact Hin |]. split; [exact Hdash |].
  intros Heq. rewrite Heq in Ht. discriminate.
Qed.

(** Once an input is set the loop keeps it. *)
Lemma parseArgs_from_keeps_input args o o' :
  truthy (cli_input o) = true ->
  parseArgs_from args o = Parsed o' -> cli_input o' = cli_input o.
Proof.
  intros Ht Hp. apply parseArgs_from_input in Hp.
  destruct Hp as [Hp | (Hf & _)]; [exact Hp | congruence].
Qed.

(** X17: when the first argument is not empty and does not start with a
    hyphen, it is the input, whatever follows: later positional arguments
    are ignored. *)
Theorem parseArgs_first_positional arg args o :
  startsWith arg (str "-") = false ->
  arg <> [] ->
  parseArgs (arg :: args) = Parsed o ->
  cli_input o = arg.
Proof.
  intros Hpos Hne. unfold parseArgs. cbn [parseArgs_from].
  destruct (positional_no_case arg Hpos) as [-> ->].
  rewrite Hpos. cbn [negb andb cli_input truthy].
  intros Hp. apply parseArgs_from_keeps_input in Hp; [exact Hp |].
  cbn [set_cli_input cli_input]. by destruct arg.
Qed.

Lemma parseArgs_from_exit args :
  forall o code,
    parseArgs_from args o = Exited code ->
    code = 0%nat /\ (In (str "--help") args \/ In (str "-h") args).
Proof.
  induction args as [args IH] using (induction_ltof1 _ (@length _)).
  unfold ltof in IH. intros o code. destruct args as [| arg rest];
    [discriminate |].
  cbn [parseArgs_from]. destruct (value_case arg) as [f |].
  - destruct rest as [| value rest']; [discriminate |].
    intros Hp. apply IH in Hp as [-> Hin]; [| simpl; lia].
    split; [reflexivity |]. cbn [In]. tauto.
  - destruct (help_case arg) eqn:Hh.
    + intros [= <-]. split; [reflexivity |].
      apply help_case_literal in Hh as [-> | ->]; cbn [In]; auto.
    + intros Hp. apply IH in Hp as [-> Hin]; [| simpl; lia].
      split; [reflexivity |]. cbn [In]. tauto.
Qed.

(** X18: [parseArgs] ends the process only with the exit code 0, and only
    when [--help] or [-h] is among the arguments. *)
Theorem parseArgs_exit args code :
  parseArgs args = Exited code ->
  code = 0%nat /\ (In (str "--help") args \/ In (str "-h") args).
Proof. apply parseArgs_from_exit. Qed.

End ParseArgs.

Lemma parseArgs_input_witness :
  parseArgs [str "--focus"; str "-x"; str "-v"; str "notes.txt"; str "b.txt"]
  = Parsed {| cli_input := str "notes.txt"; cli_output := None;
              cli_focus := Some (str "-x"); cli_format := None;
              cli_provider := None; cli_model := None |}
  /\ (str "notes.txt" = []
      \/ (In (str "notes.txt")
            [str "--focus"; str "-x"; str "-v"; str "notes.txt"; str "b.txt"]
          /\ startsWith (str "notes.txt") (str "-") = false
          /\ str "notes.txt" <> [])).
Proof.
  assert (Hp : parseArgs
                 [str "--focus"; str "-x"; str "-v"; str "notes.txt";
                  str "b.txt"]
               = Parsed {| cli_input := str "notes.txt"; cli_output := None;
                           cli_focus := Some (str "-x"); cli_format := None;
                           cli_provider := None; cli_model := None |})
    by (vm_compute; reflexivity).
  split; [exact Hp |].
  exact (parseArgs_input _ _ Hp).
Defined.

Lemma parseArgs_first_positional_witness :
  startsWith (str "a.txt") (str "-") = false
  /\ parseArgs [str "a.txt"; str "b.txt"; str "-o"; str "out"]
     = Parsed {| cli_input := str "a.txt"; cli_output := Some (str "out");
                 cli_focus := None; cli_format := None; cli_provider := None;
                 cli_model := None |}
  /\ str "a.txt" = str "a.txt".
Proof.
  assert (Hp : parseArgs [str "a.txt"; str "b.txt"; str "-o"; str "out"]
               = Parsed {| cli_input := str "a.txt";
                           cli_output := Some (str "out");
                           cli_focus := None; cli_format := None;
                           cli_provider := None; cli_model := None |})
    by (vm_compute; reflexivity).
  split; [reflexivity |]. split; [exact Hp |].
  apply (parseArgs_first_positional (str "a.txt")
           [str "b.txt"; str "-o"; str "out"] _ eq_refl ltac:(discriminate) Hp).
Defined.

Lemma parseArgs_exit_witness :
  parseArgs [str "note"; str "-h"; str "--output"] = Exited 0
  /\ 0%nat = 0%nat
  /\ (In (str "--help") [str "note"; str "-h"; str "--output"]
      \/ In (str "-h") [str "note"; str "-h"; str "--output"]).
Proof.
  assert (Hp : parseArgs [str "note"; str "-h"; str "--output"] = Exited 0)
    by (vm_compute; reflexivity).
  split; [exact Hp |]. exact (parseArgs_exit _ _ Hp).
Defined.

(** A help flag in the place of an option value is the value: the process
    does not exit. *)
Example parseArgs_help_as_value :
  parseArgs [str "--focus"; str "--help"; str "note"]
  = Parsed {| cli_input := str "note"; cli_output := None;
              cli_focus := Some (str "--help"); cli_format := None;
              cli_provider := None; cli_model := None |}.
Proof. vm_compute. reflexivity. Qed.

(** An option flag in the last place sets its option to [undefined]. *)
Example parseArgs_trailing_flag :
  parseArgs [str "-o"; str "out"; str "note"; str "-o"]
  = Parsed {| cli_input := str "note"; cli_output := None;
              cli_focus := None; cli_format := None; cli_provider := None;
              cli_model := None |}.
Proof. vm_compute. reflexivity. Qed.

(** ** Resolving the input *)

Section ResolveInputProperties.
Context `{CliPlatform}.

(** X19: [resolveInput] never fails, and its result is fixed by three
    cases.  For an input with the scheme of a URL the result is the input,
    and for an input with the suffix of a PDF or image file it is the
    resolved path; in both cases no file is read and the world is left as
    it is.  For any other input the file at the resolved path is read:
    when that succeeds the result is the content of the file, and when it
    fails the error is dropped and the result is the input itself. *)
Theorem resolveInput_total (inp : jsstring) (w : World) :
  exists v w',
    resolveInput inp w = (Ok v, w')
    /\ (v = inp \/ v = path_resolve inp
        \/ readFile_utf8 (path_resolve inp) w = (Ok v, w'))
    /\ (matches_http_scheme inp = true -> v = inp /\ w' = w)
    /\ (matches_http_scheme inp = false ->
        matches_binary_suffix inp = true ->
        v = path_resolve inp /\ w' = w)
    /\ (matches_http_scheme inp = false ->
        matches_binary_suffix inp = false ->
        forall c w1,
          readFile_utf8 (path_resolve inp) w = (Ok c, w1) ->
          v = c /\ w' = w1)
    /\ (matches_http_scheme inp = false ->
        matches_binary_suffix inp = false ->
        forall e w1,
          readFile_utf8 (path_resolve inp) w = (Throw e, w1) ->
          v = inp /\ w' = w1).
Proof.
  unfold resolveInput.
  destruct (matches_http_scheme inp).
  { exists inp, w. split; [reflexivity |]. split; [by left |].
    split; [done |]. repeat split; discriminate. }
  destruct (matches_binary_suffix inp).
  { exists (path_resolve inp), w. split; [reflexivity |].
    split; [right; by left |]. split; [discriminate |].
    split; [done |]. split; discriminate. }
  assert (Hread : exists v w',
             try_catch (readFile_utf8 (path_resolve inp))
               (fun _ => mret inp) w = (Ok v, w')
             /\ (v = inp
                 \/ readFile_utf8 (path_resolve inp) w = (Ok v, w'))
             /\ (forall c w1,
                   readFile_utf8 (path_resolve inp) w = (Ok c, w1) ->
                   v = c /\ w' = w1)
             /\ (forall e w1,
                   readFile_utf8 (path_resolve inp) w = (Throw e, w1) ->
                   v = inp /\ w' = w1)).
  { unfold try_catch.
    destruct (readFile_utf8 (path_resolve inp) w) as [[v | e] w'].
    - exists v, w'. split; [reflexivity |]. split; [by right |].
      split; [by intros c w1 [= -> ->] | discriminate].
    - exists inp, w'. split; [reflexivity |]. split; [by left |].
      split; [discriminate | by intros e1 w1 [= _ ->]]. }
  destruct Hread as (v & w' & Hr & Hv & Hok & Hthrow).
  exists v, w'. destruct (matches_text_suffix inp);
    (split; [exact Hr |]); (split; [tauto |]);
    (split; [discriminate |]); (split; [discriminate |]);
    (split; intros _ _; assumption).
Qed.

(** On the simulated platform, a text that names no file of the disk is
    passed on as it is, and the content of a file of the disk replaces its
    name. *)
Example resolveInput_no_such_file :
  resolveInput (H0 := SimCli.cli true) hello_note (Sim.world0 5 [])
  = (Ok hello_note, Sim.world0 5 []).
Proof. vm_compute. reflexivity. Qed.

Lemma startsWith_ci_app (s t pat : jsstring) :
  startsWith_ci s pat = true -> startsWith_ci (s ++ t) pat = true.
Proof.
  revert s. induction pat as [| p pat IH]; intros s;
    [intros _; destruct s, t; reflexivity |].
  destruct s as [| c s]; [discriminate |]. simpl.
  intros [Hc Hs]%andb_true_iff. rewrite Hc. simpl. by apply IH.
Qed.

Lemma matches_http_scheme_trimEnd (s : jsstring) :
  matches_http_scheme (trimEnd s) = true -> matches_http_scheme s = true.
Proof.
  destruct (trimEnd_split s) as (t & Hs & _).
  unfold matches_http_scheme. intros [Hm | Hm]%orb_true_iff;
    apply (startsWith_ci_app _ t) in Hm; rewrite <- Hs in Hm;
    rewrite Hm; [reflexivity | apply orb_true_r].
Qed.

(** X20: an input that the classification node takes for a URL and that
    has no white space in front reaches it unchanged: [resolveInput]
    returns it as it is and reads no file. *)
Theorem resolveInput_url (inp : jsstring) (w : World) :
  detectInputType inp = Url ->
  trimStart inp = inp ->
  resolveInput inp w = (Ok inp, w).
Proof.
  intros Hurl Hstart.
  assert (Hscheme : matches_http_scheme inp = true).
  { apply matches_http_scheme_trimEnd.
    unfold detectInputType, isUrl, trim in Hurl. rewrite Hstart in Hurl.
    destruct (matches_http_scheme (trimEnd inp)); [reflexivity |].
    simpl in Hurl.
    destruct (isPdfFile (trimEnd inp)); [discriminate |].
    destruct (isImageFile (trimEnd inp)); discriminate. }
  unfold resolveInput. rewrite Hscheme. reflexivity.
Qed.

End ResolveInputProperties.

Lemma resolveInput_url_witness :
  detectInputType (H := Sim.platform false) SimRun.dead_link = Url
  /\ trimStart SimRun.dead_link = SimRun.dead_link
  /\ resolveInput (H0 := SimCli.cli false) SimRun.dead_link
       (Sim.world0 5 [])
     = (Ok SimRun.dead_link, Sim.world0 5 []).
Proof.
  split; [vm_compute; reflexivity |]. split; [reflexivity |].
  apply (resolveInput_url (H0 := SimCli.cli false) SimRun.dead_link
           (Sim.world0 5 [])).
  - vm_compute. reflexivity.
  - reflexivity.
Defined.

(** ** The PDF and image tests *)

Section Suffixes.
Context `{Platform}.

(** X21: no input passes both the PDF test and the image test, so the
    order of these two tests in the classification does not matter. *)
Theorem isPdfFile_not_image (inp : jsstring) :
  isPdfFile inp = true -> isImageFile inp = false.
Proof.
  unfold isPdfFile, isImageFile, endsWith.
  cbn [existsb imageExtensions].
  change (rev (str ".pdf")) with [102; 100; 112; 46].
  change (rev (str ".png")) with [103; 110; 112; 46].
  change (rev (str ".jpg")) with [103; 112; 106; 46].
  change (rev (str ".jpeg")) with [103; 101; 112; 106; 46].
  change (rev (str ".gif")) with [102; 105; 103; 46].
  change (rev (str ".bmp")) with [112; 109; 98; 46].
  change (rev (str ".webp")) with [112; 98; 101; 119; 46].
  change (rev (str ".tiff")) with [102; 102; 105; 116; 46].
  destruct (rev (toLowerCase inp)) as [| a [| b l]];
    cbn [startsWith]; try discriminate.
  - rewrite andb_false_r. discriminate.
  - destruct (N.eqb_spec a 102) as [-> |]; [| discriminate].
    destruct (N.eqb_spec b 100) as [-> |]; [| discriminate].
    intros _. reflexivity.
Qed.

End Suffixes.

Lemma isPdfFile_not_image_witness :
  isPdfFile (H := Sim.platform true) (str "Paper.PDF") = true
  /\ isImageFile (H := Sim.platform true) (str "Paper.PDF") = false.
Proof.
  split; [reflexivity |].
  apply (isPdfFile_not_image (H := Sim.platform true) (str "Paper.PDF")).
  reflexivity.
Defined.

(** ** The lines of the header *)

Section HeaderLines.
Implicit Types (s t : jsstring).

Lemma line_feeds_app s t :
  line_feeds (s ++ t) = (line_feeds s + line_feeds t)%nat.
Proof. unfold line_feeds. by rewrite List.filter_app, length_app. Qed.

Lemma line_feeds_none s : Forall (fun c => c <> 10) s -> line_feeds s = 0%nat.
Proof.
  unfold line_feeds. induction 1 as [| c s Hc Hs IH]; [reflexivity |]. simpl.
  destruct (N.eqb_spec c 10); [done | exact IH].
Qed.

Lemma escapeYamlString_no_line_feed s :
  Forall (fun c => c <> 10) s ->
  Forall (fun c => c <> 10) (escapeYamlString s).
Proof.
  induction 1 as [| c s Hc Hs IH]; [constructor |].
  change (escapeYamlString (c :: s))
    with ((if c =? 34 then [92; 34] else [c]) ++ escapeYamlString s).
  apply Forall_app. split; [| exact IH].
  destruct (c =? 34); repeat constructor; done.
Qed.

Lemma Number_toString_no_line_feed (n : nat) :
  Forall (fun c => c <> 10) (Number_toString n).
Proof.
  eapply Forall_impl; [apply digits_isDigit |].
  intros c Hc ->. discriminate.
Qed.

Lemma LayerName_no_line_feed (name : LayerName) :
  Forall (fun c => c <> 10) (str (LayerName_string name)).
Proof. destruct name; repeat constructor; discriminate. Qed.

(** X22: when the title, the source type, the creation time and the
    author have no line feed, every field of the header stands on a line
    of its own: the header has eight lines, and a ninth for an author that
    is not empty. *)
Theorem generateFrontmatter_lines (md : LayerMetadata) :
  Forall (fun c => c <> 10) (lm_title md) ->
  Forall (fun c => c <> 10) (lm_sourceType md) ->
  Forall (fun c => c <> 10) (lm_created md) ->
  Forall (fun c => c <> 10) (default [] (lm_author md)) ->
  line_feeds (generateFrontmatter md)
  = (8 + (if slot_nonempty (lm_author md) then 1 else 0))%nat.
Proof.
  intros Ht Hs Hc Ha. rewrite generateFrontmatter_layout.
  unfold artifact_header.
  pose proof (line_feeds_none _ (escapeYamlString_no_line_feed _ Ht)) as Et.
  pose proof (line_feeds_none _ Hs) as Es.
  pose proof (line_feeds_none _ Hc) as Ec.
  pose proof (line_feeds_none _ (escapeYamlString_no_line_feed _ Ha)) as Ea.
  pose proof (line_feeds_none _ (Number_toString_no_line_feed (lm_layer md)))
    as El.
  pose proof (line_feeds_none _
                (Number_toString_no_line_feed (lm_wordCount md))) as Ew.
  pose proof (line_feeds_none _ (LayerName_no_line_feed (lm_layerName md)))
    as En.
  destruct (slot_nonempty (lm_author md));
    rewrite !line_feeds_app, ?Et, ?Es, ?Ec, ?Ea, ?El, ?Ew, ?En;
    reflexivity.
Qed.

End HeaderLines.

Lemma generateFrontmatter_lines_witness :
  line_feeds
    (generateFrontmatter
       {| lm_title := str "Note"; lm_layer := 1;
          lm_layerName := InitialCapture; lm_sourceType := str "text";
          lm_created := str "2024-01-15T14:30:22.000Z";
          lm_wordCount := 9; lm_author := Some (str "Ada") |})
  = 9%nat.
Proof.
  apply (generateFrontmatter_lines
           {| lm_title := str "Note"; lm_layer := 1;
              lm_layerName := InitialCapture; lm_sourceType := str "text";
              lm_created := str "2024-01-15T14:30:22.000Z";
              lm_wordCount := 9; lm_author := Some (str "Ada") |});
    repeat constructor; discriminate.
Defined.

(** ** The title of a file path *)

Section PathTitles.
Import PathTitle.
Implicit Types (s t : jsstring) (c : N).

Lemma takeWhile_app_stop {A} (p : A -> bool) (l k : list A) (x : A) :
  Forall (fun y => p y = true) l -> p x = false ->
  takeWhile p (l ++ x :: k) = l.
Proof.
  intros Hl Hx. induction Hl as [| y l Hy Hl IH]; simpl.
  - by rewrite Hx.
  - by rewrite Hy, IH.
Qed.

Lemma takeWhile_all {A} (p : A -> bool) (l : list A) :
  Forall (fun y => p y = true) l -> takeWhile p l = l.
Proof.
  induction 1 as [| y l Hy Hl IH]; simpl; [reflexivity |].
  by rewrite Hy, IH.
Qed.

Lemma no_slash_rev (name : jsstring) :
  Forall (fun c => c <> 47) name ->
  Forall (fun c => negb (c =? 47) = true) (rev name).
Proof.
  intros Hname. apply Forall_rev. eapply Forall_impl; [exact Hname |].
  intros c Hc. apply negb_true_iff. by apply N.eqb_neq.
Qed.

Lemma lastSegment_app (dir name : jsstring) :
  Forall (fun c => c <> 47) name -> name <> [] ->
  lastSegment (dir ++ 47 :: name) = name.
Proof.
  intros Hname Hne. unfold lastSegment.
  rewrite rev_app_distr. cbn [rev]. rewrite <- app_assoc. cbn [app].
  rewrite takeWhile_app_stop;
    [| by apply no_slash_rev | reflexivity].
  rewrite rev_involutive. unfold or_else.
  destruct name; [done | reflexivity].
Qed.

Lemma lastSegment_plain (name : jsstring) :
  Forall (fun c => c <> 47) name -> lastSegment name = name.
Proof.
  intros Hname. unfold lastSegment.
  rewrite takeWhile_all by (by apply no_slash_rev).
  rewrite rev_involutive. unfold or_else. by destruct (truthy name).
Qed.

(** X23: the title of a path depends on its last segment only: a
    directory in front of a file name does not change the title. *)
Theorem extractTitleFromPath_directory (dir name : jsstring) :
  Forall (fun c => c <> 47) name -> name <> [] ->
  PathTitle.extractTitleFromPath (dir ++ 47 :: name)
  = PathTitle.extractTitleFromPath name.
Proof.
  intros Hname Hne. unfold PathTitle.extractTitleFromPath.
  by rewrite (lastSegment_app dir name Hname Hne),
       (lastSegment_plain name Hname).
Qed.

Lemma upperWordChar_plain c :
  c <> 45 /\ c <> 95 -> upperWordChar c <> 45 /\ upperWordChar c <> 95.
Proof.
  unfold upperWordChar.
  destruct (N.leb_spec 97 c); destruct (N.leb_spec c 122); simpl; lia.
Qed.

Lemma capitalizeWords_plain (in_word : bool) s :
  Forall (fun c => c <> 45 /\ c <> 95) s ->
  Forall (fun c => c <> 45 /\ c <> 95) (capitalizeWords in_word s).
Proof.
  intros Hs. revert in_word. induction Hs as [| c s Hc Hs IH];
    intros in_word; simpl; [constructor |].
  destruct (isWordChar c); constructor; auto.
  destruct in_word; [exact Hc | by apply upperWordChar_plain].
Qed.

Lemma capitalizeWords_length (in_word : bool) s :
  length (capitalizeWords in_word s) = length s.
Proof.
  revert in_word. induction s as [| c s IH]; intros in_word; simpl;
    [reflexivity |].
  destruct (isWordChar c); simpl; by rewrite IH.
Qed.

Lemma hyphensToSpaces_plain s :
  Forall (fun c => c <> 45 /\ c <> 95) (hyphensToSpaces s).
Proof.
  unfold hyphensToSpaces. apply Forall_forall. intros c Hc.
  apply list_elem_of_In, in_map_iff in Hc as (d & <- & _).
  destruct (N.eqb_spec d 45); destruct (N.eqb_spec d 95); simpl; lia.
Qed.

(** X24: the title of a path contains neither hyphen nor underscore, and
    has as many code units as the part of the path it is made from. *)
Theorem extractTitleFromPath_plain (filePath : jsstring) :
  Forall (fun c => c <> 45 /\ c <> 95)
    (PathTitle.extractTitleFromPath filePath)
  /\ length (PathTitle.extractTitleFromPath filePath)
     = length (removeExtension (lastSegment filePath)).
Proof.
  unfold PathTitle.extractTitleFromPath. split.
  - apply capitalizeWords_plain, hyphensToSpaces_plain.
  - rewrite capitalizeWords_length. unfold hyphensToSpaces.
    apply length_map.
Qed.

End PathTitles.

Lemma extractTitleFromPath_directory_witness :
  PathTitle.extractTitleFromPath (str "/home/ada/my-first_report.v2.pdf")
  = str "My First Report.V2"
  /\ PathTitle.extractTitleFromPath (str "my-first_report.v2.pdf")
     = str "My First Report.V2".
Proof.
  assert (Hname : PathTitle.extractTitleFromPath (str "my-first_report.v2.pdf")
                  = str "My First Report.V2") by (vm_compute; reflexivity).
  split; [| exact Hname]. rewrite <- Hname.
  apply (extractTitleFromPath_directory (str "/home/ada")
           (str "my-first_report.v2.pdf")).
  - repeat constructor; discriminate.
  - discriminate.
Defined.

(** A path that ends in a slash has an empty last segment, and the whole
    path is taken. *)
Example extractTitleFromPath_trailing_slash :
  PathTitle.extractTitleFromPath (str "notes/") = str "Notes/".
Proof. vm_compute. reflexivity. Qed.

(** ** The shape of the flow *)

Section FlowShape.
Context `{Platform} `{Templates} `{EngineDefaults}.

(** The routing table of [createNoteFlow], node by node. *)
Lemma createNoteFlow_table (n : NoteNode) :
  successors createNoteFlow n
  = match n with
    | InputDetector =>
        <["url"%string := ContentExtractor]>
          (<["image"%string := ContentExtractor]>
             (<["pdf"%string := ContentExtractor]>
                (<["text"%string := ContentExtractor]> ∅)))
    | ContentExtractor => <["default"%string := Layer1Capture]> ∅
    | Layer1Capture => <["default"%string := Layer2Bold]> ∅
    | Layer2Bold => <["default"%string := Layer3Distill]> ∅
    | Layer3Distill => <["default"%string := Layer4Summary]> ∅
    | Layer4Summary => <["default"%string := Layer5Creative]> ∅
    | Layer5Creative => <["default"%string := FileSaver]> ∅
    | FileSaver => ∅
    end.
Proof. destruct n; reflexivity. Qed.

(** X25: the routing table of [createNoteFlow] only leads forward: under
    every label, the successor of a node is the next node of the chain.
    So the table has no cycle.  The classification node has no successor
    under the label "default", and a successor under any other label that
    is none of [text], [pdf], [image] and [url] neither; the save node has
    no successor at all. *)
Theorem createNoteFlow_forward (n : NoteNode) (label : string) :
  (forall m, successors createNoteFlow n !! label = Some m ->
     chain_rank m = S (chain_rank n))
  /\ successors createNoteFlow InputDetector !! "default"%string = None
  /\ (label <> "text"%string -> label <> "pdf"%string ->
      label <> "image"%string -> label <> "url"%string ->
      successors createNoteFlow InputDetector !! label = None)
  /\ successors createNoteFlow FileSaver !! label = None.
Proof.
  split; [| split; [reflexivity | split]].
  - intros m. pose proof (createNoteFlow_table n) as Ht. revert Ht.
    generalize (successors createNoteFlow n). intros tbl ->.
    destruct n;
      repeat (rewrite lookup_insert_Some; intros [[_ <-] | [_ Hl]];
              [reflexivity | revert Hl]);
      rewrite lookup_empty; discriminate.
  - intros Htext Hpdf Himage Hurl.
    rewrite (createNoteFlow_table InputDetector).
    rewrite !lookup_insert_ne by congruence. apply lookup_empty.
  - rewrite (createNoteFlow_table FileSaver). apply lookup_empty.
Qed.

End FlowShape.

Lemma createNoteFlow_forward_witness :
  successors (Sim.note_flow true) Layer2Bold !! "default"%string
  = Some Layer3Distill
  /\ chain_rank Layer3Distill = S (chain_rank Layer2Bold)
  /\ successors (Sim.note_flow true) InputDetector !! "default"%string
     = None.
Proof.
  assert (Hs : successors (Sim.note_flow true) Layer2Bold !! "default"%string
               = Some Layer3Distill) by reflexivity.
  split; [exact Hs |].
  destruct (createNoteFlow_forward (H := Sim.platform true)
              (H0 := Sim.templates) (H1 := Sim.defaults) Layer2Bold
              "default") as (Hforward & Hdefault & _).
  split; [exact (Hforward Layer3Distill Hs) | exact Hdefault].
Defined.
